(** * ND-Go access-control daemon: a shallow embedding of the gateway core

    The development follows the Go packages of the repository:
    [utils], [types], [pocket], [gat], [jsp], [cardlist], [httpclient],
    [session], [sphinx], [connection] and [daemon].  Every definition is a
    transcription of the Go function of the same name; the place in the
    source is given in the comment that precedes it.

    Conventions.
    - Go integers of every width are values of [Z]; a conversion to a fixed
      width is written out ([u8], [u16], [u32]).
    - A Go [[]byte] is a [list Z] of values in [0, 256); a Go [string] is a
      Rocq [string], i.e. its sequence of bytes (UTF-8 for the literals).
    - A Go [map[string]T] is a [gmap string T]; a [map[string]interface{}]
      is a [gmap string GoVal], where [GoVal] keeps the dynamic type that a
      Go type assertion inspects.
    - [time.Time] is a number of nanoseconds; all the readings of
      [time.Now()] made during one call are identified and passed as [now].
    - A function that returns [(T, error)] returns a [Res T]; a run-time
      panic (index out of range) is the third constructor, and a call that
      never returns, because it waits for a mutex that its own goroutine
      holds, is the fourth. The text of an error, which the program only
      prints, is kept without its formatted arguments. *)

From Stdlib Require Import ZArith String Ascii List Lia Bool Floats DecimalString.
From stdpp Require Import base option list gmap strings.

Set Warnings "-register-all".
Open Scope string_scope.
Open Scope list_scope.
Open Scope Z_scope.

(** ** Go run-time conventions *)

Inductive Res (A : Type) : Type :=
| Ok (a : A)
| Err (msg : string)
| Panic
| Blocked.
Arguments Ok {A} a.
Arguments Err {A} msg.
Arguments Panic {A}.
Arguments Blocked {A}.

Definition is_ok {A} (r : Res A) : bool :=
  match r with Ok _ => true | _ => false end.

Definition is_err {A} (r : Res A) : bool :=
  match r with Err _ => true | _ => false end.

Definition is_blocked {A} (r : Res A) : bool :=
  match r with Blocked => true | _ => false end.

Definition u8 (z : Z) : Z := z mod 256.
Definition u16 (z : Z) : Z := z mod 65536.
Definition u32 (z : Z) : Z := z mod 4294967296.

Definition len {A} (l : list A) : Z := Z.of_nat (length l).

(** [l[lo:hi]]; every use is guarded in the source by a bound check. *)
Definition slice {A} (l : list A) (lo hi : Z) : list A :=
  take (Z.to_nat (hi - lo)) (drop (Z.to_nat lo) l).

(** [l[i]] for an index that the source has checked. *)
Definition at_ (l : list Z) (i : Z) : Z := nth (Z.to_nat i) l 0.

(** [l[i]] with Go's bound check. *)
Definition index (l : list Z) (i : Z) : Res Z :=
  if (0 <=? i) && (i <? len l) then Ok (at_ l i) else Panic.

Definition byte_of_ascii (a : ascii) : Z := Z.of_N (N_of_ascii a).
Definition ascii_of_byte (b : Z) : ascii := ascii_of_N (Z.to_N (u8 b)).

(** [[]byte(s)] and [string(b)]. *)
Definition bytes_of_string (s : string) : list Z :=
  map byte_of_ascii (list_ascii_of_string s).
Definition string_of_bytes (l : list Z) : string :=
  string_of_list_ascii (map ascii_of_byte l).

Definition strlen (s : string) : Z := Z.of_nat (String.length s).

(** [binary.LittleEndian.Uint16] and [Uint32] on a slice of checked length. *)
Definition le16 (b : list Z) : Z := Z.lor (at_ b 0) (Z.shiftl (at_ b 1) 8).
Definition le32 (b : list Z) : Z :=
  Z.lor (Z.lor (at_ b 0) (Z.shiftl (at_ b 1) 8))
        (Z.lor (Z.shiftl (at_ b 2) 16) (Z.shiftl (at_ b 3) 24)).
Definition be16 (b : list Z) : Z := Z.lor (Z.shiftl (at_ b 0) 8) (at_ b 1).

(** Upper-case hexadecimal, as [fmt.Sprintf] prints with [%X] and [%02X]. *)
Definition hex_digit (n : Z) : ascii :=
  nth (Z.to_nat n)
      ["0"; "1"; "2"; "3"; "4"; "5"; "6"; "7"; "8"; "9";
       "A"; "B"; "C"; "D"; "E"; "F"]%char "0"%char.

Definition hex2 (b : Z) : string :=
  String (hex_digit (b / 16)) (String (hex_digit (b mod 16)) EmptyString).

(** [%02X] of a 16-bit value: at least two digits, no other padding. *)
Definition hex_min2 (v : Z) : string :=
  if v <? 256 then hex2 v
  else if v <? 4096 then String (hex_digit (v / 256)) (hex2 (v mod 256))
  else hex2 (v / 256) +:+ hex2 (v mod 256).

(** [%04X] of a value below 65536, [%06X] of a value below 2^24. *)
Definition hex4 (v : Z) : string := hex2 (v / 256 mod 256) +:+ hex2 (v mod 256).
Definition hex6 (v : Z) : string := hex2 (v / 65536 mod 256) +:+ hex4 v.

(** The hexadecimal digits of [v], at least [w] of them: the verb [%0wX] of
    a non-negative integer. [fuel] bounds the number of digits. *)
Fixpoint hex_digits (fuel : nat) (w : nat) (v : Z) (acc : string) : string :=
  match fuel with
  | O => acc
  | S n =>
      if (v =? 0) && (w =? 0)%nat then acc
      else hex_digits n (Nat.pred w) (v / 16) (String (hex_digit (v mod 16)) acc)
  end.
Definition hexw (w : nat) (v : Z) : string :=
  if (v =? 0) && (w =? 0)%nat then "0"
  else hex_digits (w + Z.to_nat (Z.log2 v) + 1) w v EmptyString.

(** [int(f)] for a [float64]: truncation toward zero; outside the range of
    [int64] (and for NaN and the infinities) Go leaves the result to the
    implementation, and the amd64 instruction yields the least [int64]. *)
Definition int_of_float64 (f : float) : Z :=
  match Prim2SF f with
  | S754_zero _ => 0
  | S754_finite s m e =>
      let v := if 0 <=? e then Z.pos m * 2 ^ e else Z.pos m / 2 ^ (- e) in
      let r := if s then - v else v in
      if (- 2 ^ 63 <=? r) && (r <? 2 ^ 63) then r else - 2 ^ 63
  | _ => - 2 ^ 63
  end.

(** [strconv.Itoa] and the verb [%d]. *)
Definition itoa (z : Z) : string := NilZero.string_of_int (Z.to_int z).

(** [time.Second] in nanoseconds, and [time.Duration(f * float64(time.Second))]. *)
Definition Second : Z := 1000000000.
Definition duration_of_seconds (f : float) : Z :=
  int_of_float64 (PrimFloat.mul f 1e9%float).

(** ** Go's [strings] package, on byte strings *)

Module gostrings.

Definition upper_byte (b : Z) : Z :=
  if (97 <=? b) && (b <=? 122) then b - 32 else b.
Definition lower_byte (b : Z) : Z :=
  if (65 <=? b) && (b <=? 90) then b + 32 else b.

(** [strings.ToUpper] and [strings.ToLower] on the ASCII letters. Bytes
    from [0x80] on are left as they are: the case mapping of the letters
    outside ASCII is not modelled. *)
Definition ToUpper (s : string) : string :=
  string_of_bytes (map upper_byte (bytes_of_string s)).
Definition ToLower (s : string) : string :=
  string_of_bytes (map lower_byte (bytes_of_string s)).

(** The ASCII members of [unicode.IsSpace]: tab, LF, VT, FF, CR, space. *)
Definition ascii_space (b : Z) : bool :=
  ((9 <=? b) && (b <=? 13)) || (b =? 32).

(** The UTF-8 encodings of the other white-space runes: U+0085, U+00A0,
    U+1680, U+2000..U+200A, U+2028, U+2029, U+202F, U+205F, U+3000. *)
Definition space2 (a b : Z) : bool :=
  (a =? 194) && ((b =? 133) || (b =? 160)).
Definition space3 (a b c : Z) : bool :=
  ((a =? 225) && (b =? 154) && (c =? 128))
  || ((a =? 226) && (b =? 128)
      && (((128 <=? c) && (c <=? 138)) || (c =? 168) || (c =? 169) || (c =? 175)))
  || ((a =? 226) && (b =? 129) && (c =? 159))
  || ((a =? 227) && (b =? 128) && (c =? 128)).

(** What is left of [l] after one leading white-space rune. *)
Definition drop_space (l : list Z) : option (list Z) :=
  match l with
  | a :: r1 =>
      if ascii_space a then Some r1
      else match r1 with
           | b :: r2 =>
               if space2 a b then Some r2
               else match r2 with
                    | c :: r3 => if space3 a b c then Some r3 else None
                    | [] => None
                    end
           | [] => None
           end
  | [] => None
  end.

(** The same from the end of the string, on the reversed bytes. *)
Definition drop_space_rev (l : list Z) : option (list Z) :=
  match l with
  | a :: r1 =>
      if ascii_space a then Some r1
      else match r1 with
           | b :: r2 =>
               if space2 b a then Some r2
               else match r2 with
                    | c :: r3 => if space3 c b a then Some r3 else None
                    | [] => None
                    end
           | [] => None
           end
  | [] => None
  end.

Fixpoint strip (step : list Z -> option (list Z)) (fuel : nat) (l : list Z)
  : list Z :=
  match fuel with
  | O => l
  | S n => match step l with Some r => strip step n r | None => l end
  end.

(** [strings.TrimSpace]: at most [length l] runes can be removed. *)
Definition TrimSpace (s : string) : string :=
  let l := bytes_of_string s in
  let l := strip drop_space (length l) l in
  string_of_bytes (rev (strip drop_space_rev (length l) (rev l))).

(** Does [b] match the character class of the MEMREG keys,
    [[A-Za-z\d\_\-\+]]? *)
Definition key_char (b : Z) : bool :=
  ((65 <=? b) && (b <=? 90)) || ((97 <=? b) && (b <=? 122))
  || ((48 <=? b) && (b <=? 57)) || (b =? 95) || (b =? 45) || (b =? 43).

(** [l] cut at its first occurrence of [sep]. *)
Fixpoint cut (sep : Z) (l : list Z) : list Z * option (list Z) :=
  match l with
  | [] => ([], None)
  | b :: r =>
      if b =? sep then ([], Some r)
      else let '(x, y) := cut sep r in (b :: x, y)
  end.

End gostrings.

(** ** Package [types] (src/unnamed/part_014, second document) *)

Module types.

Inductive TerminalType := TTYPE_GAT | TTYPE_POCKET | TTYPE_SPHINX | TTYPE_JSP
                        | TTYPE_other (s : string).

Definition TerminalType_eqb (a b : TerminalType) : bool :=
  match a, b with
  | TTYPE_GAT, TTYPE_GAT | TTYPE_POCKET, TTYPE_POCKET
  | TTYPE_SPHINX, TTYPE_SPHINX | TTYPE_JSP, TTYPE_JSP => true
  | TTYPE_other s, TTYPE_other t => String.eqb s t
  | _, _ => false
  end.

(** [type SessionStage int] with its eleven constants, in [iota] order. *)
Inductive SessionStage :=
| SESSION_STAGE_INIT
| SESSION_STAGE_KPO_RESULT
| SESSION_STAGE_KPO_DIRECT
| SESSION_STAGE_CAM_RESULT
| SESSION_STAGE_OPEN_FIRST
| SESSION_STAGE_FIRST_PASSED
| SESSION_STAGE_OPEN_SECOND
| SESSION_STAGE_SECOND_PASSED
| SESSION_STAGE_PASSED
| SESSION_STAGE_LAST_ANSWER
| SESSION_STAGE_DONE.

(** The integer behind each constant. *)
Definition stage_num (s : SessionStage) : Z :=
  match s with
  | SESSION_STAGE_INIT => 0
  | SESSION_STAGE_KPO_RESULT => 1
  | SESSION_STAGE_KPO_DIRECT => 2
  | SESSION_STAGE_CAM_RESULT => 3
  | SESSION_STAGE_OPEN_FIRST => 4
  | SESSION_STAGE_FIRST_PASSED => 5
  | SESSION_STAGE_OPEN_SECOND => 6
  | SESSION_STAGE_SECOND_PASSED => 7
  | SESSION_STAGE_PASSED => 8
  | SESSION_STAGE_LAST_ANSWER => 9
  | SESSION_STAGE_DONE => 10
  end.

Inductive KPOResult := KPO_RES_UNDEF | KPO_RES_YES | KPO_RES_NO | KPO_RES_FAIL.
Inductive CamResult :=
  CAM_RES_UNDEF | CAM_RES_YES | CAM_RES_NO | CAM_RES_FAIL | CAM_RES_NF.

Definition KPOResult_eqb (a b : KPOResult) : bool :=
  match a, b with
  | KPO_RES_UNDEF, KPO_RES_UNDEF | KPO_RES_YES, KPO_RES_YES
  | KPO_RES_NO, KPO_RES_NO | KPO_RES_FAIL, KPO_RES_FAIL => true
  | _, _ => false
  end.

Definition CamResult_eqb (a b : CamResult) : bool :=
  match a, b with
  | CAM_RES_UNDEF, CAM_RES_UNDEF | CAM_RES_YES, CAM_RES_YES
  | CAM_RES_NO, CAM_RES_NO | CAM_RES_FAIL, CAM_RES_FAIL
  | CAM_RES_NF, CAM_RES_NF => true
  | _, _ => false
  end.

Record LockerInfo := {
  AuthErr : Z;
  ReadErr : Z;
  IsPasstech : bool;
  BlockNo : Z;
  Litera : string;
  Locked : bool;
  CabNo : Z
}.

(** A value of type [interface{}] with the dynamic types the core stores. *)
Inductive GoVal : Type :=
| VNil
| VBool (b : bool)
| VInt (z : Z)
| VUint8 (z : Z)
| VUint16 (z : Z)
| VInt16 (z : Z)
| VUint32 (z : Z)
| VFloat64 (f : float)
| VString (s : string)
| VBytes (l : list Z)
| VStrings (l : list string)
| VLockers (l : list LockerInfo)
| VKPOResult (r : KPOResult)
| VCamResult (r : CamResult)
| VTime (t : Z)
| VSlice (l : list GoVal)
| VMap (m : gmap string GoVal).

(** [type Packet struct]; [Code] and [Flags] are pointers. *)
Record Packet := {
  Cmd : Z;
  Code : option Z;
  Flags : option Z;
  Payload : string;
  Data : gmap string GoVal
}.

(** [type TerminalSettings struct]; [Proxy] and [Apkeys], which the core
    does not read, are left out. [Extra] may be the nil map. *)
Record TerminalSettings := {
  ID : string;
  IP : string;
  Port : Z;
  Type_ : TerminalType;
  UTF : bool;
  RegQuery : bool;
  ConfigString : string;
  DenyLockers : bool;
  DenyCT : bool;
  CTRole : string;
  MemRegDev : string;
  MemRegDeny : string;
  MemRegRole : string;
  Extra : option (gmap string GoVal)
}.

(** [type Connection struct] of package [types]: the view that
    [GetConnection] returns. *)
Record Connection := {
  Key : string;
  ConKey : string;
  CIP : string;
  CPort : Z;
  Settings : option TerminalSettings;
  StartTime : Z;
  LastActivity : Z;
  Connected : bool
}.

Record SessionWait := {
  ProcType : Z;
  ExpireTime : Z;
  DstStage : SessionStage;
  Params : option (gmap string GoVal)
}.

Record Session := {
  SID : string;
  SKey : string;
  Apkey : string;
  UID : string;
  UIDRaw : string;
  CID : string;
  SData : gmap string GoVal;
  Stage : SessionStage;
  ReqTime : Z;
  Processed : bool;
  Completed : bool;
  ReportSent : bool;
  Alive : bool;
  Wait : option SessionWait
}.

(** The fields of [type Config struct] that the modelled functions read. *)
Record Config := {
  HTTPServiceIdentPath : string;
  HTTPServiceUrlFmtSuff : string;
  CamServiceActive : bool;
  CamAlwaysPass : bool;
  CamServiceResultMsgNo : string;
  CamServiceResultMsgNf : string;
  CamServiceResultMsgFail : string;
  ServiceRequestExpireTime : float;
  SessionExpireTime : float;
  ServiceAutofixExpired : bool;
  ServiceErrMsg : string;
  ServiceFixedMsg : string;
  ServiceDeniedMsg : string;
  ServiceLinkErrMsg : string;
  JSPDevAutoPingEnabled : bool;
  CRTNoKpoPass : bool
}.

End types.
Import types.

(** ** Package [utils] (src/pkg/utils/utils.go) *)

Module utils.

(** One turn of the inner loop of [CRC8], on a [uint8]. *)
Definition CRC8_shift (crc : Z) : Z :=
  if Z.testbit crc 7 then Z.lxor (u8 (Z.shiftl crc 1)) 49
  else u8 (Z.shiftl crc 1).

Definition CRC8_byte (crc b : Z) : Z :=
  Nat.iter 8 CRC8_shift (Z.lxor crc b).

(** [func CRC8(data []byte) uint8], polynomial [0x31], initial value 0. *)
Definition CRC8 (data : list Z) : Z := fold_left CRC8_byte data 0.

Definition EncodeUint16 (val : Z) : list Z :=
  [Z.land val 255; Z.land (Z.shiftr val 8) 255].

Definition EncodeUint32 (val : Z) : list Z :=
  [Z.land val 255; Z.land (Z.shiftr val 8) 255;
   Z.land (Z.shiftr val 16) 255; Z.land (Z.shiftr val 24) 255].

Definition DecodeUint16 (data : list Z) : Z :=
  if len data <? 2 then 0 else le16 data.

(** [EncodeTLV]: the tag alone when the value is empty. *)
Definition EncodeTLV (tag : Z) (value : list Z) : list Z :=
  if 0 <? len value then [tag] ++ [u8 (len value)] ++ value else [tag].

Definition BytesToHex (data : list Z) : string :=
  fold_right (fun b acc => hex2 b +:+ acc) EmptyString data.

Fixpoint join (sep : string) (l : list string) : string :=
  match l with
  | [] => EmptyString
  | [x] => x
  | x :: rest => x +:+ sep +:+ join sep rest
  end.

(** [NDs(data, sep, prefix)]. *)
Definition NDs (data : list Z) (sep prefix : string) : string :=
  join sep (map (fun b => prefix +:+ hex2 b) data).

(** [GetStringValue(data, key, defaultValue)]. *)
Definition GetStringValue (data : gmap string GoVal) (key def : string) : string :=
  match data !! key with
  | Some (VString s) => s
  | _ => def
  end.

(** *** The MEMREG store (src/unnamed/part_013, third document) *)

Inductive MemRegMode :=
  MEMREG_MODE_AUTO | MEMREG_MODE_SET | MEMREG_MODE_CLR
| MEMREG_MODE_DISP | MEMREG_MODE_TAKE.

Record MemRegKey := { Storage : string; Mode : MemRegMode }.

(** [storage_key -> uid_key -> value]. *)
Record MemRegStorage := { storage : gmap string (gmap string GoVal) }.

Definition all_key_chars (l : list Z) : bool :=
  negb (len l =? 0) && forallb gostrings.key_char l.

Definition parse_mode (m : string) : MemRegMode :=
  let smode := gostrings.ToLower (gostrings.TrimSpace m) in
  if String.eqb smode "set" || String.eqb smode "add" then MEMREG_MODE_SET
  else if String.eqb smode "clr" || String.eqb smode "clear"
          || String.eqb smode "del" then MEMREG_MODE_CLR
  else if String.eqb smode "disp" then MEMREG_MODE_DISP
  else if String.eqb smode "take" then MEMREG_MODE_TAKE
  else MEMREG_MODE_AUTO.

(** [ParseMemRegKey]. The regular expression
    [^([A-Za-z\d\_\-\+]+)(?:\/([A-Za-z\d\_\-\+]+))?$] accepts a non-empty
    run of key characters, optionally followed by a slash and a second such
    run; neither run can hold a slash, so the key is cut at its first one. *)
Definition ParseMemRegKey (key : string) : Res MemRegKey :=
  if String.eqb key "" then Err "empty key"
  else
    let key := gostrings.TrimSpace key in
    if (strlen key <? 1) || (64 <? strlen key) then Err "invalid key length"
    else
      match gostrings.cut 47 (bytes_of_string key) with
      | (st, None) =>
          if all_key_chars st
          then Ok {| Storage := string_of_bytes st; Mode := MEMREG_MODE_AUTO |}
          else Err "invalid key format"
      | (st, Some md) =>
          if all_key_chars st && all_key_chars md
          then Ok {| Storage := string_of_bytes st;
                     Mode := parse_mode (string_of_bytes md) |}
          else Err "invalid key format"
      end.

(** [Set], [Get], [Del] and [Has] of [*MemRegStorage]. *)
Definition Set_ (mrs : MemRegStorage) (storageKey uidKey : string) (value : GoVal)
  : MemRegStorage * Res unit :=
  match ParseMemRegKey storageKey with
  | Ok sk =>
      match ParseMemRegKey uidKey with
      | Ok uk =>
          let inner := default ∅ (storage mrs !! Storage sk) in
          ({| storage := <[Storage sk := <[Storage uk := value]> inner]> (storage mrs) |},
           Ok tt)
      | _ => (mrs, Err "invalid uid key")
      end
  | _ => (mrs, Err "invalid storage key")
  end.

Definition Get (mrs : MemRegStorage) (storageKey uidKey : string) : Res GoVal :=
  match ParseMemRegKey storageKey with
  | Ok sk =>
      match ParseMemRegKey uidKey with
      | Ok uk =>
          match storage mrs !! Storage sk with
          | None => Ok VNil
          | Some inner =>
              match inner !! Storage uk with
              | Some val => Ok val
              | None => Ok VNil
              end
          end
      | _ => Err "invalid uid key"
      end
  | _ => Err "invalid storage key"
  end.

Definition Del (mrs : MemRegStorage) (storageKey uidKey : string)
  : MemRegStorage * Res unit :=
  match ParseMemRegKey storageKey with
  | Ok sk =>
      match ParseMemRegKey uidKey with
      | Ok uk =>
          match storage mrs !! Storage sk with
          | Some inner =>
              ({| storage := <[Storage sk := delete (Storage uk) inner]> (storage mrs) |},
               Ok tt)
          | None => (mrs, Ok tt)
          end
      | _ => (mrs, Err "invalid uid key")
      end
  | _ => (mrs, Err "invalid storage key")
  end.

Definition is_nil (v : GoVal) : bool :=
  match v with VNil => true | _ => false end.

Definition Has (mrs : MemRegStorage) (storageKey uidKey : string) : Res bool :=
  match Get mrs storageKey uidKey with
  | Ok val => Ok (negb (is_nil val))
  | Err e => Err e
  | Panic => Panic
  | Blocked => Blocked
  end.

(** [ProcessLockersData] (src/unnamed/part_013, second document): the
    lockers without error that are locked and have a cabinet number. *)
Definition locker_listed (l : LockerInfo) : bool :=
  (AuthErr l =? 0) && (ReadErr l =? 0) && Locked l && (0 <? CabNo l).

Definition ProcessLockersData (lockersData : list LockerInfo)
  : list string * list string :=
  let kept := filter (fun l => locker_listed l = true) lockersData in
  (map (fun l =>
          (if IsPasstech l then Litera l else itoa (BlockNo l))
            +:+ ":" +:+ itoa (CabNo l)) kept,
   map (fun l =>
          if IsPasstech l then Litera l +:+ itoa (CabNo l) else itoa (CabNo l))
       kept).

(** [FormatLockersList], [FormatLockersListCraft] and
    [FormatLockersList1CM] (src/unnamed/part_013, second document). *)
Definition digits_only (item : string) : string :=
  string_of_bytes
    (filter (fun b => (48 <=? b) && (b <=? 57) = true) (bytes_of_string item)).

Definition FormatLockersList (lockersDataF : list string) : string :=
  if len lockersDataF =? 0 then "0"
  else
    let result :=
      filter (fun d => negb (String.eqb d "") = true) (map digits_only lockersDataF) in
    if len result =? 0 then "0" else join "," result.

Definition FormatLockersListCraft (lockersData : list LockerInfo) : string :=
  if len lockersData =? 0 then ""
  else join "," (fst (ProcessLockersData lockersData)).

Definition FormatLockersList1CM (lockersData : list LockerInfo) : string :=
  if len lockersData =? 0 then "0"
  else
    let result := fst (ProcessLockersData lockersData) in
    if len result =? 0 then "0" else join "," result.

(** [DecodeUint32] (utils.go:61): 0 for a slice of fewer than four bytes. *)
Definition DecodeUint32 (data : list Z) : Z :=
  if len data <? 4 then 0 else le32 data.

(** [DecodeTLV] (utils.go:79): the tag, the value and the number of bytes
    read; [(0, nil, 0)] and [(tag, nil, 0)] when the input is too short. *)
Definition DecodeTLV (data : list Z) : Z * list Z * Z :=
  if len data <? 2 then (0, [], 0)
  else
    let tag := at_ data 0 in
    let length := at_ data 1 in
    let offset := 2 in
    if len data <? offset + length then (tag, [], 0)
    else (tag, slice data offset (offset + length), offset + length).

End utils.

(** ** Package [pocket] (src/internal/protocols/pocket) *)

Module pocket.

Definition POCKET_MARKER : Z := 42.
Definition POCKET_INTERACTIVE_TAG_DELAY : Z := 0.
Definition POCKET_INTERACTIVE_TAG_SOUND : Z := 1.
Definition POCKET_INTERACTIVE_TAG_TEXT : Z := 3.
Definition POCKET_INTERACTIVE_TAG_WAITING : Z := 4.
Definition POCKET_INTERACTIVE_SOUND_BEEP : Z := 0.
Definition POCKET_INTERACTIVE_SOUND_QUACK : Z := 1.
Definition POCKET_SIGNAL_LOCKED : Z := 1.
Definition POCKET_CMD_INTERACTIVE : Z := 10.
Definition POCKET_PK_FLAGS_RT_MAIN : Z := 16.
Definition POCKET_CMD_ENQUIRE : Z := 6.

(** [EncodePacket] (protocol.go:266). [crcData] is
    [append(header[:5], payloadBytes...)]: the first five header bytes
    followed by the payload. When the payload has at most two bytes the
    append writes them over [header[5]] and [header[6]], which the next two
    assignments overwrite, so the returned bytes do not depend on it. [crc]
    is a [uint8], hence [crc >> 8] is 0. *)
Definition EncodePacket (cmd flags : Z) (payload : string) : list Z :=
  let payloadBytes := bytes_of_string payload in
  let payloadLen := len payloadBytes in
  let header5 :=
    [POCKET_MARKER; flags; cmd;
     u8 (Z.land payloadLen 255); u8 (Z.land (Z.shiftr payloadLen 8) 255)] in
  let crcData := header5 ++ payloadBytes in
  let crc := utils.CRC8 crcData in
  header5 ++ [u8 (Z.land crc 255); u8 (Z.land (Z.shiftr crc 8) 255)]
          ++ payloadBytes.

(** [CreatePacket(cmd, flags, payload []byte)]. *)
Definition CreatePacket (cmd flags : Z) (payload : list Z) : list Z :=
  EncodePacket cmd flags (string_of_bytes payload).

(** The four-byte locker records of [ReadTagExtended]. *)
Fixpoint parse_lockers (l : list Z) : list LockerInfo :=
  match l with
  | err :: bno :: c0 :: c1 :: rest =>
      let authErr := Z.land (Z.shiftr err 4) 15 in
      let readErr := Z.land err 15 in
      let isPasstech := negb (Z.land bno 128 =? 0) in
      let blockNo := if isPasstech then Z.land bno 127 else bno in
      let litera :=
        if isPasstech && (0 <? blockNo) && (blockNo <? 27)
        then String (ascii_of_byte (65 + blockNo - 1)) EmptyString
        else "-" in
      let cab := le16 [c0; c1] in
      {| AuthErr := authErr; ReadErr := readErr; IsPasstech := isPasstech;
         BlockNo := blockNo; Litera := litera;
         Locked := negb (Z.land cab 32768 =? 0); CabNo := Z.land cab 32767 |}
      :: parse_lockers rest
  | _ => []
  end.

(** [case 0x02] of [DecodePacket]. *)
Definition parse_ReadTag (payload : list Z) : gmap string GoVal :=
  if 4 <=? len payload then
    let readerType := at_ payload 0 in
    let readerFlags := at_ payload 1 in
    let uidLen := at_ payload 2 in
    if 4 + uidLen <=? len payload then
      let uid := slice payload 3 (3 + uidLen) in
      <["auth" := VBool true]>
        (<["uid" := VString (utils.BytesToHex uid)]>
           (<["reader_flags" := VUint8 readerFlags]>
              (<["reader_type" := VUint8 readerType]> ∅)))
    else ∅
  else ∅.

Definition set_flag (name : string) (on : bool) (d : gmap string GoVal) :=
  if on then <[name := VBool true]> d else d.

(** [case 0x03] of [DecodePacket]; a [break] leaves the data as it is. *)
Definition parse_ReadTagExtended (code : Z) (payload : list Z)
  : gmap string GoVal :=
  if len payload <? 5 then ∅
  else
    let uidLen := at_ payload 0 in
    if len payload <? 1 + uidLen then ∅
    else
      let uidRaw := slice payload 1 (1 + uidLen) in
      let offset := 1 + uidLen in
      let d := <["uid" := VString (utils.BytesToHex uidRaw)]>
                 (<["uid_raw" := VString (utils.BytesToHex uidRaw)]> ∅) in
      let d :=
        if 2 <? uidLen then
          let w := "," +:+ hex_min2 (le16 (slice uidRaw 0 2)) in
          let w := if 3 <=? len uidRaw then hex2 (at_ uidRaw 2) +:+ w else w in
          <["wiegand" := VString w]> d
        else d in
      let '(d, offset) :=
        if offset + 2 <=? len payload then
          let fr := le16 (slice payload offset (offset + 2)) in
          let fingerResult :=
            if negb (Z.land fr 32768 =? 0) then fr - 65536 else fr in
          (<["finger_result" := VInt16 fingerResult]> d, offset + 2)
        else (d, offset) in
      let lockersData := parse_lockers (drop (Z.to_nat offset) payload) in
      let d :=
        match lockersData with
        | lauth :: _ =>
            <["auth" := VBool ((AuthErr lauth =? 0) && (ReadErr lauth =? 0))]>
              (<["lockers_data" := VLockers lockersData]> d)
        | [] => <["auth" := VBool false]> d
        end in
      if code =? 0 then d
      else
        set_flag "fast_react" (negb (Z.land code 8 =? 0))
          (set_flag "temp_card" (negb (Z.land code 4 =? 0))
             (set_flag "passtech_auth" (negb (Z.land code 2 =? 0))
                (set_flag "last_sector_auth" (negb (Z.land code 1 =? 0)) d))).

(** [case 0x15]: [payload[5]] is read after a check for five bytes only. *)
Definition parse_RelayControlEx (payload : list Z) : Res (gmap string GoVal) :=
  if 5 <=? len payload then
    let onTime := le32 (slice payload 0 4) in
    let flags := at_ payload 4 in
    match index payload 5 with
    | Ok uidLen =>
        let '(uid, offset) :=
          if 6 + uidLen <=? len payload
          then (string_of_bytes (slice payload 6 (6 + uidLen)), 6 + uidLen)
          else (EmptyString, 6) in
        let caption :=
          if offset <? len payload
          then string_of_bytes (drop (Z.to_nat offset) payload)
          else EmptyString in
        Ok (<["caption" := VString caption]>
              (<["uid" := VString uid]>
                 (<["flags" := VUint8 flags]>
                    (<["on_time" := VUint32 onTime]> ∅))))
    | Err e => Err e
    | Panic => Panic
    | Blocked => Blocked
    end
  else Ok ∅.

(** [case 0x16]. *)
Definition parse_InputChanged (payload : list Z) : gmap string GoVal :=
  if 2 <=? len payload then
    let inputState := le16 (slice payload 0 2) in
    <["passed" := VBool (negb (Z.land inputState 1 =? 0))]>
      (<["input_state" := VUint16 inputState]> ∅)
  else ∅.

Definition parse_payload (code : Z) (payload : list Z)
  : Res (gmap string GoVal) :=
  if code =? 2 then Ok (parse_ReadTag payload)
  else if code =? 3 then Ok (parse_ReadTagExtended code payload)
  else if code =? 21 then parse_RelayControlEx payload
  else if code =? 22 then Ok (parse_InputChanged payload)
  else Ok ∅.

(** [DecodePacket] (protocol.go:69). The checksum is computed over
    [data[:7+payloadLen]], that is over the whole frame, the two checksum
    bytes included. The returned struct has [Code: &flags, Flags: &code]. *)
Definition DecodePacket (data : list Z) : Res Packet :=
  if len data <? 8 then Err "packet too short"
  else if negb (at_ data 0 =? POCKET_MARKER) then Err "invalid marker"
  else
    let flags := at_ data 1 in
    let code := at_ data 2 in
    let payloadLen := le16 (slice data 3 5) in
    let crc := le16 (slice data 5 7) in
    if len data <? 7 + payloadLen then Err "packet payload incomplete"
    else
      let payload := slice data 7 (7 + payloadLen) in
      let calcCRC := utils.CRC8 (slice data 0 (7 + payloadLen)) in
      if negb (calcCRC =? u8 (Z.land crc 255)) then Err "CRC mismatch"
      else
        match parse_payload code payload with
        | Ok packetData =>
            Ok {| Cmd := code; Code := Some flags; Flags := Some code;
                  Payload := string_of_bytes payload; Data := packetData |}
        | Err e => Err e
        | Panic => Panic
        | Blocked => Blocked
        end.

(** [InteractiveDelay] (protocol.go:293). *)
Definition InteractiveDelay (delay : Z) : list Z :=
  let delay := Z.land delay 65535 in
  utils.EncodeTLV POCKET_INTERACTIVE_TAG_DELAY (utils.EncodeUint16 (u16 delay)).

(** [InteractiveWaiting] (protocol.go:299). *)
Definition InteractiveWaiting (delay : Z) (displayHourglass waitTillRemoved : bool)
  : list Z :=
  let val := utils.EncodeUint16 (u16 (Z.land delay 65535)) in
  let dhg := if displayHourglass then 1 else 0 in
  let val := val ++ [dhg] in
  let val :=
    if (0 <? dhg) || waitTillRemoved
    then val ++ [if waitTillRemoved then 1 else 0]
    else val in
  utils.EncodeTLV POCKET_INTERACTIVE_TAG_WAITING val.

Definition InteractiveText (text : string) : list Z :=
  utils.EncodeTLV POCKET_INTERACTIVE_TAG_TEXT (bytes_of_string text).

(** [InteractiveSound] (protocol.go:325); [length - endDelay] is a
    [uint16] subtraction, taken when [0 < endDelay <= length]. *)
Definition InteractiveSound (soundType freq length volume endDelay : Z) : list Z :=
  let endDelay := if length <? endDelay then 0 else endDelay in
  let length := if 0 <? endDelay then u16 (length - endDelay) else length in
  let val :=
    [Z.land soundType 255;
     u8 (Z.land freq 255); u8 (Z.land (Z.shiftr freq 8) 255);
     u8 (Z.land length 255); u8 (Z.land (Z.shiftr length 8) 255);
     Z.land volume 255] in
  let result := utils.EncodeTLV POCKET_INTERACTIVE_TAG_SOUND val in
  if 0 <? endDelay then result ++ InteractiveDelay endDelay else result.

(** [Interactive] (protocol.go:352). *)
Definition Interactive (text : string) (displayTime sound : Z) (tillRemoved : bool)
  : list Z :=
  let result := InteractiveText text in
  let volume := 255 in
  let result :=
    if sound =? 1 then
      result ++ InteractiveSound POCKET_INTERACTIVE_SOUND_BEEP 4000 150 volume 50
    else if sound =? 2 then
      result ++ InteractiveSound POCKET_INTERACTIVE_SOUND_QUACK 4000 150 volume 50
    else if sound =? 3 then
      (result ++ InteractiveSound POCKET_INTERACTIVE_SOUND_BEEP 4000 100 volume 50)
        ++ InteractiveSound POCKET_INTERACTIVE_SOUND_BEEP 4000 100 volume 50
    else if sound =? 4 then
      (result ++ InteractiveSound POCKET_INTERACTIVE_SOUND_QUACK 4000 100 volume 50)
        ++ InteractiveSound POCKET_INTERACTIVE_SOUND_QUACK 4000 150 volume 50
    else result in
  if (0 <? displayTime) || tillRemoved
  then result ++ InteractiveWaiting displayTime false tillRemoved
  else result.

Definition CreateInteractivePacket (text : string) (displayTime sound : Z)
           (tillRemoved : bool) : list Z :=
  Interactive text displayTime sound tillRemoved.

(** [CreateLockPacket] and [CreateUnlockPacket] (lock.go). *)
Definition CreateLockPacket (text : string) : list Z :=
  let payload :=
    if negb (String.eqb text "")
    then InteractiveText text ++ InteractiveWaiting 1500 true false
    else InteractiveWaiting 0 false false in
  EncodePacket POCKET_CMD_INTERACTIVE (u8 POCKET_PK_FLAGS_RT_MAIN)
               (string_of_bytes payload).

Definition CreateUnlockPacket : list Z := CreateLockPacket "".

(** [CreateEnquirePacket] (protocol.go:485). *)
Definition CreateEnquirePacket : list Z := EncodePacket POCKET_CMD_ENQUIRE 0 "".

(** [RelayOnEx] (protocol.go:388): the payload of the relay command.
    [onTime] is a [uint32], [flags] a [uint8]; the UID is cut at
    [POCKET_RELAY_UID_MAX_LEN] bytes and the caption at 96 bytes, or at 16
    when the count-down flag is set. *)
Definition POCKET_RELAY_FLAG_DOWNCOUNT : Z := 1.
Definition POCKET_RELAY_UID_MAX_LEN : Z := 32.

Definition RelayOnEx (onTime flags : Z) (caption uid : string) : list Z :=
  let val :=
    if 268435455 <? onTime then [255; 255; 255; 255]
    else utils.EncodeUint32 onTime in
  let val := val ++ [flags] in
  let uidLen := strlen uid in
  let uidLen :=
    if POCKET_RELAY_UID_MAX_LEN <? uidLen then POCKET_RELAY_UID_MAX_LEN
    else uidLen in
  let val := val ++ [u8 uidLen] in
  let val :=
    if 0 <? uidLen then val ++ slice (bytes_of_string uid) 0 uidLen else val in
  if negb (String.eqb caption "") then
    let maxLen :=
      if negb (Z.land flags POCKET_RELAY_FLAG_DOWNCOUNT =? 0) then 16 else 96 in
    let caption :=
      if maxLen <? strlen caption then slice (bytes_of_string caption) 0 maxLen
      else bytes_of_string caption in
    val ++ caption
  else val.

End pocket.

(** ** Package [gat] (src/internal/protocols/gat/protocol.go) *)

Module gat.

Definition GAT_MARKER : Z := 42.
Definition GAT_CMD_REQ_MASTER : Z := 229.
Definition GAT_CMD_CARD_IDENT : Z := 128.
Definition GAT_CMD_ACTION_STARTED : Z := 161.
Definition GAT_CMD_CANCEL : Z := 192.
Definition GAT_CMD_HOST_CONTROL : Z := 202.
Definition GAT_TTYPE_ACCESS : Z := 1.
Definition GAT_TTYPE_TIME : Z := 2.

(** [var GATTerminalTypes]. *)
Definition GATTerminalTypes (t : Z) : option string :=
  if t =? 0 then Some "INFO"
  else if t =? 1 then Some "ACCESS"
  else if t =? 2 then Some "TIME"
  else if t =? 3 then Some "RETURN"
  else if t =? 4 then Some "CASH"
  else None.

(** [calculateLRC]: the XOR of the bytes. *)
Definition calculateLRC (data : list Z) : Z :=
  fold_left Z.lxor data 0.

(** The loop that removes the trailing zero bytes of a UID: it cuts after
    the last non-zero byte, and leaves an all-zero UID as it is. *)
Fixpoint cut_after_last_nonzero (uid : list Z) : option (list Z) :=
  match uid with
  | [] => None
  | b :: rest =>
      match cut_after_last_nonzero rest with
      | Some r => Some (b :: r)
      | None => if b =? 0 then None else Some [b]
      end
  end.

Definition trim_uid (uid : list Z) : list Z :=
  match cut_after_last_nonzero uid with Some r => r | None => uid end.

(** The fields common to [CARD_IDENT] and [ACTION_STARTED]. The payload is
    [data[po : po+plen]] and has at least 12 bytes; the UID is
    [payload[3:13]], which Go reads from the frame behind the slice, so that
    with a payload of 12 bytes its tenth byte is the LRC byte. *)
Definition card_fields (data : list Z) (po : Z) (d : gmap string GoVal)
  : gmap string GoVal :=
  let uid := trim_uid (slice data (po + 3) (po + 13)) in
  <["uid_hex" := VString (utils.NDs uid "" "")]>
    (<["uid_raw" := VBytes uid]>
       (<["data_valid" := VUint8 (at_ data (po + 2))]>
          (<["reader_type" := VUint8 (at_ data (po + 1))]>
             (<["terminal_type" := VUint8 (at_ data po)]> d)))).

Definition parse_command (cmd : Z) (data : list Z) (po plen : Z)
           (d : gmap string GoVal) : gmap string GoVal :=
  let payload := slice data po (po + plen) in
  if cmd =? GAT_CMD_REQ_MASTER then
    let d := <["cmd_name" := VString "GAT_CMD_REQ_MASTER"]> d in
    if 0 <? plen then
      let d := <["terminal_type" := VUint8 (at_ payload 0)]> d in
      match GATTerminalTypes (at_ payload 0) with
      | Some name => <["terminal_name" := VString name]> d
      | None => d
      end
    else d
  else if cmd =? GAT_CMD_CARD_IDENT then
    let d := <["cmd_name" := VString "GAT_CMD_CARD_IDENT"]> d in
    if 12 <=? plen then
      let d := card_fields data po d in
      if (at_ payload 0 =? GAT_TTYPE_TIME) && (19 <? plen) then
        <["price" := VUint32 (le32 (slice payload 15 19))]>
          (<["time" := VUint16 (le16 (slice payload 13 15))]> d)
      else d
    else d
  else if cmd =? GAT_CMD_ACTION_STARTED then
    let d := <["cmd_name" := VString "GAT_CMD_ACTION_STARTED"]> d in
    if 12 <=? plen then
      let d := card_fields data po d in
      if (at_ payload 0 =? GAT_TTYPE_ACCESS) && (13 <? plen) then
        <["access_result" := VUint8 (at_ payload 13)]> d
      else if (at_ payload 0 =? GAT_TTYPE_TIME) && (23 <? plen) then
        <["time" := VUint16 (le16 (slice payload 21 23))]>
          (<["price" := VUint32 (le32 (slice payload 17 21))]>
             (<["vendor" := VUint32 (le32 (slice payload 13 17))]> d))
      else d
    else d
  else if cmd =? GAT_CMD_HOST_CONTROL then
    let d := <["cmd_name" := VString "GAT_CMD_HOST_CONTROL"]> d in
    if 2 <=? plen then <["control_data" := VUint16 (le16 (slice payload 0 2))]> d
    else d
  else d.

(** [DecodePacket] (protocol.go:51). *)
Definition DecodePacket (data : list Z) : Res Packet :=
  if len data <? 4 then Err "packet too short"
  else
    let pktLen := at_ data 0 in
    if pktLen <? 3 then Err "invalid packet length"
    else if len data <? pktLen + 1 then Err "packet incomplete"
    else
      let adr := at_ data 1 in
      let cmd := at_ data 2 in
      let hasStatus := negb (Z.land cmd 16 =? 0) in
      if hasStatus && (len data <=? 3) then Err "packet too short for te_status"
      else
        let teStatus := if hasStatus then at_ data 3 else 0 in
        let offset := if hasStatus then 4 else 3 in
        let dataLen := pktLen - offset - 1 in
        if (0 <? dataLen) && (len data <? offset + dataLen)
        then Err "packet too short for data"
        else
          let plen := if 0 <? dataLen then dataLen else 0 in
          let po := offset in
          let offset := offset + plen in
          if len data <=? offset then Err "packet too short for LRC"
          else
            let receivedLRC := at_ data offset in
            let calculatedLRC := calculateLRC (slice data 0 offset) in
            if negb (receivedLRC =? calculatedLRC) then Err "LRC mismatch"
            else
              let packetData :=
                <["te_status" := VUint8 teStatus]>
                  (<["address" := VUint8 adr]> ∅) in
              Ok {| Cmd := cmd; Code := None; Flags := None;
                    Payload := utils.NDs (slice data po (po + plen)) " " "";
                    Data := parse_command cmd data po plen packetData |}.

(** [EncodePacket] (protocol.go:221). *)
Definition EncodePacket (cmd address teStatus : Z) (data : list Z) : list Z :=
  let packet := [address; cmd] in
  let packet := if negb (Z.land cmd 16 =? 0) then packet ++ [teStatus] else packet in
  let packet := packet ++ data in
  let pktLen := len packet + 1 in
  let packet := u8 pktLen :: packet in
  packet ++ [calculateLRC packet].

Definition CreateReqMasterPacket (address terminalType : Z) : list Z :=
  EncodePacket GAT_CMD_REQ_MASTER address 0 [terminalType].

End gat.

(** ** Package [jsp] (src/unnamed/part_011) *)

Module jsp.

Definition JSP_SOF : Z := 3.
Definition JSP_EOF : Z := 2.
Definition JSP_LENGTH_SIZE : Z := 4.

(** [type JSPRequest struct]; the three parameter maps, which the pool
    leaves nil, are left out, and [Time] is the clock reading. *)
Record JSPRequest := {
  RID : string;
  RKey : string;
  RCmd : string;
  RTime : Z
}.

(** [type JSPConnection struct], without the two time stamps that nothing
    reads. *)
Record JSPConnection := {
  Buffer : list Z;
  PingInterval : Z;
  PingTimeout : Z;
  PingTimer : Z;
  PingSinceLast : Z;
  PingSent : bool;
  Requests : gmap string JSPRequest
}.

Definition NewJSPConnection : JSPConnection :=
  {| Buffer := []; PingInterval := 0; PingTimeout := 0; PingTimer := 0;
     PingSinceLast := 0; PingSent := false; Requests := ∅ |}.

Definition set_Buffer (b : list Z) (c : JSPConnection) : JSPConnection :=
  {| Buffer := b; PingInterval := PingInterval c; PingTimeout := PingTimeout c;
     PingTimer := PingTimer c; PingSinceLast := PingSinceLast c;
     PingSent := PingSent c; Requests := Requests c |}.

Definition set_Requests (r : gmap string JSPRequest) (c : JSPConnection) :=
  {| Buffer := Buffer c; PingInterval := PingInterval c;
     PingTimeout := PingTimeout c; PingTimer := PingTimer c;
     PingSinceLast := PingSinceLast c; PingSent := PingSent c; Requests := r |}.

(** [PingSent = false; PingSinceLast = 0]. *)
Definition pong (c : JSPConnection) : JSPConnection :=
  {| Buffer := Buffer c; PingInterval := PingInterval c;
     PingTimeout := PingTimeout c; PingTimer := PingTimer c;
     PingSinceLast := 0; PingSent := false; Requests := Requests c |}.

Definition hex_value (b : Z) : option Z :=
  if (48 <=? b) && (b <=? 57) then Some (b - 48)
  else if (65 <=? b) && (b <=? 70) then Some (b - 55)
  else None.

(** [DecodeHex] (part_011:70): two, four or six hexadecimal digits, after
    trimming and upper-casing. *)
Definition DecodeHex (hstr : string) : Res Z :=
  let hstr := gostrings.ToUpper (gostrings.TrimSpace hstr) in
  let length := strlen hstr in
  if negb (length mod 2 =? 0) then Err "invalid hex length"
  else if (length <? 2) || (6 <? length) then Err "hex length out of range"
  else
    match mapM hex_value (bytes_of_string hstr) with
    | Some ds => Ok (fold_left (fun acc d => acc * 16 + d) ds 0)
    | None => Err "invalid hex character"
    end.

Definition lower_item (lower : GoVal -> gmap string GoVal) (item : GoVal) : GoVal :=
  match item with
  | VMap _ => VMap (lower item)
  | _ => item
  end.

(** [arrLower] (part_011:179): the keys in lower case, through nested
    objects and through the objects of an array. The order in which Go
    visits the entries of a map, which decides between two keys that differ
    in case only, is that of [map_fold]. *)
Fixpoint arrLower (data : GoVal) : gmap string GoVal :=
  match data with
  | VMap m =>
      map_fold
        (fun k v result =>
           let key := gostrings.ToLower k in
           match v with
           | VMap _ => <[key := VMap (arrLower v)]> result
           | VSlice va =>
               <[key := VSlice (map (fun item =>
                                       match item with
                                       | VMap _ => VMap (arrLower item)
                                       | _ => item
                                       end) va)]> result
           | _ => <[key := v]> result
           end)
        ∅ m
  | _ => ∅
  end.

(** What [TryReadPacket] returns beside its error: the [bool], the [int]
    or the decoded object. *)
Inductive ReadResult :=
| RBool (b : bool)
| RInt (n : Z)
| RPacket (data : gmap string GoVal).

(** The position of the first byte [b] of [l]. *)
Fixpoint index_byte (b : Z) (l : list Z) : option Z :=
  match l with
  | [] => None
  | x :: r => if x =? b then Some 0 else Z.succ <$> index_byte b r
  end.

(** [GenerateRID] (part_011:207). *)
Definition GenerateRID (ridCounter : Z) (prefix : string) : Z * string :=
  let c := if (ridCounter <? 0) || (16777215 <? ridCounter) then 0 else ridCounter in
  (c + 1, prefix +:+ hexw 6 c).

(** [ProcessPacket] (part_011:286). *)
Definition ProcessPacket (packet : gmap string GoVal) : string :=
  match packet !! "cmd" with
  | Some (VString _) => "command"
  | _ => match packet !! "rid" with
         | Some (VString _) => "answer"
         | _ => "unknown"
         end
  end.

Section Json.

(** [json.Marshal] of an object of strings, numbers and booleans, which
    cannot fail, and [json.Unmarshal] into a [map[string]interface{}]. *)
Variable json_Marshal : gmap string GoVal -> list Z.
Variable json_Unmarshal : list Z -> option (gmap string GoVal).

(** [EncodePacket] (part_011:50). *)
Definition EncodePacket (data : gmap string GoVal) : list Z :=
  let jsonData := json_Marshal data in
  [JSP_SOF] ++ bytes_of_string (hexw 4 (len jsonData)) ++ jsonData ++ [JSP_EOF].

(** [TryReadPacket] (part_011:97). *)
Definition TryReadPacket (conn : JSPConnection) : JSPConnection * Res ReadResult :=
  let buf := Buffer conn in
  if len buf =? 0 then (conn, Ok (RBool false))
  else
    match index_byte JSP_SOF buf with
    | None => (set_Buffer [] conn, Ok (RBool false))
    | Some pos =>
        let conn := if 0 <? pos then set_Buffer (drop (Z.to_nat pos) buf) conn
                    else conn in
        let buf := Buffer conn in
        let blen := len buf in
        let hdLen := 1 + JSP_LENGTH_SIZE in
        if blen <? hdLen then (conn, Ok (RInt (hdLen - blen)))
        else
          match DecodeHex (string_of_bytes (slice buf 1 hdLen)) with
          | Ok pkLen =>
              let fullPkLen := hdLen + pkLen + 1 in
              if blen <? fullPkLen then (conn, Ok (RInt (fullPkLen - blen)))
              else
                let toffset := hdLen + pkLen in
                if negb (at_ buf toffset =? JSP_EOF)
                then (set_Buffer (drop 1 buf) conn, Ok (RBool false))
                else
                  let jsonData := slice buf hdLen toffset in
                  let conn := set_Buffer (drop (Z.to_nat fullPkLen) buf) conn in
                  match json_Unmarshal jsonData with
                  | None => (conn, Err "failed to unmarshal JSON")
                  | Some data => (conn, Ok (RPacket (arrLower (VMap data))))
                  end
          | _ => (set_Buffer (drop 1 buf) conn, Ok (RBool false))
          end
    end.

Definition opt_string (k v : string) (d : gmap string GoVal) :=
  if negb (String.eqb v "") then <[k := VString v]> d else d.
Definition opt_time (timeMs : Z) (d : gmap string GoVal) :=
  if 0 <? timeMs then <["time" := VInt timeMs]> d else d.

(** [SendRelayOpen], [SendRelayClose], [SendMessage] and [SendPing]
    (part_011:412-491): the new counter and the frame. *)
Definition SendRelayOpen (ridCounter : Z) (uid caption : string) (timeMs : Z)
           (cid : string) : Z * list Z :=
  let data :=
    opt_string "cid" cid
      (opt_time timeMs
         (opt_string "caption" caption
            (opt_string "uid" uid (<["cmd" := VString "relay_open"]> ∅)))) in
  let '(c, rid) := GenerateRID ridCounter "RID" in
  (c, EncodePacket (<["rid" := VString rid]> data)).

Definition SendRelayClose (ridCounter : Z) : Z * list Z :=
  let '(c, rid) := GenerateRID ridCounter "RID" in
  (c, EncodePacket (<["rid" := VString rid]> (<["cmd" := VString "relay_close"]> ∅))).

Definition SendMessage (ridCounter : Z) (text : string) (timeMs : Z) : Z * list Z :=
  let data :=
    opt_time timeMs (opt_string "text" text (<["cmd" := VString "message"]> ∅)) in
  let '(c, rid) := GenerateRID ridCounter "RID" in
  (c, EncodePacket (<["rid" := VString rid]> data)).

Definition SendPing (ridCounter : Z) : Z * list Z :=
  let '(c, rid) := GenerateRID ridCounter "RID" in
  (c, EncodePacket (<["rid" := VString rid]> (<["cmd" := VString "ping"]> ∅))).

(** [CreateMessagePacket] (part_011:449): no request id. *)
Definition CreateMessagePacket (text : string) (timeMs : Z) : list Z :=
  EncodePacket
    (<["time" := VInt timeMs]>
       (<["text" := VString text]> (<["cmd" := VString "message"]> ∅))).

(** [AnswerRequest] (part_011:269). *)
Definition AnswerRequest (rid : string) (params : gmap string GoVal) : list Z :=
  EncodePacket (<["rid" := VString rid]> (delete "cmd" params)).

End Json.

End jsp.

(** ** Package [cardlist] (src/internal/cardlist/cardlist.go, first document) *)

Module cardlist.

Record CardList := {
  gmclist : gmap string string;
  mclist : gmap string string;
  file : string
}.

Definition NewCardList : CardList := {| gmclist := ∅; mclist := ∅; file := "" |}.

Record CardEntry := { EUID : string; Message : string }.

(** [validHexUID]: [^[0-9A-F]{8,20}$]. *)
Definition validHexUID (uid : string) : bool :=
  (8 <=? strlen uid) && (strlen uid <=? 20)
  && forallb (fun b => ((48 <=? b) && (b <=? 57)) || ((65 <=? b) && (b <=? 70)))
             (bytes_of_string uid).

(** [parseGMC]: the empty string for a UID that does not conform. *)
Definition parseGMC (uid : string) : string :=
  let uid := gostrings.ToUpper (gostrings.TrimSpace uid) in
  if validHexUID uid then uid else "".

(** [CheckGlobal] and [CheckSecondary] (cardlist.go:51, 63). *)
Definition CheckGlobal (cl : CardList) (uid : string) : string :=
  let uid := gostrings.ToUpper (gostrings.TrimSpace uid) in
  default "" (gmclist cl !! uid).

Definition CheckSecondary (cl : CardList) (uid : string) : string :=
  let uid := gostrings.ToUpper (gostrings.TrimSpace uid) in
  default "" (mclist cl !! uid).

(** [AddGlobal] and [AddSecondary] (cardlist.go:96, 115), without the
    write to the persistence file. *)
Definition add_cards (cards : list CardEntry) (m : gmap string string)
  : gmap string string * list string :=
  fold_left
    (fun '(m, added) c =>
       let uid := parseGMC (EUID c) in
       if String.eqb uid "" then (m, added)
       else (<[uid := Message c]> m, added ++ [uid]))
    cards (m, []).

Definition AddGlobal (cards : list CardEntry) (cl : CardList) : CardList * list string :=
  let '(m, added) := add_cards cards (gmclist cl) in
  ({| gmclist := m; mclist := mclist cl; file := file cl |}, added).

Definition AddSecondary (cards : list CardEntry) (cl : CardList)
  : CardList * list string :=
  let '(m, added) := add_cards cards (mclist cl) in
  ({| gmclist := gmclist cl; mclist := m; file := file cl |}, added).

(** [DelGlobal] and [DelSecondary] (cardlist.go:134, 155). *)
Definition del_cards (uids : list string) (m : gmap string string)
  : gmap string string * list string :=
  fold_left
    (fun '(m, removed) uid =>
       let uid := parseGMC uid in
       if String.eqb uid "" then (m, removed)
       else match m !! uid with
            | Some _ => (delete uid m, removed ++ [uid])
            | None => (m, removed)
            end)
    uids (m, []).

Definition DelGlobal (uids : list string) (cl : CardList) : CardList * list string :=
  let '(m, removed) := del_cards uids (gmclist cl) in
  ({| gmclist := m; mclist := mclist cl; file := file cl |}, removed).

Definition DelSecondary (uids : list string) (cl : CardList)
  : CardList * list string :=
  let '(m, removed) := del_cards uids (mclist cl) in
  ({| gmclist := gmclist cl; mclist := m; file := file cl |}, removed).

(** [SyncGlobal] (cardlist.go:178): the list and the UIDs added and
    deleted. The two [range] loops run over Go maps, whose order is not
    specified; the model takes that of [map_fold]. *)
Definition sync_add (incoming m : gmap string string)
  : gmap string string * list string :=
  map_fold
    (fun uid msg '(m, add) =>
       match m !! uid with
       | None => (<[uid := msg]> m, add ++ [uid])
       | Some _ => (m, add)
       end)
    (m, []) incoming.

Definition sync_del (incoming m : gmap string string)
  : gmap string string * list string :=
  map_fold
    (fun uid (_ : string) '(m, del) =>
       match incoming !! uid with
       | None => (delete uid m, del ++ [uid])
       | Some _ => (m, del)
       end)
    (m, []) m.

Definition SyncGlobal (cards : list CardEntry) (cl : CardList)
  : CardList * (list string * list string) :=
  let incoming := fst (add_cards cards ∅) in
  let '(m, add) := sync_add incoming (gmclist cl) in
  let '(m, del) := sync_del incoming m in
  ({| gmclist := m; mclist := mclist cl; file := file cl |}, (add, del)).

End cardlist.

(** ** Package [httpclient] (src/internal/httpclient/client.go) *)

Module httpclient.

(** [type HTTPResponse struct]; a nil [Data] reads like the empty map. *)
Record HTTPResponse := {
  StatusCode : Z;
  Body : list Z;
  RData : gmap string GoVal
}.


Definition as_float64 (v : option GoVal) : option float :=
  match v with Some (VFloat64 f) => Some f | _ => None end.

Definition granted (f : float) : KPOResult :=
  if 0 <? int_of_float64 f then KPO_RES_YES else KPO_RES_NO.

(** [CheckAccessWithRole] from the answer of the backend on
    (client.go:255-306). *)
Definition interpret (cfg : Config) (resp : HTTPResponse) : KPOResult * string :=
  let '(result, message) :=
    if StatusCode resp =? 500 then (KPO_RES_NO, ServiceDeniedMsg cfg)
    else
      match as_float64 (RData resp !! "RESULTVAL") with
      | Some resultVal =>
          (granted resultVal,
           utils.GetStringValue (RData resp) "MSGSTR" (ServiceFixedMsg cfg))
      | None =>
          match as_float64 (RData resp !! "RESULT") with
          | Some resultVal =>
              (granted resultVal,
               match RData resp !! "MESSAGE" with
               | Some (VString msg) => msg
               | _ => match RData resp !! "DENYREASON" with
                      | Some (VString msg) => msg
                      | _ => ServiceFixedMsg cfg
                      end
               end)
          | None =>
              match as_float64 (RData resp !! "GRANT_ACCESS") with
              | Some grantAccess =>
                  (granted grantAccess,
                   utils.GetStringValue (RData resp) "TEXT" (ServiceFixedMsg cfg))
              | None => (KPO_RES_YES, ServiceFixedMsg cfg)
              end
          end
      end in
  let message :=
    if String.eqb message "" then
      if KPOResult_eqb result KPO_RES_YES then ServiceFixedMsg cfg
      else ServiceDeniedMsg cfg
    else message in
  (result, message).

Section Backend.

(** [hc.Request1C(path, nil)]: the answer of the backend, after the
    retries. *)
Variable Request1C : string -> Res HTTPResponse.

(** The path of the check, by dialect (client.go:201-248). *)
Definition check_path (cfg : Config) (uid terminalID tagType role : string)
           (lockers : list LockerInfo) : string :=
  let tagType := if String.eqb tagType "" then "rfid" else tagType in
  let ident := HTTPServiceIdentPath cfg in
  let fmt := HTTPServiceUrlFmtSuff cfg in
  if String.eqb fmt "wc1c" then
    let lockersStr := utils.FormatLockersList (snd (utils.ProcessLockersData lockers)) in
    let tagTypeNum :=
      if String.eqb tagType "qr" || String.eqb tagType "barcode" then "1"
      else if String.eqb tagType "faceid" then "2" else "0" in
    ident +:+ "/" +:+ terminalID +:+ "/" +:+ uid +:+ "/" +:+ tagTypeNum
          +:+ "/0/0/" +:+ lockersStr +:+ "/0"
  else if String.eqb fmt "a&a" then
    ident +:+ "/verify/" +:+ terminalID +:+ "/" +:+ uid
  else if String.eqb fmt "1c_m" then
    ident +:+ "/checkaccess?id=" +:+ terminalID +:+ "&uid=" +:+ uid
          +:+ "&tagtype=" +:+ tagType
  else if String.eqb fmt "1c_m_" then
    ident +:+ "/checkaccess?id=" +:+ terminalID +:+ "&uid=" +:+ uid
          +:+ "&cells=" +:+ utils.FormatLockersList1CM lockers
  else if String.eqb fmt "craft" then
    let role := if String.eqb role "" then "0" else role in
    "/pass_request?id=" +:+ terminalID +:+ "&uid=" +:+ uid +:+ "&role=" +:+ role
          +:+ "&locks=" +:+ utils.FormatLockersListCraft lockers
  else
    ident +:+ "/checking.php?id=" +:+ terminalID +:+ "&uid=" +:+ uid
          +:+ "&lockers="
          +:+ utils.FormatLockersList (snd (utils.ProcessLockersData lockers)).

(** [CheckAccessWithRole] (client.go:201) and [CheckAccess]. *)
Definition CheckAccessWithRole (cfg : Config) (uid terminalID tagType role : string)
           (lockers : list LockerInfo) : Res (KPOResult * string) :=
  match Request1C (check_path cfg uid terminalID tagType role lockers) with
  | Ok resp => Ok (interpret cfg resp)
  | Panic => Panic
  | Blocked => Blocked
  | Err _ => Err "access check failed"
  end.

Definition CheckAccess (cfg : Config) (uid terminalID tagType : string)
           (lockers : list LockerInfo) : Res (KPOResult * string) :=
  CheckAccessWithRole cfg uid terminalID tagType "" lockers.

End Backend.

(** [Request1C] (client.go:45): the loop of the attempts. [retryCount] is
    [config.HTTPRequestRetryCount] and [once attempt] the outcome of the
    call of [request1COnce] in the turn [attempt]; the result carries the
    number of calls made. *)
Fixpoint Request1C_attempts (once : Z -> Res HTTPResponse) (turns : nat)
         (attempt : Z) : Res HTTPResponse * Z :=
  match turns with
  | O => (Err "HTTP request failed after all attempts", attempt)
  | S turns =>
      match once attempt with
      | Ok resp => (Ok resp, attempt + 1)
      | Err _ => Request1C_attempts once turns (attempt + 1)
      | Panic => (Panic, attempt + 1)
      | Blocked => (Blocked, attempt + 1)
      end
  end.

Definition Request1C_retry (retryCount : Z) (once : Z -> Res HTTPResponse)
  : Res HTTPResponse * Z :=
  let maxRetries := if retryCount <? 0 then 0 else retryCount in
  Request1C_attempts once (Z.to_nat (maxRetries + 1)) 0.

End httpclient.

(** ** Package [session] (src/unnamed/part_010)

    The manager holds its pool as an interface value and calls it through
    [ConnectionPoolInterface]; the model is written over any state [P] that
    implements the interface. The HTTP client, the CSV logger and the
    goroutine that asks the backend are reached through calls whose results
    the manager ignores: each such call is recorded as an [Effect]. A session
    pointer is the key of the session in [sessions]. *)

Module session.

(** [type ConnectionPoolInterface interface] (part_010:35). *)
Class ConnectionPoolInterface (P : Type) := {
  SendJSPRelayOpen : Z -> string -> string -> string -> Z -> string -> P -> P * Res unit;
  SendJSPRelayClose : Z -> string -> P -> P * Res unit;
  SendJSPMessage : Z -> string -> string -> Z -> P -> P * Res unit;
  Send : Z -> string -> list Z -> P -> P * Res unit;
  GetConnection : string -> P -> option Connection;
  LockTerminal : Z -> string -> string -> string -> P -> P * Res unit;
  UnlockTerminal : Z -> string -> string -> P -> P * Res unit
}.

Inductive Effect :=
| GoKpoRequest (sessionID : string)
| HttpSendAccessReport (uid terminalID : string) (result : bool) (message : string)
| CsvLogSession (s : Session) (conn : option Connection).

(** [type SessionManager struct]; an interface field is [true] when it is
    not nil (and, for [pool], implements [ConnectionPoolInterface]). *)
Record SessionManager := {
  sessions : gmap string Session;
  idGen : Z;
  config : Config;
  httpClient : bool;
  heliosClient : bool;
  pool : bool;
  csvLogger : bool
}.

Definition NewSessionManager (config : Config) : SessionManager :=
  {| sessions := ∅; idGen := 0; config := config; httpClient := false;
     heliosClient := false; pool := false; csvLogger := false |}.

Definition with_sessions (sm : SessionManager) (m : gmap string Session) :=
  {| sessions := m; idGen := idGen sm; config := config sm;
     httpClient := httpClient sm; heliosClient := heliosClient sm;
     pool := pool sm; csvLogger := csvLogger sm |}.

(** Assignments to the fields of a session. *)
Definition set_Stage (st : SessionStage) (s : Session) : Session :=
  {| SID := SID s; SKey := SKey s; Apkey := Apkey s; UID := UID s;
     UIDRaw := UIDRaw s; CID := CID s; SData := SData s; Stage := st;
     ReqTime := ReqTime s; Processed := Processed s; Completed := Completed s;
     ReportSent := ReportSent s; Alive := Alive s; Wait := Wait s |}.

Definition set_Data (d : gmap string GoVal) (s : Session) : Session :=
  {| SID := SID s; SKey := SKey s; Apkey := Apkey s; UID := UID s;
     UIDRaw := UIDRaw s; CID := CID s; SData := d; Stage := Stage s;
     ReqTime := ReqTime s; Processed := Processed s; Completed := Completed s;
     ReportSent := ReportSent s; Alive := Alive s; Wait := Wait s |}.

Definition set_Wait (w : option SessionWait) (s : Session) : Session :=
  {| SID := SID s; SKey := SKey s; Apkey := Apkey s; UID := UID s;
     UIDRaw := UIDRaw s; CID := CID s; SData := SData s; Stage := Stage s;
     ReqTime := ReqTime s; Processed := Processed s; Completed := Completed s;
     ReportSent := ReportSent s; Alive := Alive s; Wait := w |}.


Definition set_ReqTime (t : Z) (s : Session) : Session :=
  {| SID := SID s; SKey := SKey s; Apkey := Apkey s; UID := UID s;
     UIDRaw := UIDRaw s; CID := CID s; SData := SData s; Stage := Stage s;
     ReqTime := t; Processed := Processed s; Completed := Completed s;
     ReportSent := ReportSent s; Alive := Alive s; Wait := Wait s |}.

Definition set_ReportSent (b : bool) (s : Session) : Session :=
  {| SID := SID s; SKey := SKey s; Apkey := Apkey s; UID := UID s;
     UIDRaw := UIDRaw s; CID := CID s; SData := SData s; Stage := Stage s;
     ReqTime := ReqTime s; Processed := Processed s; Completed := Completed s;
     ReportSent := b; Alive := Alive s; Wait := Wait s |}.

Definition set_done (s : Session) : Session :=
  {| SID := SID s; SKey := SKey s; Apkey := Apkey s; UID := UID s;
     UIDRaw := UIDRaw s; CID := CID s; SData := SData s; Stage := Stage s;
     ReqTime := ReqTime s; Processed := true; Completed := true;
     ReportSent := ReportSent s; Alive := Alive s; Wait := Wait s |}.

(** [session.Data[k] = v]. *)
Definition put (k : string) (v : GoVal) (s : Session) : Session :=
  set_Data (<[k := v]> (SData s)) s.

(** The three assignments that end a branch with a verdict. *)
Definition verdict (result : Z) (message : string) (st : SessionStage)
           (s : Session) : Session :=
  set_Stage st (put "message" (VString message) (put "result" (VInt result) s)).

(** [v, ok := m[k].(T)] for the types the manager asserts. *)
Definition as_map (v : option GoVal) : option (gmap string GoVal) :=
  match v with Some (VMap m) => Some m | _ => None end.
Definition as_string (v : option GoVal) : string :=
  match v with Some (VString x) => x | _ => "" end.
Definition as_int (v : option GoVal) : option Z :=
  match v with Some (VInt z) => Some z | _ => None end.
Definition as_bool (v : option GoVal) : option bool :=
  match v with Some (VBool b) => Some b | _ => None end.
Definition as_KPOResult (v : option GoVal) : option KPOResult :=
  match v with Some (VKPOResult r) => Some r | _ => None end.
Definition as_CamResult (v : option GoVal) : option CamResult :=
  match v with Some (VCamResult r) => Some r | _ => None end.

(** [generateSessionID] and [CreateSession] (part_010:659, 1057). *)
Definition generateSessionID (now : Z) (sm : SessionManager)
  : SessionManager * string :=
  let n := idGen sm + 1 in
  ({| sessions := sessions sm; idGen := n; config := config sm;
      httpClient := httpClient sm; heliosClient := heliosClient sm;
      pool := pool sm; csvLogger := csvLogger sm |},
   "session_" +:+ itoa (now / Second) +:+ "_" +:+ itoa n).

Definition new_session (now : Z) (sessionID uid key apkey : string) : Session :=
  {| SID := sessionID; SKey := key; Apkey := apkey; UID := uid;
     UIDRaw := uid; CID := ""; SData := ∅;
     Stage := SESSION_STAGE_INIT; ReqTime := now;
     Processed := false; Completed := false; ReportSent := false;
     Alive := true; Wait := None |}.

Definition CreateSession (now : Z) (uid key apkey : string) (sm : SessionManager)
  : SessionManager * string :=
  let '(sm, sessionID) := generateSessionID now sm in
  (with_sessions sm
     (<[sessionID := new_session now sessionID uid key apkey]> (sessions sm)),
   sessionID).

(** [setKpoResult] (part_010:594): the session is looked up by its id. *)
Definition setKpoResult (now : Z) (sessionID : string) (result : KPOResult)
           (message : string) (sm : SessionManager) : SessionManager * Res unit :=
  match sessions sm !! sessionID with
  | None => (sm, Err "session not found")
  | Some s =>
      let kpoData := default ∅ (as_map (SData s !! "kpo")) in
      let kpoData :=
        <["end_time" := VTime now]>
          (<["message" := VString message]>
             (<["result" := VKPOResult result]> kpoData)) in
      (with_sessions sm (<[sessionID := put "kpo" (VMap kpoData) s]> (sessions sm)),
       Ok tt)
  end.

(** [HandlePassEvent] and [HandleCameraResult] (part_010:617, 637). *)
Definition HandlePassEvent (sessionID : string) (gateNumber : Z) (sm : SessionManager)
  : SessionManager * Res unit :=
  match sessions sm !! sessionID with
  | None => (sm, Err "session not found")
  | Some s =>
      let s := if gateNumber =? 1 then put "passed_first" (VBool true) s
               else if gateNumber =? 2 then put "passed_second" (VBool true) s
               else s in
      (with_sessions sm (<[sessionID := s]> (sessions sm)), Ok tt)
  end.

Definition HandleCameraResult (sessionID : string) (result : CamResult)
           (message : string) (sm : SessionManager) : SessionManager * Res unit :=
  match sessions sm !! sessionID with
  | None => (sm, Err "session not found")
  | Some s =>
      let camData := default ∅ (as_map (SData s !! "cam")) in
      let camData :=
        <["message" := VString message]> (<["result" := VCamResult result]> camData) in
      (with_sessions sm (<[sessionID := put "cam" (VMap camData) s]> (sessions sm)),
       Ok tt)
  end.

(** [Wait] (part_010:1110). *)
Definition Wait_ (now : Z) (cfg : Config) (procType : Z) (dstStage : SessionStage)
           (timeout : float) (params : option (gmap string GoVal)) (s : Session)
  : Session * Res unit :=
  if Processed s || Completed s then (s, Err "session already processed")
  else
    let timeout :=
      if PrimFloat.leb timeout 0%float then
        if procType =? 1 then ServiceRequestExpireTime cfg
        else if procType =? 2 then ServiceRequestExpireTime cfg
        else 5%float
      else timeout in
    let expireTime := now + duration_of_seconds timeout in
    (set_Wait (Some {| ProcType := procType; ExpireTime := expireTime;
                       DstStage := dstStage; Params := params |}) s,
     Ok tt).

(** [waitDone] (part_010:1230): the stage constant 0, [INIT], stands for
    "no destination". *)
Definition waitDone (s : Session) : Session :=
  match Wait s with
  | None => s
  | Some w =>
      let s := set_Wait None s in
      if negb (stage_num (DstStage w) =? 0) then set_Stage (DstStage w) s else s
  end.

(** The same on the session behind the pointer [p]. *)
Definition waitDone_at (p : string) (sm : SessionManager) : SessionManager :=
  with_sessions sm (alter waitDone p (sessions sm)).

Definition wait_key (w : SessionWait) : string :=
  match Params w with
  | Some m => as_string (m !! "key")
  | None => ""
  end.

Definition kpo_available (s : Session) : bool :=
  match as_map (SData s !! "kpo") with
  | Some kpoData =>
      match as_KPOResult (kpoData !! "result") with
      | Some result => negb (KPOResult_eqb result KPO_RES_UNDEF)
      | None => false
      end
  | None => false
  end.

Definition cam_available (s : Session) : bool :=
  match as_map (SData s !! "cam") with
  | Some camData =>
      match as_CamResult (camData !! "result") with
      | Some result => negb (CamResult_eqb result CAM_RES_UNDEF)
      | None => false
      end
  | None => false
  end.

(** [checkWait] (part_010:1145) for the session [s] found behind [p].
    [now.After(t)] is [t < now]. *)
Definition checkWait (now : Z) (p : string) (s : Session) (sm : SessionManager)
  : SessionManager * bool :=
  match Wait s with
  | None => (sm, true)
  | Some w =>
      if ProcType w =? 1 then
        if kpo_available s then (waitDone_at p sm, true)
        else if ExpireTime w <? now then
          let sm :=
            if ServiceAutofixExpired (config sm)
            then fst (setKpoResult now (SID s) KPO_RES_YES
                                   (ServiceFixedMsg (config sm)) sm)
            else fst (setKpoResult now (SID s) KPO_RES_NO
                                   (ServiceLinkErrMsg (config sm)) sm) in
          (waitDone_at p sm, true)
        else (sm, false)
      else if ProcType w =? 2 then
        if cam_available s then (waitDone_at p sm, true)
        else if ExpireTime w <? now then
          let sm :=
            match as_map (SData s !! "cam") with
            | Some m =>
                let m :=
                  <["answer_data" := VMap (<["error" := VString "idle_timeout"]> ∅)]>
                    (<["result" := VCamResult CAM_RES_NO]> m) in
                with_sessions sm (alter (put "cam" (VMap m)) p (sessions sm))
            | None => sm
            end in
          (waitDone_at p sm, true)
        else (sm, false)
      else if ProcType w =? 3 then
        let occurred :=
          match as_map (SData s !! "passed") with
          | Some passed =>
              String.eqb (wait_key w) "" ||
              String.eqb (wait_key w) (as_string (passed !! "key"))
          | None => false
          end in
        if occurred then (waitDone_at p sm, true)
        else if ExpireTime w <? now then
          let passed :=
            <["key" := VString (wait_key w)]>
              (<["tmo" := VBool true]>
                 (<["time" := VTime now]> (<["passed" := VBool false]> ∅))) in
          (waitDone_at p
             (with_sessions sm (alter (put "passed" (VMap passed)) p (sessions sm))),
           true)
        else (sm, false)
      else (waitDone_at p sm, true)
  end.

(** [extractTerminalID] returns the connection key. *)
Definition extractTerminalID (connKey : string) : string := connKey.

Section Pool.

Context {P : Type} `{ConnectionPoolInterface P}.
Variable now : Z.

(** What a stage handler leaves: the session, the pool, the calls it
    recorded and its result. *)
Definition Step : Type := Session * P * list Effect * Res unit.

(** [sendAllowMessage] and [sendDenyMessage] (part_010:303, 406); the
    flag tells whether the call returned. *)
Definition sendAllowMessage (sm : SessionManager) (s : Session) (message : string)
           (pl : P) : P * bool :=
  if negb (pool sm) then (pl, true)
  else
    let passTime :=
      match as_int (SData s !! "pass_time") with
      | Some pt => if 0 <? pt then pt else 3000
      | None => 3000
      end in
    let cid := if String.eqb (CID s) "" then UID s else CID s in
    let '(pl, r) := SendJSPRelayOpen now (SKey s) (UID s) message passTime cid pl in
    (pl, negb (is_blocked r)).

Definition sendDenyMessage (sm : SessionManager) (s : Session) (message : string)
           (pl : P) : P * bool :=
  if negb (pool sm) then (pl, true)
  else
    let '(pl, r) := SendJSPRelayClose now (SKey s) pl in
    if is_blocked r then (pl, false)
    else
      let '(pl, r) := SendJSPMessage now (SKey s) message 1500 pl in
      (pl, negb (is_blocked r)).

Definition returned (s : Session) (out : P * bool) : Step :=
  (s, fst out, [], if snd out then Ok tt else Blocked).

(** [processKpoResult] (part_010:128). *)
Definition processKpoResult (sm : SessionManager) (s : Session) (pl : P) : Step :=
  match as_map (SData s !! "kpo") with
  | None => (s, pl, [], Err "no KPO data in session")
  | Some kpoData =>
      match as_KPOResult (kpoData !! "result") with
      | None => (s, pl, [], Ok tt)
      | Some result =>
          let message := as_string (kpoData !! "message") in
          let message := if String.eqb message "" then "Проходите" else message in
          if negb (KPOResult_eqb result KPO_RES_YES)
          then (verdict 0 message SESSION_STAGE_LAST_ANSWER s, pl, [], Ok tt)
          else
            (verdict 1 message
                     (if CamServiceActive (config sm)
                      then SESSION_STAGE_OPEN_FIRST
                      else SESSION_STAGE_LAST_ANSWER) s,
             pl, [], Ok tt)
      end
  end.

(** [processKpoDirect] (part_010:1260): the stage is set before the
    message is sent. *)
Definition processKpoDirect (sm : SessionManager) (s : Session) (pl : P) : Step :=
  match as_map (SData s !! "kpo") with
  | None => (s, pl, [], Ok tt)
  | Some kpoData =>
      match as_KPOResult (kpoData !! "result") with
      | None => (s, pl, [], Ok tt)
      | Some result =>
          let message := as_string (kpoData !! "message") in
          if KPOResult_eqb result KPO_RES_YES then
            let s := verdict 1 message SESSION_STAGE_LAST_ANSWER s in
            returned s (sendAllowMessage sm s message pl)
          else
            let s := verdict 0 message SESSION_STAGE_LAST_ANSWER s in
            returned s (sendDenyMessage sm s message pl)
      end
  end.

(** [processOpenFirst] (part_010:167). *)
Definition processOpenFirst (s : Session) (pl : P) : Step :=
  (set_Stage SESSION_STAGE_FIRST_PASSED s, pl, [], Ok tt).

(** [processFirstPassed] (part_010:181). *)
Definition processFirstPassed (sm : SessionManager) (s : Session) (pl : P) : Step :=
  match as_bool (SData s !! "passed_first") with
  | None => (s, pl, [], Ok tt)
  | Some false =>
      (verdict 0 "Проход не зарегистрирован" SESSION_STAGE_LAST_ANSWER s,
       pl, [], Ok tt)
  | Some true =>
      if CamServiceActive (config sm) && negb (String.eqb (CID s) "")
      then (set_Stage SESSION_STAGE_CAM_RESULT s, pl, [], Ok tt)
      else (set_Stage SESSION_STAGE_OPEN_SECOND s, pl, [], Ok tt)
  end.

(** [processCamResult] (part_010:205). *)
Definition processCamResult (sm : SessionManager) (s : Session) (pl : P) : Step :=
  match as_map (SData s !! "cam") with
  | None => (s, pl, [], Ok tt)
  | Some camData =>
      match as_CamResult (camData !! "result") with
      | None => (s, pl, [], Ok tt)
      | Some CAM_RES_YES =>
          (set_Stage SESSION_STAGE_OPEN_SECOND (put "result" (VInt 1) s),
           pl, [], Ok tt)
      | Some CAM_RES_NO =>
          (verdict 0 (CamServiceResultMsgNo (config sm)) SESSION_STAGE_LAST_ANSWER s,
           pl, [], Ok tt)
      | Some CAM_RES_NF =>
          (verdict 0 (CamServiceResultMsgNf (config sm)) SESSION_STAGE_LAST_ANSWER s,
           pl, [], Ok tt)
      | Some CAM_RES_FAIL =>
          (verdict 0 (CamServiceResultMsgFail (config sm)) SESSION_STAGE_LAST_ANSWER s,
           pl, [], Ok tt)
      | Some CAM_RES_UNDEF =>
          if CamAlwaysPass (config sm)
          then (set_Stage SESSION_STAGE_OPEN_SECOND (put "result" (VInt 1) s),
                pl, [], Ok tt)
          else (verdict 0 "Ошибка распознавания" SESSION_STAGE_LAST_ANSWER s,
                pl, [], Ok tt)
      end
  end.

(** [processOpenSecond] and [processSecondPassed] (part_010:247, 254). *)
Definition processOpenSecond (s : Session) (pl : P) : Step :=
  (set_Stage SESSION_STAGE_SECOND_PASSED s, pl, [], Ok tt).

Definition processSecondPassed (s : Session) (pl : P) : Step :=
  match as_bool (SData s !! "passed_second") with
  | None => (s, pl, [], Ok tt)
  | Some passed =>
      (set_Stage SESSION_STAGE_PASSED (put "passed" (VBool passed) s),
       pl, [], Ok tt)
  end.

(** [processPassed] (part_010:267): [session.Data["result"].(int)] panics
    when the value is not an [int]. *)
Definition processPassed (sm : SessionManager) (s : Session) (pl : P) : Step :=
  let finish := set_Stage SESSION_STAGE_DONE (set_ReportSent true s) in
  if httpClient sm then
    match as_int (SData s !! "result") with
    | None => (s, pl, [], Panic)
    | Some r =>
        (finish, pl,
         [HttpSendAccessReport (UID s) (extractTerminalID (SKey s)) (0 <? r) ""],
         Ok tt)
    end
  else (finish, pl, [], Ok tt).

(** [processLastAnswer] (part_010:285): the stage is set after the
    message is sent. *)
Definition processLastAnswer (sm : SessionManager) (s : Session) (pl : P) : Step :=
  let result := default 0 (as_int (SData s !! "result")) in
  let message := as_string (SData s !! "message") in
  if 0 <? result then
    let out := sendAllowMessage sm s message pl in
    returned (if snd out then set_Stage SESSION_STAGE_PASSED s else s) out
  else
    let out := sendDenyMessage sm s message pl in
    returned (if snd out then set_Stage SESSION_STAGE_DONE s else s) out.

(** [processDone] (part_010:424). *)
Definition processDone (sm : SessionManager) (s : Session) (pl : P) : Step :=
  let s := if ReportSent s then s else set_ReportSent true s in
  let log :=
    if csvLogger sm
    then [CsvLogSession s (if pool sm then GetConnection (SKey s) pl else None)]
    else [] in
  (set_done s, pl, log, Ok tt).

(** The [switch] of [ProcessSessionStage]; [INIT] has no case. *)
Definition dispatch (sm : SessionManager) (s : Session) (pl : P) : Step :=
  match Stage s with
  | SESSION_STAGE_INIT => (s, pl, [], Ok tt)
  | SESSION_STAGE_KPO_RESULT => processKpoResult sm s pl
  | SESSION_STAGE_KPO_DIRECT => processKpoDirect sm s pl
  | SESSION_STAGE_OPEN_FIRST => processOpenFirst s pl
  | SESSION_STAGE_FIRST_PASSED => processFirstPassed sm s pl
  | SESSION_STAGE_CAM_RESULT => processCamResult sm s pl
  | SESSION_STAGE_OPEN_SECOND => processOpenSecond s pl
  | SESSION_STAGE_SECOND_PASSED => processSecondPassed s pl
  | SESSION_STAGE_PASSED => processPassed sm s pl
  | SESSION_STAGE_LAST_ANSWER => processLastAnswer sm s pl
  | SESSION_STAGE_DONE => processDone sm s pl
  end.

(** [ProcessSessionStage] (part_010:79). The handler works on the session
    as [checkWait] has left it. *)
Definition ProcessSessionStage (sessionID : string) (sm : SessionManager) (pl : P)
  : SessionManager * P * list Effect * Res unit :=
  match sessions sm !! sessionID with
  | None => (sm, pl, [], Err "session not found")
  | Some s =>
      if Processed s || Completed s then (sm, pl, [], Ok tt)
      else
        let '(sm, go) :=
          match Wait s with
          | Some _ => checkWait now sessionID s sm
          | None => (sm, true)
          end in
        if negb go then (sm, pl, [], Ok tt)
        else
          match sessions sm !! sessionID with
          | None => (sm, pl, [], Ok tt)
          | Some s =>
              let '(s', pl, effects, r) := dispatch sm s pl in
              (with_sessions sm (<[sessionID := s']> (sessions sm)), pl, effects, r)
          end
  end.

(** [checkTagReadDeny] (part_010:334). *)
Definition checkTagReadDeny (sm : SessionManager) (s : Session) (pl : P)
  : Session * bool :=
  if negb (pool sm) then (s, false)
  else
    match GetConnection (SKey s) pl with
    | None => (s, false)
    | Some conn =>
        match Settings conn with
        | None => (s, false)
        | Some settings =>
            match as_map (SData s !! "rfid") with
            | None => (s, false)
            | Some rfidData =>
                let deny msg :=
                  (verdict 0 msg SESSION_STAGE_LAST_ANSWER
                           (put "error_message" (VString msg) s), true) in
                let auth := default false (as_bool (rfidData !! "auth")) in
                if negb auth then deny "Метка не прочитана"
                else
                  let lockersDataF :=
                    match rfidData !! "lockers_data_f" with
                    | Some (VStrings l) => l
                    | _ => []
                    end in
                  if DenyLockers settings && (0 <? len lockersDataF) then
                    let chunks := Z.min (len lockersDataF / 3) 3 in
                    let chunk i :=
                      " [" +:+ utils.join " " (slice lockersDataF (3 * i) (3 * i + 3))
                           +:+ "]" in
                    deny (fold_left (fun msg i => msg +:+ chunk (Z.of_nat i))
                                    (seq 0 (Z.to_nat chunks)) "Сдайте шкафы:")
                  else if DenyCT settings
                          && default false (as_bool (rfidData !! "temp_card"))
                  then deny "Это карта
для
картоприемника"
                  else (s, false)
            end
        end
    end.

(** [sendKpoRequest] (part_010:497), up to the [go] statement; the
    goroutine is [kpoRequest] below. [time.Duration(f) * time.Second]
    truncates the seconds before it scales them. *)
Definition sendKpoRequest (sm : SessionManager) (s : Session)
  : Session * list Effect :=
  let kpo :=
    <["expire_time" :=
        VTime (now + int_of_float64 (ServiceRequestExpireTime (config sm)) * Second)]>
      (<["start_time" := VTime now]>
         (<["result" := VKPOResult KPO_RES_UNDEF]> ∅)) in
  (set_Stage SESSION_STAGE_KPO_RESULT (set_ReqTime now (put "kpo" (VMap kpo) s)),
   [GoKpoRequest (SID s)]).

(** The [rfid] entry that [StartSession] builds. *)
Definition rfid_data (uid : string) (lockers : list LockerInfo) : gmap string GoVal :=
  let rfidData : gmap string GoVal := <["uid" := VString uid]> ∅ in
  if 0 <? len lockers then
    let '(lockersDataArray, lockersDataF) := utils.ProcessLockersData lockers in
    <["lockers_data_f" := VStrings lockersDataF]>
      (<["lockers_data" := VStrings lockersDataArray]> rfidData)
  else rfidData.

(** [StartSession] (part_010:449). The result is the pointer to the new
    session. *)
Definition StartSession (uid key apkey : string) (lockers : list LockerInfo)
           (sm : SessionManager) (pl : P)
  : SessionManager * P * list Effect * Res string :=
  let '(sm, p) := CreateSession now uid key apkey sm in
  let s := new_session now p uid key apkey in
  let s := set_Data (<["rfid" := VMap (rfid_data uid lockers)]> ∅) s in
  let '(s, denied) := checkTagReadDeny sm s pl in
  if denied then (with_sessions sm (<[p := s]> (sessions sm)), pl, [], Ok p)
  else
    let '(pl, r) :=
      if pool sm then LockTerminal now (SKey s) (SID s) "Ожидание..." pl
      else (pl, Ok tt) in
    if is_blocked r
    then (with_sessions sm (<[p := s]> (sessions sm)), pl, [], Blocked)
    else
      let '(s, spawned) := sendKpoRequest sm s in
      let '(s, _) :=
        Wait_ now (config sm) 1 SESSION_STAGE_KPO_RESULT 0%float None s in
      (with_sessions sm (<[p := s]> (sessions sm)), pl, spawned, Ok p).

End Pool.


(** [GetAllSessions]; the order of a Go map iteration is not specified,
    the model takes that of [map_to_list]. *)
Definition GetAllSessions (sm : SessionManager) : list Session :=
  (map_to_list (sessions sm)).*2.

(** [GetSession], [DeleteSession] and [GetActiveSessions]
    (part_010:685, 755, 763). *)
Definition GetSession (sessionID : string) (sm : SessionManager) : option Session :=
  sessions sm !! sessionID.

Definition DeleteSession (sessionID : string) (sm : SessionManager) : SessionManager :=
  with_sessions sm (delete sessionID (sessions sm)).

Definition GetActiveSessions (sm : SessionManager) : list Session :=
  List.filter (fun s => Alive s && negb (Completed s)) (GetAllSessions sm).

(** [CleanupExpiredSessions] (part_010:1063): the ids are collected
    first and deleted afterwards. *)
Definition expired (now : Z) (sm : SessionManager) (s : Session) : bool :=
  duration_of_seconds (SessionExpireTime (config sm)) <? now - ReqTime s.

Definition CleanupExpiredSessions (now : Z) (sm : SessionManager) : SessionManager :=
  let ids :=
    (List.filter (fun '(_, s) => expired now sm s) (map_to_list (sessions sm))).*1 in
  with_sessions sm (fold_left (fun m id => delete id m) ids (sessions sm)).

End session.

(** ** Package [sphinx] (src/internal/protocols/sphinx/protocol.go):
    the decoder that the pool calls *)

Module sphinx.

Definition flush (cur : list Z) (acc : list string) : list string :=
  if len cur =? 0 then acc else acc ++ [string_of_bytes cur].

(** [strings.Fields]: the maximal runs without a white-space rune. *)
Fixpoint fields_from (fuel : nat) (l cur : list Z) (acc : list string)
  : list string :=
  match fuel with
  | O => flush cur acc
  | S n =>
      match l with
      | [] => flush cur acc
      | b :: r =>
          match gostrings.drop_space l with
          | Some r' => fields_from n r' [] (flush cur acc)
          | None => fields_from n r (cur ++ [b]) acc
          end
      end
  end.

Definition Fields (s : string) : list string :=
  let l := bytes_of_string s in
  fields_from (S (length l)) l [] [].

Definition validCommands : list string :=
  ["OK"; "ERROR"; "LOGIN"; "LOGOUT"; "SUBSCRIBE"; "UNSUBSCRIBE";
   "DELEGATION_START"; "DELEGATION_STOP"; "DELEGATION_REQUEST";
   "DELEGATION_REPLY"; "GETAPLIST"; "GETZONEINFO"; "PING"; "PONG"].

Definition isValidCommand (cmd : string) : bool :=
  existsb (String.eqb cmd) validCommands.

(** [DecodePacket] (protocol.go:53). *)
Definition DecodePacket (data : list Z) : Res Packet :=
  let str := gostrings.TrimSpace (string_of_bytes data) in
  if String.eqb str "" then Err "empty packet"
  else
    match Fields str with
    | [] => Err "invalid packet format"
    | first :: params =>
        let cmd := gostrings.ToUpper first in
        if negb (isValidCommand cmd) then Err "invalid command"
        else
          Ok {| Cmd := 0; Code := None; Flags := None; Payload := str;
                Data :=
                  <["raw" := VString str]>
                    (<["params" := VStrings params]>
                       (<["command" := VString cmd]> ∅)) |}
    end.

End sphinx.

(** ** Package [connection] (src/internal/connection/pool.go and the
    MEMREG handler in the last document of src/internal/cardlist/cardlist.go)

    A [*Connection] is the key of the connection in the map of the pool.
    The socket [Conn] is the list of the byte slices written to it, oldest
    first; a write to a connected socket succeeds. *)

Module connection.

(** [PocketPingState], [GatPingState] and [SphinxPingState], without the
    time of the last ping; [TerminalType] is the GAT field. *)
Record PingState := {
  PingInterval : Z;
  PingTimeout : Z;
  PingSent : bool;
  PingSinceLast : Z;
  TerminalType : Z
}.

Definition ping_reset (p : PingState) : PingState :=
  {| PingInterval := PingInterval p; PingTimeout := PingTimeout p;
     PingSent := false; PingSinceLast := 0; TerminalType := TerminalType p |}.

(** [type Connection struct] of the pool, without [PendingData], which is
    only initialised. *)
Record Connection := {
  Key : string;
  Conn : list (list Z);
  Addr : string;
  Port : Z;
  Connected : bool;
  LastActivity : Z;
  StartTime : Z;
  Settings : option TerminalSettings;
  Buffer : list Z;
  JSPConn : option jsp.JSPConnection;
  JSPRIDCounter : Z;
  PocketPing : option PingState;
  GatPing : option PingState;
  SphinxPing : option PingState
}.

(** [type ConnectionPool struct]: the connections and the configuration;
    the event handlers are the variables of the section below. *)
Record ConnectionPool := {
  connections : gmap string Connection;
  config : Config
}.

Definition NewConnectionPool (config : Config) : ConnectionPool :=
  {| connections := ∅; config := config |}.

(** Assignments to the fields of a connection. *)
Definition set_Conn (x : list (list Z)) (c : Connection) : Connection :=
  {| Key := Key c; Conn := x; Addr := Addr c; Port := Port c;
     Connected := Connected c; LastActivity := LastActivity c;
     StartTime := StartTime c; Settings := Settings c; Buffer := Buffer c;
     JSPConn := JSPConn c; JSPRIDCounter := JSPRIDCounter c;
     PocketPing := PocketPing c; GatPing := GatPing c;
     SphinxPing := SphinxPing c |}.

Definition set_LastActivity (x : Z) (c : Connection) : Connection :=
  {| Key := Key c; Conn := Conn c; Addr := Addr c; Port := Port c;
     Connected := Connected c; LastActivity := x;
     StartTime := StartTime c; Settings := Settings c; Buffer := Buffer c;
     JSPConn := JSPConn c; JSPRIDCounter := JSPRIDCounter c;
     PocketPing := PocketPing c; GatPing := GatPing c;
     SphinxPing := SphinxPing c |}.

Definition set_Settings (x : option TerminalSettings) (c : Connection) : Connection :=
  {| Key := Key c; Conn := Conn c; Addr := Addr c; Port := Port c;
     Connected := Connected c; LastActivity := LastActivity c;
     StartTime := StartTime c; Settings := x; Buffer := Buffer c;
     JSPConn := JSPConn c; JSPRIDCounter := JSPRIDCounter c;
     PocketPing := PocketPing c; GatPing := GatPing c;
     SphinxPing := SphinxPing c |}.

Definition set_Buffer (x : list Z) (c : Connection) : Connection :=
  {| Key := Key c; Conn := Conn c; Addr := Addr c; Port := Port c;
     Connected := Connected c; LastActivity := LastActivity c;
     StartTime := StartTime c; Settings := Settings c; Buffer := x;
     JSPConn := JSPConn c; JSPRIDCounter := JSPRIDCounter c;
     PocketPing := PocketPing c; GatPing := GatPing c;
     SphinxPing := SphinxPing c |}.

Definition set_JSPConn (x : option jsp.JSPConnection) (c : Connection) : Connection :=
  {| Key := Key c; Conn := Conn c; Addr := Addr c; Port := Port c;
     Connected := Connected c; LastActivity := LastActivity c;
     StartTime := StartTime c; Settings := Settings c; Buffer := Buffer c;
     JSPConn := x; JSPRIDCounter := JSPRIDCounter c;
     PocketPing := PocketPing c; GatPing := GatPing c;
     SphinxPing := SphinxPing c |}.

Definition set_JSPRIDCounter (x : Z) (c : Connection) : Connection :=
  {| Key := Key c; Conn := Conn c; Addr := Addr c; Port := Port c;
     Connected := Connected c; LastActivity := LastActivity c;
     StartTime := StartTime c; Settings := Settings c; Buffer := Buffer c;
     JSPConn := JSPConn c; JSPRIDCounter := x;
     PocketPing := PocketPing c; GatPing := GatPing c;
     SphinxPing := SphinxPing c |}.

Definition set_PocketPing (x : option PingState) (c : Connection) : Connection :=
  {| Key := Key c; Conn := Conn c; Addr := Addr c; Port := Port c;
     Connected := Connected c; LastActivity := LastActivity c;
     StartTime := StartTime c; Settings := Settings c; Buffer := Buffer c;
     JSPConn := JSPConn c; JSPRIDCounter := JSPRIDCounter c;
     PocketPing := x; GatPing := GatPing c; SphinxPing := SphinxPing c |}.

Definition set_GatPing (x : option PingState) (c : Connection) : Connection :=
  {| Key := Key c; Conn := Conn c; Addr := Addr c; Port := Port c;
     Connected := Connected c; LastActivity := LastActivity c;
     StartTime := StartTime c; Settings := Settings c; Buffer := Buffer c;
     JSPConn := JSPConn c; JSPRIDCounter := JSPRIDCounter c;
     PocketPing := PocketPing c; GatPing := x; SphinxPing := SphinxPing c |}.

Definition set_SphinxPing (x : option PingState) (c : Connection) : Connection :=
  {| Key := Key c; Conn := Conn c; Addr := Addr c; Port := Port c;
     Connected := Connected c; LastActivity := LastActivity c;
     StartTime := StartTime c; Settings := Settings c; Buffer := Buffer c;
     JSPConn := JSPConn c; JSPRIDCounter := JSPRIDCounter c;
     PocketPing := PocketPing c; GatPing := GatPing c; SphinxPing := x |}.

(** [&types.TerminalSettings{}] and [&types.TerminalSettings{Type: t}]. *)
Definition settings_of_type (t : types.TerminalType) : TerminalSettings :=
  {| ID := ""; IP := ""; types.Port := 0; Type_ := t; UTF := false;
     RegQuery := false; ConfigString := ""; DenyLockers := false;
     DenyCT := false; CTRole := ""; MemRegDev := ""; MemRegDeny := "";
     MemRegRole := ""; Extra := None |}.
Definition zero_settings : TerminalSettings := settings_of_type (TTYPE_other "").

Definition set_Extra (x : option (gmap string GoVal)) (s : TerminalSettings)
  : TerminalSettings :=
  {| ID := ID s; IP := IP s; types.Port := types.Port s; Type_ := Type_ s;
     UTF := UTF s; RegQuery := RegQuery s; ConfigString := ConfigString s;
     DenyLockers := DenyLockers s; DenyCT := DenyCT s; CTRole := CTRole s;
     MemRegDev := MemRegDev s; MemRegDeny := MemRegDeny s;
     MemRegRole := MemRegRole s; Extra := x |}.

(** An assignment through the pointer [key]. *)
Definition update (key : string) (f : Connection -> Connection) (cp : ConnectionPool)
  : ConnectionPool :=
  {| connections := alter f key (connections cp); config := config cp |}.

(** [GetConnection] (pool.go:436). [Settings] is the pointer of the pool's
    connection, not a copy. *)
Definition GetConnection (key : string) (cp : ConnectionPool) : option types.Connection :=
  match connections cp !! key with
  | None => None
  | Some conn =>
      Some {| types.Key := Key conn; ConKey := Key conn; CIP := Addr conn;
              CPort := Port conn; types.Settings := Settings conn;
              types.StartTime := StartTime conn;
              types.LastActivity := LastActivity conn;
              types.Connected := Connected conn |}
  end.

(** [Send] (pool.go:295). It begins with [cp.mutex.RLock()], which never
    returns when the calling goroutine holds the write lock of the mutex
    (a [sync.RWMutex] is not reentrant): [held] tells whether it does. *)
Definition Send_from (held : bool) (now : Z) (key : string) (data : list Z)
           (cp : ConnectionPool) : ConnectionPool * Res unit :=
  if held then (cp, Blocked)
  else
    match connections cp !! key with
    | Some conn =>
        if Connected conn then
          (update key (fun c => set_Conn (Conn c ++ [data]) (set_LastActivity now c)) cp,
           Ok tt)
        else (cp, Err "connection not found or not connected")
    | None => (cp, Err "connection not found or not connected")
    end.

Definition Send : Z -> string -> list Z -> ConnectionPool -> ConnectionPool * Res unit :=
  Send_from false.

(** [UnlockTerminal] for the terminals that get no frame, and the check
    that precedes the frame for the others (pool.go:397-417). *)
Definition reader_locked (conn : Connection) : option GoVal :=
  match Settings conn with
  | Some st => match Extra st with
               | Some extra => extra !! "reader_locked"
               | None => None
               end
  | None => None
  end.

Section Json.

Variable json_Marshal : gmap string GoVal -> list Z.
Variable json_Unmarshal : list Z -> option (gmap string GoVal).
Variable now : Z.

(** [LockTerminal] (pool.go:358). The write lock is held from the first
    statement to the return, so the two calls of [cp.Send] are made with
    the lock held. *)
Definition LockTerminal (key sessionID text : string) (cp : ConnectionPool)
  : ConnectionPool * Res unit :=
  match connections cp !! key with
  | None => (cp, Err "connection not found or not connected")
  | Some conn =>
      if negb (Connected conn) then (cp, Err "connection not found or not connected")
      else
        let settings := default zero_settings (Settings conn) in
        let extra := default ∅ (Extra settings) in
        let settings :=
          set_Extra (Some (<["reader_locked" := VString sessionID]> extra)) settings in
        let cp := update key (set_Settings (Some settings)) cp in
        if TerminalType_eqb (Type_ settings) TTYPE_POCKET then
          Send_from true now key (pocket.CreateLockPacket text) cp
        else if TerminalType_eqb (Type_ settings) TTYPE_JSP then
          let text := if String.eqb text "" then "Ожидание..." else text in
          match JSPConn conn with
          | Some _ =>
              Send_from true now key (jsp.CreateMessagePacket json_Marshal text 0) cp
          | None => (cp, Err "JSP connection not initialized")
          end
        else (cp, Ok tt)
  end.

(** [UnlockTerminal] (pool.go:397). *)
Definition UnlockTerminal (key sessionID : string) (cp : ConnectionPool)
  : ConnectionPool * Res unit :=
  match connections cp !! key with
  | None => (cp, Err "connection not found or not connected")
  | Some conn =>
      if negb (Connected conn) then (cp, Err "connection not found or not connected")
      else
        match Settings conn with
        | None => (cp, Err "terminal not locked")
        | Some settings =>
            match Extra settings with
            | None => (cp, Err "terminal not locked")
            | Some extra =>
                match extra !! "reader_locked" with
                | Some (VString lockedSessionID) =>
                    if negb (String.eqb lockedSessionID sessionID)
                    then (cp, Err "terminal not locked by session")
                    else
                      let settings :=
                        set_Extra (Some (delete "reader_locked" extra)) settings in
                      let cp := update key (set_Settings (Some settings)) cp in
                      if TerminalType_eqb (Type_ settings) TTYPE_POCKET then
                        Send_from true now key pocket.CreateUnlockPacket cp
                      else if TerminalType_eqb (Type_ settings) TTYPE_JSP then
                        match JSPConn conn with
                        | Some _ =>
                            Send_from true now key
                                      (jsp.CreateMessagePacket json_Marshal "" 0) cp
                        | None => (cp, Err "JSP connection not initialized")
                        end
                      else (cp, Ok tt)
                | _ => (cp, Err "terminal not locked by session")
                end
            end
        end
  end.

(** The checks shared by the three JSP senders (pool.go:1118-1134). *)
Definition jsp_ready (key : string) (cp : ConnectionPool) : Res Connection :=
  match connections cp !! key with
  | None => Err "connection not found or not connected"
  | Some conn =>
      if negb (Connected conn) then Err "connection not found or not connected"
      else
        match Settings conn with
        | None => Err "connection is not JSP type"
        | Some st =>
            if negb (TerminalType_eqb (Type_ st) TTYPE_JSP)
            then Err "connection is not JSP type"
            else match JSPConn conn with
                 | None => Err "JSP connection not initialized"
                 | Some _ => Ok conn
                 end
        end
  end.

(** [SendJSPMessage] (pool.go:1118). *)
Definition SendJSPMessage (key text : string) (timeMs : Z) (cp : ConnectionPool)
  : ConnectionPool * Res unit :=
  match jsp_ready key cp with
  | Ok _ => Send now key (jsp.CreateMessagePacket json_Marshal text timeMs) cp
  | Err e => (cp, Err e)
  | Panic => (cp, Panic)
  | Blocked => (cp, Blocked)
  end.

(** The request that the two relay senders store under the [rid] that
    they read back from their own frame. *)
Definition store_request (cmd : string) (packet : list Z) (c : Connection)
  : Connection :=
  match json_Unmarshal (slice packet 5 (len packet - 1)) with
  | Some packetData =>
      match packetData !! "rid" with
      | Some (VString rid) =>
          let j := default jsp.NewJSPConnection (JSPConn c) in
          set_JSPConn
            (Some (jsp.set_Requests
                     (<[rid := {| jsp.RID := rid; jsp.RKey := rid; jsp.RCmd := cmd;
                                  jsp.RTime := now |}]> (jsp.Requests j)) j)) c
      | _ => c
      end
  | None => c
  end.

(** [SendJSPRelayOpen] (pool.go:1140). *)
Definition SendJSPRelayOpen (key uid caption : string) (timeMs : Z) (cid : string)
           (cp : ConnectionPool) : ConnectionPool * Res unit :=
  match jsp_ready key cp with
  | Ok conn =>
      let '(counter, packet) :=
        jsp.SendRelayOpen json_Marshal (JSPRIDCounter conn) uid caption timeMs cid in
      let cp :=
        update key (fun c => store_request "relay_open" packet
                                           (set_JSPRIDCounter counter c)) cp in
      Send now key packet cp
  | Err e => (cp, Err e)
  | Panic => (cp, Panic)
  | Blocked => (cp, Blocked)
  end.

(** [SendJSPRelayClose] (pool.go:1184). *)
Definition SendJSPRelayClose (key : string) (cp : ConnectionPool)
  : ConnectionPool * Res unit :=
  match jsp_ready key cp with
  | Ok conn =>
      let '(counter, packet) := jsp.SendRelayClose json_Marshal (JSPRIDCounter conn) in
      let cp :=
        update key (fun c => if 6 <? len packet
                             then store_request "relay_close" packet
                                                (set_JSPRIDCounter counter c)
                             else set_JSPRIDCounter counter c) cp in
      Send now key packet cp
  | Err e => (cp, Err e)
  | Panic => (cp, Panic)
  | Blocked => (cp, Blocked)
  end.

End Json.

(** [*ConnectionPool] implements the interface of the session manager. *)
#[export] Instance pool_interface
  (json_Marshal : gmap string GoVal -> list Z)
  (json_Unmarshal : list Z -> option (gmap string GoVal))
  : session.ConnectionPoolInterface ConnectionPool :=
  {| session.SendJSPRelayOpen := SendJSPRelayOpen json_Marshal json_Unmarshal;
     session.SendJSPRelayClose := SendJSPRelayClose json_Marshal json_Unmarshal;
     session.SendJSPMessage := SendJSPMessage json_Marshal;
     session.Send := Send;
     session.GetConnection := GetConnection;
     session.LockTerminal := LockTerminal json_Marshal;
     session.UnlockTerminal := fun now => UnlockTerminal json_Marshal now |}.

(** [getMemRegMessage] (cardlist.go, last document, line 701). *)
Definition towel_messages (msgType : string) : option string :=
  if String.eqb msgType "set" then Some "Полотенце
[ВЫДАНО]
УСПЕШНО"
  else if String.eqb msgType "clr" then Some "Полотенце
[СДАНО]
УСПЕШНО"
  else if String.eqb msgType "info_set" then Some "Ошибка
Полотенце:
уже было ВЫДАНО"
  else if String.eqb msgType "info_clr" then Some "Полотенце:
[НЕ ВЫДАНО]"
  else if String.eqb msgType "do_set" then Some "Возьмите полотенце"
  else if String.eqb msgType "do_clr" then Some "Сдайте полотенце"
  else if String.eqb msgType "denied" then Some "СДАЙТЕ
ПОЛОТЕНЦЕ"
  else None.

Definition default_messages (msgType : string) : option string :=
  if String.eqb msgType "set" then Some "Отметка
[УСТАНОВЛЕНА]
УСПЕШНО"
  else if String.eqb msgType "clr" then Some "Отметка
[СНЯТА]
УСПЕШНО"
  else if String.eqb msgType "info_set" then Some "Статус отметки:
[УСТАНОВЛЕНА]"
  else if String.eqb msgType "info_clr" then Some "Статус отметки:
[СНЯТА]"
  else if String.eqb msgType "do_set" then Some "Совершите действие"
  else if String.eqb msgType "do_clr" then Some "Совершите действие"
  else if String.eqb msgType "denied" then Some "СНИМИТЕ
ОТМЕТКУ"
  else None.

Definition messages (storage : string) : option (string -> option string) :=
  if String.eqb storage "towel" then Some towel_messages
  else if String.eqb storage "default" then Some default_messages
  else None.

Definition getMemRegMessage (storage msgType : string) : string :=
  match
    match messages storage with
    | Some storageMsgs => storageMsgs msgType
    | None => None
    end
  with
  | Some msg => msg
  | None => default "Ошибка" (default_messages msgType)
  end.

(** The [switch memregKey.Mode] of [handleMemRegDevice]: the storage, the
    message, [result] and the sound. *)
Definition memreg_set (mrs : utils.MemRegStorage) (storage uid : string)
  : utils.MemRegStorage * string * bool * Z :=
  let '(mrs', r) := utils.Set_ mrs storage uid (VBool true) in
  if is_ok r then (mrs', getMemRegMessage storage "set", true, 1)
  else (mrs', "Ошибка установки отметки", false, 3).

Definition memreg_del (mrs : utils.MemRegStorage) (storage uid : string)
  : utils.MemRegStorage * string * bool * Z :=
  let '(mrs', r) := utils.Del mrs storage uid in
  if is_ok r then (mrs', getMemRegMessage storage "clr", true, 1)
  else (mrs', "Ошибка снятия отметки", false, 3).

Definition memreg_switch (mode : utils.MemRegMode) (hasValue : bool)
           (mrs : utils.MemRegStorage) (storage uid : string)
  : utils.MemRegStorage * string * bool * Z :=
  match mode with
  | utils.MEMREG_MODE_AUTO =>
      if negb hasValue then memreg_set mrs storage uid
      else memreg_del mrs storage uid
  | utils.MEMREG_MODE_SET | utils.MEMREG_MODE_DISP =>
      if negb hasValue then memreg_set mrs storage uid
      else (mrs, getMemRegMessage storage "info_set", false, 3)
  | utils.MEMREG_MODE_CLR | utils.MEMREG_MODE_TAKE =>
      if hasValue then memreg_del mrs storage uid
      else (mrs, getMemRegMessage storage "info_clr", false, 3)
  end.

(** The first position of [\r\n] in a buffer. *)
Fixpoint index_crlf (l : list Z) : option Z :=
  match l with
  | 13 :: ((10 :: _) as r) => Some 0
  | _ :: r => Z.succ <$> index_crlf r
  | [] => None
  end.

(** The pool, the global MEMREG storage of package [utils] and the state
    [D] of the program that registered the event handlers. *)
Record World (D : Type) := {
  w_pool : ConnectionPool;
  w_memreg : utils.MemRegStorage;
  w_daemon : D
}.
Arguments w_pool {D} w.
Arguments w_memreg {D} w.
Arguments w_daemon {D} w.

Definition with_pool {D} (cp : ConnectionPool) (w : World D) : World D :=
  {| w_pool := cp; w_memreg := w_memreg w; w_daemon := w_daemon w |}.
Definition with_memreg {D} (m : utils.MemRegStorage) (w : World D) : World D :=
  {| w_pool := w_pool w; w_memreg := m; w_daemon := w_daemon w |}.

(** An assignment to a field of [*conn]. *)
Definition assign {D} (key : string) (f : Connection -> Connection) (w : World D)
  : World D :=
  with_pool (update key f (w_pool w)) w.

Definition as_uint8 (v : option GoVal) : Z :=
  match v with Some (VUint8 z) => z | _ => 0 end.

Section Handlers.

Context {D : Type}.
Variable json_Marshal : gmap string GoVal -> list Z.
Variable json_Unmarshal : list Z -> option (gmap string GoVal).

(** [cp.onTagRead] and [cp.onPassEvent]; [None] is the nil function. A
    handler is run to its end before the pool goes on, and leaves the
    receive buffers alone. *)
Variable onTagRead :
  option (string -> string -> Z -> bool -> World D -> World D * Res unit).
Variable onPassEvent : option (string -> bool -> World D -> World D * Res unit).
Variable now : Z.

Definition tag_read (key uid : string) (readerType : Z) (auth : bool) (w : World D)
  : World D * Res unit :=
  match onTagRead with
  | Some handler => handler key uid readerType auth w
  | None => (w, Ok tt)
  end.

Definition pass_event (key : string) (passed : bool) (w : World D)
  : World D * Res unit :=
  match onPassEvent with
  | Some handler => handler key passed w
  | None => (w, Ok tt)
  end.

(** [cp.Send] by the reading goroutine, which holds no lock; its result is
    dropped. *)
Definition send (key : string) (data : list Z) (w : World D) : World D :=
  with_pool (fst (Send now key data (w_pool w))) w.

(** [handleMemRegDevice] (cardlist.go, last document, line 582). *)
Definition handleMemRegDevice (key : string) (packet : Packet) (w : World D)
  : World D * Res unit :=
  match connections (w_pool w) !! key with
  | None => (w, Ok tt)
  | Some conn =>
      match Settings conn with
      | None => (w, Ok tt)
      | Some settings =>
          if String.eqb (MemRegDev settings) "" then (w, Ok tt)
          else
            let uid := session.as_string (Data packet !! "uid") in
            if String.eqb uid "" then (w, Ok tt)
            else
              match utils.ParseMemRegKey (MemRegDev settings) with
              | Ok memregKey =>
                  match utils.ParseMemRegKey uid with
                  | Ok uidKey =>
                      match utils.Has (w_memreg w) (utils.Storage memregKey)
                                      (utils.Storage uidKey) with
                      | Ok hasValue =>
                          let '(mrs, message, _, sound) :=
                            memreg_switch (utils.Mode memregKey) hasValue (w_memreg w)
                                          (utils.Storage memregKey)
                                          (utils.Storage uidKey) in
                          let readerType := as_uint8 (Data packet !! "reader_type") in
                          let interactivePayload :=
                            pocket.CreateInteractivePacket message 3000 sound true in
                          let flags := if negb (readerType =? 0) then readerType else 0 in
                          let pkt := pocket.CreatePacket 6 flags interactivePayload in
                          (send key pkt (with_memreg mrs w), Ok tt)
                      | _ => (w, Ok tt)
                      end
                  | _ => (w, Ok tt)
                  end
              | _ => (w, Ok tt)
              end
      end
  end.

Definition memreg_terminal (key : string) (w : World D) : bool :=
  match connections (w_pool w) !! key with
  | Some conn =>
      match Settings conn with
      | Some settings => negb (String.eqb (MemRegDev settings) "")
      | None => false
      end
  | None => false
  end.

(** [handlePocketTagRead] (pool.go:632). *)
Definition handlePocketTagRead (key : string) (packet : Packet) (w : World D)
  : World D * Res unit :=
  let uid := session.as_string (Data packet !! "uid") in
  if String.eqb uid "" then (w, Ok tt)
  else if memreg_terminal key w then handleMemRegDevice key packet w
  else
    let auth := default false (session.as_bool (Data packet !! "auth")) in
    let readerType := as_uint8 (Data packet !! "reader_type") in
    tag_read key uid readerType auth w.

(** [handlePocketTagReadExtended] (pool.go:659). *)
Definition handlePocketTagReadExtended (key : string) (packet : Packet) (w : World D)
  : World D * Res unit :=
  let uid := session.as_string (Data packet !! "uid") in
  if String.eqb uid "" then (w, Ok tt)
  else
    let auth := default false (session.as_bool (Data packet !! "auth")) in
    if memreg_terminal key w then handleMemRegDevice key packet w
    else
      let lockers :=
        match Data packet !! "lockers_data" with
        | Some (VLockers l) => l
        | _ => []
        end in
      let tempCard := default false (session.as_bool (Data packet !! "temp_card")) in
      let w :=
        if (0 <? len lockers) || tempCard then
          assign key
            (fun c =>
               let settings := default zero_settings (Settings c) in
               let extra := default ∅ (Extra settings) in
               let extra :=
                 if 0 <? len lockers
                 then <["last_lockers" := VLockers lockers]> extra else extra in
               let extra :=
                 if tempCard then <["last_temp_card" := VBool true]> extra
                 else extra in
               let extra := <["last_uid" := VString uid]> extra in
               set_Settings (Some (set_Extra (Some extra) settings)) c) w
        else w in
      tag_read key uid 0 auth w.

(** [handlePocketInputChanged] (pool.go:716). *)
Definition handlePocketInputChanged (key : string) (packet : Packet) (w : World D)
  : World D * Res unit :=
  match session.as_bool (Data packet !! "passed") with
  | Some passed => pass_event key passed w
  | None => (w, Ok tt)
  end.

(** [handlePocketEnquireResponse] (pool.go:738). *)
Definition handlePocketEnquireResponse (key : string) (w : World D) : World D :=
  assign key
    (fun c => set_PocketPing (ping_reset <$> PocketPing c) (set_LastActivity now c)) w.

(** [handlePocketPacket] (pool.go:611). A panic of the decoder is a panic
    of the reading goroutine. *)
Definition handlePocketPacket (key : string) (data : list Z) (w : World D)
  : World D * Res unit :=
  match pocket.DecodePacket data with
  | Ok packet =>
      if Cmd packet =? 2 then handlePocketTagRead key packet w
      else if Cmd packet =? 3 then handlePocketTagReadExtended key packet w
      else if Cmd packet =? 22 then handlePocketInputChanged key packet w
      else if Cmd packet =? 21 then (w, Ok tt)
      else if Cmd packet =? 134 then (handlePocketEnquireResponse key w, Ok tt)
      else (w, Ok tt)
  | Err _ => (w, Ok tt)
  | Panic => (w, Panic)
  | Blocked => (w, Blocked)
  end.

(** [processPocketData] (pool.go:578). Every turn of the loop that does
    not leave it removes at least one byte from the buffer, so the length
    of the buffer bounds the number of turns. *)
Fixpoint processPocketData_loop (fuel : nat) (key : string) (w : World D)
  : World D * Res unit :=
  match fuel with
  | O => (w, Ok tt)
  | S n =>
      match connections (w_pool w) !! key with
      | None => (w, Ok tt)
      | Some conn =>
          let buf := Buffer conn in
          if len buf <? 8 then (w, Ok tt)
          else if len buf <? 7 then (w, Ok tt)
          else if negb (at_ buf 0 =? 42) then
            processPocketData_loop n key (assign key (set_Buffer (drop 1 buf)) w)
          else
            let payloadLen := utils.DecodeUint16 (slice buf 3 5) in
            let packetLen := 7 + payloadLen in
            if len buf <? packetLen then (w, Ok tt)
            else
              let packetData := slice buf 0 packetLen in
              let w := assign key (set_Buffer (drop (Z.to_nat packetLen) buf)) w in
              match handlePocketPacket key packetData w with
              | (w, Ok _) => processPocketData_loop n key w
              | out => out
              end
      end
  end.

Definition buffered (key : string) (w : World D) : nat :=
  match connections (w_pool w) !! key with
  | Some conn => length (Buffer conn)
  | None => O
  end.

Definition processPocketData (key : string) (w : World D) : World D * Res unit :=
  processPocketData_loop (buffered key w) key w.

(** [handleGatReqMasterResponse] (pool.go:804). *)
Definition handleGatReqMasterResponse (key : string) (w : World D) : World D :=
  assign key
    (fun c => set_GatPing (ping_reset <$> GatPing c) (set_LastActivity now c)) w.

(** [handleGatCardIdent] (pool.go:818). *)
Definition handleGatCardIdent (key : string) (packet : Packet) (w : World D)
  : World D * Res unit :=
  let uidHex := session.as_string (Data packet !! "uid_hex") in
  if String.eqb uidHex "" then (w, Ok tt)
  else tag_read key uidHex (as_uint8 (Data packet !! "reader_type")) true w.

(** [handleGatPacket] (pool.go:785). *)
Definition handleGatPacket (key : string) (data : list Z) (w : World D)
  : World D * Res unit :=
  match gat.DecodePacket data with
  | Ok packet =>
      if Cmd packet =? 229 then (handleGatReqMasterResponse key w, Ok tt)
      else if Cmd packet =? 128 then handleGatCardIdent key packet w
      else (w, Ok tt)
  | Err _ => (w, Ok tt)
  | Panic => (w, Panic)
  | Blocked => (w, Blocked)
  end.

(** [processGatData] (pool.go:754), with the same bound on its loop. *)
Fixpoint processGatData_loop (fuel : nat) (key : string) (w : World D)
  : World D * Res unit :=
  match fuel with
  | O => (w, Ok tt)
  | S n =>
      match connections (w_pool w) !! key with
      | None => (w, Ok tt)
      | Some conn =>
          let buf := Buffer conn in
          if len buf <? 8 then (w, Ok tt)
          else if negb (at_ buf 0 =? 42) then
            processGatData_loop n key (assign key (set_Buffer (drop 1 buf)) w)
          else
            let lenLow := at_ buf 3 in
            let lenHigh := at_ buf 4 in
            let payloadLen := lenLow + Z.shiftl lenHigh 8 in
            let packetLen := 8 + payloadLen in
            if len buf <? packetLen then (w, Ok tt)
            else
              let packetData := slice buf 0 packetLen in
              let w := assign key (set_Buffer (drop (Z.to_nat packetLen) buf)) w in
              match handleGatPacket key packetData w with
              | (w, Ok _) => processGatData_loop n key w
              | out => out
              end
      end
  end.

Definition processGatData (key : string) (w : World D) : World D * Res unit :=
  processGatData_loop (buffered key w) key w.

(** [handleSphinxPacket] (pool.go:857). *)
Definition handleSphinxPacket (key : string) (data : list Z) (w : World D) : World D :=
  match sphinx.DecodePacket data with
  | Ok packet =>
      match Data packet !! "command" with
      | Some (VString cmd) =>
          if String.eqb cmd "DELEGATION_START" then
            assign key (fun c => set_SphinxPing (ping_reset <$> SphinxPing c)
                                                (set_LastActivity now c)) w
          else if String.eqb cmd "OK" then
            assign key (fun c => match SphinxPing c with
                                 | Some p => set_LastActivity now
                                               (set_SphinxPing (Some (ping_reset p)) c)
                                 | None => c
                                 end) w
          else w
      | _ => w
      end
  | _ => w
  end.

(** [processSphinxData] (pool.go:838): [bufferStr] is the local copy of
    the buffer. *)
Fixpoint processSphinxData_loop (fuel : nat) (key : string) (bufferStr : list Z)
         (w : World D) : World D :=
  match fuel with
  | O => w
  | S n =>
      match index_crlf bufferStr with
      | None => w
      | Some delimPos =>
          let packetData := slice bufferStr 0 (delimPos + 2) in
          let bufferStr := drop (Z.to_nat (delimPos + 2)) bufferStr in
          let w := assign key (set_Buffer bufferStr) w in
          processSphinxData_loop n key bufferStr (handleSphinxPacket key packetData w)
      end
  end.

Definition processSphinxData (key : string) (w : World D) : World D :=
  match connections (w_pool w) !! key with
  | Some conn => processSphinxData_loop (length (Buffer conn)) key (Buffer conn) w
  | None => w
  end.

(** An assignment to a field of [*conn.JSPConn]; the pointer is nil only
    before [processJSPData] has run. *)
Definition assign_jsp (key : string) (f : jsp.JSPConnection -> jsp.JSPConnection)
           (w : World D) : World D * Res unit :=
  match connections (w_pool w) !! key with
  | Some conn =>
      match JSPConn conn with
      | Some j => (assign key (set_JSPConn (Some (f j))) w, Ok tt)
      | None => (w, Panic)
      end
  | None => (w, Ok tt)
  end.

(** [handleJSPTagRead] (pool.go:1009). [TransformLockersData] rewrites
    the [lockers_data] entry of the packet, which is not read afterwards.
    [uint8(rt)] of a [float64] is taken as the low byte of [int(rt)]. *)
Definition handleJSPTagRead (key : string) (packet : gmap string GoVal) (w : World D)
  : World D * Res unit :=
  match packet !! "uid" with
  | Some (VString uid) =>
      let readerType :=
        match packet !! "reader_type" with
        | Some (VFloat64 rt) => u8 (int_of_float64 rt)
        | _ => 1
        end in
      let auth := default true (session.as_bool (packet !! "auth")) in
      match tag_read key uid readerType auth w with
      | (w, Ok _) =>
          match packet !! "rid" with
          | Some (VString rid) =>
              (assign key
                 (fun c =>
                    match JSPConn c with
                    | Some j =>
                        set_JSPConn
                          (Some (jsp.set_Requests
                                   (<[rid := {| jsp.RID := rid; jsp.RKey := rid;
                                                jsp.RCmd := "tag_read";
                                                jsp.RTime := now |}]>
                                      (jsp.Requests j)) j)) c
                    | None => c
                    end) w,
               Ok tt)
          | _ => (w, Ok tt)
          end
      | out => out
      end
  | _ => (w, Ok tt)
  end.

(** [handleJSPPassReport] (pool.go:1054). *)
Definition handleJSPPassReport (key : string) (packet : gmap string GoVal)
           (w : World D) : World D * Res unit :=
  pass_event key (default true (session.as_bool (packet !! "passed"))) w.

(** [handleJSPPong] (pool.go:1109). *)
Definition handleJSPPong (key : string) (w : World D) : World D * Res unit :=
  match assign_jsp key jsp.pong w with
  | (w, Ok _) => (assign key (set_LastActivity now) w, Ok tt)
  | out => out
  end.

(** [handleJSPCommand] (pool.go:979). *)
Definition handleJSPCommand (key : string) (packet : gmap string GoVal) (w : World D)
  : World D * Res unit :=
  match packet !! "cmd" with
  | Some (VString cmd) =>
      let cmd := gostrings.ToLower (gostrings.TrimSpace cmd) in
      if String.eqb cmd "tag_read" then handleJSPTagRead key packet w
      else if String.eqb cmd "pass_report" then handleJSPPassReport key packet w
      else if String.eqb cmd "pong" then handleJSPPong key w
      else
        match packet !! "rid" with
        | Some (VString rid) =>
            let answer :=
              jsp.AnswerRequest json_Marshal rid
                (<["error" := VString "unknown command"]>
                   (<["result" := VBool false]> ∅)) in
            (send key answer w, Ok tt)
        | _ => (w, Ok tt)
        end
  | _ => (w, Ok tt)
  end.

(** [handleJSPAnswer] (pool.go:1068). *)
Definition handleJSPAnswer (key : string) (packet : gmap string GoVal) (w : World D)
  : World D :=
  match packet !! "rid" with
  | Some (VString rid) =>
      assign key
        (fun c =>
           match JSPConn c with
           | Some j =>
               match jsp.Requests j !! rid with
               | Some request =>
                   let ping := String.eqb (jsp.RCmd request) "ping" in
                   let j := if ping then jsp.pong j else j in
                   let c := if ping then set_LastActivity now c else c in
                   set_JSPConn
                     (Some (jsp.set_Requests (delete rid (jsp.Requests j)) j)) c
               | None => c
               end
           | None => c
           end) w
  | _ => w
  end.

(** [handleJSPPacket] (pool.go:963). *)
Definition handleJSPPacket (key : string) (packet : gmap string GoVal) (w : World D)
  : World D * Res unit :=
  let packetType := jsp.ProcessPacket packet in
  if String.eqb packetType "command" then handleJSPCommand key packet w
  else if String.eqb packetType "answer" then (handleJSPAnswer key packet w, Ok tt)
  else (w, Ok tt).

(** One turn of the [for] of [processJSPData] (pool.go:935-958): what the
    turn ends with. A [break] inside the [switch] ends the [switch], after
    which the body of the [for] is over and its next turn begins. *)
Inductive Turn :=
| NextTurn
| BreakFor
| Return
| Stopped (r : Res unit).

Definition processJSPData_turn (key : string) (w : World D) : World D * Turn :=
  match connections (w_pool w) !! key with
  | None => (w, Return)
  | Some conn =>
      let '(j, result) :=
        jsp.TryReadPacket json_Unmarshal (default jsp.NewJSPConnection (JSPConn conn)) in
      let w := assign key (set_JSPConn (Some j)) w in
      match result with
      | Ok (jsp.RBool v) => (w, NextTurn)
      | Ok (jsp.RInt _) => (w, Return)
      | Ok (jsp.RPacket v) =>
          match handleJSPPacket key v w with
          | (w, Ok _) => (w, NextTurn)
          | (w, r) => (w, Stopped r)
          end
      | _ => (w, BreakFor)
      end
  end.

(** The [for] itself, for at most [fuel] turns; [None] when the loop is
    still running after them. *)
Fixpoint processJSPData_loop (fuel : nat) (key : string) (w : World D)
  : option (World D * Res unit) :=
  match fuel with
  | O => None
  | S n =>
      match processJSPData_turn key w with
      | (w, NextTurn) => processJSPData_loop n key w
      | (w, BreakFor) => Some (w, Ok tt)
      | (w, Return) => Some (w, Ok tt)
      | (w, Stopped r) => Some (w, r)
      end
  end.

(** [processJSPData] (pool.go:924). *)
Definition processJSPData (fuel : nat) (key : string) (w : World D)
  : option (World D * Res unit) :=
  let w :=
    assign key
      (fun c =>
         let j := default jsp.NewJSPConnection (JSPConn c) in
         set_Buffer [] (set_JSPConn (Some (jsp.set_Buffer (jsp.Buffer j ++ Buffer c) j)) c))
      w in
  processJSPData_loop fuel key w.

(** [detectProtocol] (pool.go:543), reached when [Settings] is nil. *)
Definition detectProtocol (key : string) (w : World D) : World D * Res unit :=
  match connections (w_pool w) !! key with
  | None => (w, Ok tt)
  | Some conn =>
      let buf := Buffer conn in
      if len buf =? 0 then (w, Ok tt)
      else if (1 <=? len buf) && (at_ buf 0 =? 42) then
        processPocketData key
          (assign key (set_Settings (Some (settings_of_type TTYPE_POCKET))) w)
      else if 4 <=? len buf then
        processGatData key
          (assign key (set_Settings (Some (settings_of_type TTYPE_GAT))) w)
      else (assign key (set_Buffer []) w, Ok tt)
  end.

(** [processData] (pool.go:273). *)
Definition processData (fuel : nat) (key : string) (w : World D)
  : option (World D * Res unit) :=
  match connections (w_pool w) !! key with
  | None => Some (w, Ok tt)
  | Some conn =>
      match Settings conn with
      | Some settings =>
          match Type_ settings with
          | TTYPE_POCKET => Some (processPocketData key w)
          | TTYPE_GAT => Some (processGatData key w)
          | TTYPE_SPHINX => Some (processSphinxData key w, Ok tt)
          | TTYPE_JSP => processJSPData fuel key w
          | TTYPE_other _ => Some (w, Ok tt)
          end
      | None => Some (detectProtocol key w)
      end
  end.

(** One turn of the loop of [handleConnection] (pool.go:251) in which
    [Read] returned the [n > 0] bytes [data]. *)
Definition handleConnection (fuel : nat) (key : string) (data : list Z) (w : World D)
  : option (World D * Res unit) :=
  if 0 <? len data then
    processData fuel key
      (assign key (fun c => set_Buffer (Buffer c ++ data) (set_LastActivity now c)) w)
  else Some (w, Ok tt).

End Handlers.

End connection.

(** ** Package [daemon] (src/internal/daemon/daemon.go): the handler of
    the tag reads *)

Module daemon.

(** The fields of [type Daemon struct] that [ProcessTagRead] reaches; the
    pool is the one of the [World]. [spawned] collects the calls that the
    session manager leaves to other goroutines and [events] what
    [sendEvent] offers to the event channel. The log lines and the GTime
    log, which are written outside, are left out. *)
Record Daemon := {
  sessionMgr : session.SessionManager;
  cardList : option cardlist.CardList;
  spawned : list session.Effect;
  events : list (string * gmap string GoVal)
}.

Definition World : Type := connection.World Daemon.

(** [getMemRegDenyMessage] (daemon.go:1338). *)
Definition getMemRegDenyMessage (storage : string) : string :=
  if String.eqb storage "towel" then "СДАЙТЕ
ПОЛОТЕНЦЕ"
  else "СНИМИТЕ
ОТМЕТКУ".

(** [sendEvent] (daemon.go:1650), without the time stamp. *)
Definition sendEvent (eventType : string) (data : gmap string GoVal) (d : Daemon)
  : Daemon :=
  {| sessionMgr := sessionMgr d; cardList := cardList d; spawned := spawned d;
     events := events d ++ [(eventType, data)] |}.

Definition with_daemon (d : Daemon) (w : World) : World :=
  {| connection.w_pool := connection.w_pool w;
     connection.w_memreg := connection.w_memreg w;
     connection.w_daemon := d |}.

(** [conn.Settings.Extra] of the connection [key], read through the
    pointer that [GetConnection] shares with the pool, and the deletion
    of keys from that map. *)
Definition extra_of (key : string) (w : World) : option (gmap string GoVal) :=
  match connection.connections (connection.w_pool w) !! key with
  | Some c => match connection.Settings c with
              | Some st => Extra st
              | None => None
              end
  | None => None
  end.

Definition delete_extra (key : string) (ks : list string) (w : World) : World :=
  connection.assign key
    (fun c =>
       match connection.Settings c with
       | Some st =>
           match Extra st with
           | Some extra =>
               connection.set_Settings
                 (Some (connection.set_Extra
                          (Some (fold_left (fun m k => delete k m) ks extra)) st)) c
           | None => c
           end
       | None => c
       end) w.

Section Json.

Variable json_Marshal : gmap string GoVal -> list Z.
Variable json_Unmarshal : list Z -> option (gmap string GoVal).
Variable now : Z.

(** [d.pool.Send] and [d.pool.SendJSPMessage], results dropped. *)
Definition send (key : string) (data : list Z) (w : World) : World :=
  connection.with_pool (fst (connection.Send now key data (connection.w_pool w))) w.

Definition sendJSPMessage (key text : string) (timeMs : Z) (w : World) : World :=
  connection.with_pool
    (fst (connection.SendJSPMessage json_Marshal now key text timeMs
                                    (connection.w_pool w))) w.

(** The frame that tells a POCKET terminal that the card is refused. *)
Definition deny_frame (cmd : Z) (msg : string) : list Z :=
  pocket.CreatePacket cmd 0 (pocket.CreateInteractivePacket msg 3000 4 true).

(** The lockers and the temporary-card flag that [ReadTagExtended] left
    in [Extra] (daemon.go:1222-1240). *)
Definition last_read (connKey uid : string) (w : World)
  : World * list LockerInfo * bool :=
  match extra_of connKey w with
  | None => (w, [], false)
  | Some extra =>
      let '(w, lockers) :=
        match extra !! "last_lockers", extra !! "last_uid" with
        | Some (VLockers lastLockers), Some (VString lastUID) =>
            if String.eqb lastUID uid
            then (delete_extra connKey ["last_lockers"; "last_uid"] w, lastLockers)
            else (w, [])
        | _, _ => (w, [])
        end in
      let extra := default ∅ (extra_of connKey w) in
      match extra !! "last_temp_card", extra !! "last_uid" with
      | Some (VBool lastTempCard), Some (VString lastUID) =>
          if String.eqb lastUID uid
          then (delete_extra connKey ["last_temp_card"] w, lockers, lastTempCard)
          else (w, lockers, false)
      | _, _ => (w, lockers, false)
      end
  end.

(** The GAT Solar data of a [TTYPE_TIME] terminal (daemon.go:1267-1318). *)
Definition gat_solar (connKey : string) (settings : TerminalSettings) (p : string)
           (w : World) : World :=
  match extra_of connKey w with
  | None => w
  | Some extra =>
      match extra !! "gat_terminal_type" with
      | Some (VUint8 gatType) =>
          if gatType =? gat.GAT_TTYPE_TIME then
            let copy (from to : string) (m : gmap string GoVal) :=
              match extra !! from with
              | Some (VInt v) => <[to := VInt v]> m
              | _ => m
              end in
            let solarData :=
              <["reg_query" := VBool (RegQuery settings)]>
                (copy "gat_solar_vendor" "vendor"
                   (copy "gat_solar_price" "price"
                      (copy "gat_solar_time" "time"
                         (<["terminal_type" := VUint8 gatType]> ∅)))) in
            let d := connection.w_daemon w in
            let sm := sessionMgr d in
            let sm :=
              session.with_sessions sm
                (alter (session.put "gat_solar" (VMap solarData)) p
                       (session.sessions sm)) in
            let w :=
              with_daemon {| sessionMgr := sm; cardList := cardList d;
                             spawned := spawned d; events := events d |} w in
            delete_extra connKey
              ["gat_terminal_type"; "gat_solar_time"; "gat_solar_price";
               "gat_solar_vendor"] w
          else w
      | _ => w
      end
  end.

(** [rfidData["temp_card"] = true] on the session behind [p]. *)
Definition mark_temp_card (s : Session) : Session :=
  match session.as_map (SData s !! "rfid") with
  | Some rfidData =>
      session.put "rfid" (VMap (<["temp_card" := VBool true]> rfidData)) s
  | None => s
  end.

(** [ProcessTagRead] (daemon.go:1166). *)
Definition ProcessTagRead (connKey uid : string) (readerType : Z) (auth : bool)
           (w : World) : World * Res unit :=
  match connection.GetConnection connKey (connection.w_pool w) with
  | None => (w, Ok tt)
  | Some conn =>
      match types.Settings conn with
      | None => (w, Ok tt)
      | Some settings =>
          let d := connection.w_daemon w in
          let uidHex := gostrings.ToUpper uid in
          let listed (check : cardlist.CardList -> string -> string) :=
            match cardList d with
            | Some cl => check cl uidHex
            | None => ""
            end in
          let msg := listed cardlist.CheckGlobal in
          if negb (String.eqb msg "") then
            if TerminalType_eqb (Type_ settings) TTYPE_POCKET
            then (send connKey (deny_frame pocket.POCKET_CMD_INTERACTIVE msg) w, Ok tt)
            else (w, Ok tt)
          else
            let memreg_denied :=
              if negb (String.eqb (MemRegDeny settings) "") then
                match utils.Has (connection.w_memreg w) (MemRegDeny settings) uid with
                | Ok hasValue => hasValue
                | _ => false
                end
              else false in
            if memreg_denied then
              let message := getMemRegDenyMessage (MemRegDeny settings) in
              let w :=
                if TerminalType_eqb (Type_ settings) TTYPE_POCKET
                then send connKey (deny_frame 6 message) w
                else if TerminalType_eqb (Type_ settings) TTYPE_JSP
                then sendJSPMessage connKey message 3000 w
                else w in
              let w :=
                if String.eqb (MemRegRole settings) "checkout"
                   && String.eqb (CTRole settings) "card_taker"
                then
                  let payload := [pocket.POCKET_SIGNAL_LOCKED; 0] ++ [220; 5; 0; 0] in
                  send connKey (pocket.CreatePacket 8 1 payload) w
                else w in
              (w, Ok tt)
            else
              let '(w, lockers, tempCard) := last_read connKey uid w in
              let msg := listed cardlist.CheckSecondary in
              if negb (String.eqb msg "") then
                if TerminalType_eqb (Type_ settings) TTYPE_POCKET
                then (send connKey (deny_frame pocket.POCKET_CMD_INTERACTIVE msg) w,
                      Ok tt)
                else (w, Ok tt)
              else
                let '(sm, cp, effects, r) :=
                  session.StartSession
                    (H := connection.pool_interface json_Marshal json_Unmarshal)
                    now uid connKey "MAIN" lockers (sessionMgr d)
                    (connection.w_pool w) in
                let w :=
                  connection.with_pool cp
                    (with_daemon {| sessionMgr := sm; cardList := cardList d;
                                    spawned := spawned d ++ effects;
                                    events := events d |} w) in
                match r with
                | Ok p =>
                    let w :=
                      if tempCard then
                        let d := connection.w_daemon w in
                        with_daemon
                          {| sessionMgr :=
                               session.with_sessions (sessionMgr d)
                                 (alter mark_temp_card p
                                        (session.sessions (sessionMgr d)));
                             cardList := cardList d; spawned := spawned d;
                             events := events d |} w
                      else w in
                    let w := gat_solar connKey settings p w in
                    (with_daemon
                       (sendEvent "session_created"
                          (<["key" := VString connKey]>
                             (<["uid" := VString uid]>
                                (<["session_id" := VString p]> ∅)))
                          (connection.w_daemon w)) w,
                     Ok tt)
                | Err _ => (w, Ok tt)
                | Panic => (w, Panic)
                | Blocked => (w, Blocked)
                end
      end
  end.

(** The test with which [handleCRTIdentification] (daemon.go:1521) leaves
    a terminal alone while it has a session that is neither processed nor
    completed. *)
Definition has_active_session (connKey : string) (sm : session.SessionManager) : bool :=
  existsb (fun s => String.eqb (SKey s) connKey
                    && negb (Processed s) && negb (Completed s))
          (session.GetAllSessions sm).

End Json.

End daemon.

(** * Verification

    ** The inputs of the examples *)

Definition cfg0 : Config :=
  {| HTTPServiceIdentPath := "/nd"; HTTPServiceUrlFmtSuff := "";
     CamServiceActive := false; CamAlwaysPass := false;
     CamServiceResultMsgNo := "cam no"; CamServiceResultMsgNf := "cam nf";
     CamServiceResultMsgFail := "cam fail";
     ServiceRequestExpireTime := 0.5%float; SessionExpireTime := 30%float;
     ServiceAutofixExpired := true; ServiceErrMsg := "service error";
     ServiceFixedMsg := "fixed"; ServiceDeniedMsg := "denied";
     ServiceLinkErrMsg := "link error"; JSPDevAutoPingEnabled := false;
     CRTNoKpoPass := false |}.

(** A terminal of type [t] at 10.0.0.7:8000, and the pool that holds its
    connection as [StartClient] creates it. *)
Definition terminal (t : TerminalType) : TerminalSettings :=
  {| ID := "T1"; IP := "10.0.0.7"; Port := 8000; Type_ := t; UTF := false;
     RegQuery := false; ConfigString := "T1:10.0.0.7"; DenyLockers := false;
     DenyCT := false; CTRole := ""; MemRegDev := ""; MemRegDeny := "";
     MemRegRole := ""; Extra := None |}.

Definition key0 : string := "10.0.0.7:8000".

Definition conn_of (st : TerminalSettings) : connection.Connection :=
  {| connection.Key := key0; connection.Conn := []; connection.Addr := "10.0.0.7";
     connection.Port := 8000; connection.Connected := true;
     connection.LastActivity := 0; connection.StartTime := 0;
     connection.Settings := Some st; connection.Buffer := [];
     connection.JSPConn := Some jsp.NewJSPConnection;
     connection.JSPRIDCounter := 0; connection.PocketPing := None;
     connection.GatPing := None; connection.SphinxPing := None |}.

Definition pool_of (st : TerminalSettings) : connection.ConnectionPool :=
  {| connection.connections := <[key0 := conn_of st]> ∅;
     connection.config := cfg0 |}.

(** The session manager as [NewDaemonWithConfig] wires it: with the HTTP
    client and the pool. *)
Definition manager0 : session.SessionManager :=
  {| session.sessions := ∅; session.idGen := 0; session.config := cfg0;
     session.httpClient := true; session.heliosClient := false;
     session.pool := true; session.csvLogger := false |}.

(** The card of the deny-list scenario. *)
Definition blocked_card : string := "04AEECFA9B".
Definition blocked_msg : string := "Карта заблокирована".
Definition deny_list : cardlist.CardList :=
  (cardlist.AddGlobal
     [{| cardlist.EUID := blocked_card; cardlist.Message := blocked_msg |}]
     cardlist.NewCardList).1.

Definition world_of (st : TerminalSettings) (cl : option cardlist.CardList)
  : daemon.World :=
  {| connection.w_pool := pool_of st;
     connection.w_memreg := {| utils.storage := ∅ |};
     connection.w_daemon :=
       {| daemon.sessionMgr := manager0; daemon.cardList := cl;
          daemon.spawned := []; daemon.events := [] |} |}.

(** What has been written to the socket of the connection [key]. *)
Definition written {D} (key : string) (w : connection.World D) : list (list Z) :=
  match connection.connections (connection.w_pool w) !! key with
  | Some c => connection.Conn c
  | None => []
  end.

Definition manager_of (w : daemon.World) : session.SessionManager :=
  daemon.sessionMgr (connection.w_daemon w).

(** The payload of a [ReadTag] frame: card reader, no flags, the five
    bytes of the UID [04AEECFA9B], and the byte that the decoder wants
    after the UID. *)
Definition readtag_payload : list Z := [1; 0; 5; 4; 174; 236; 250; 155; 0].

(** The bytes of the GAT resynchronisation scenario. *)
Definition resync_bytes : list Z := [0; 4; 122; 229; 1; 148].
Definition req_master_bytes : list Z := [4; 122; 229; 1; 148].


(** The examples need no JSON: these stand for the codec where a closed
    term wants one. *)
Definition no_json_Marshal (_ : gmap string GoVal) : list Z := [].
Definition no_json_Unmarshal (_ : list Z) : option (gmap string GoVal) := None.

Definition the_pool : session.ConnectionPoolInterface connection.ConnectionPool :=
  connection.pool_interface no_json_Marshal no_json_Unmarshal.

(** A manager without HTTP client and without pool starts a session for
    the card at second 1: the session waits for the back end until second
    1.5. At second 1.1 the goroutine of the request delivers its answer,
    and the next two ticks of the daemon process the session. *)
Definition session1 : string := "session_1_1".

Definition waiting_manager : session.SessionManager :=
  (session.StartSession (H := the_pool) 1000000000 blocked_card key0 "MAIN" []
                        (session.NewSessionManager cfg0)
                        (pool_of (terminal TTYPE_GAT))).1.1.1.

Definition waiting_session : Session :=
  default (session.new_session 0 "" "" "" "")
          (session.sessions waiting_manager !! session1).

Definition kpo_wait : SessionWait :=
  {| ProcType := 1; ExpireTime := 1500000000;
     DstStage := SESSION_STAGE_KPO_RESULT; Params := None |}.




(** A POCKET terminal that registers towels, and the [ReadTag] packet of
    the card. *)
Definition towel_terminal : TerminalSettings :=
  {| ID := "T1"; IP := "10.0.0.7"; Port := 8000; Type_ := TTYPE_POCKET;
     UTF := false; RegQuery := false; ConfigString := "T1:10.0.0.7";
     DenyLockers := false; DenyCT := false; CTRole := "";
     MemRegDev := "towel/add"; MemRegDeny := ""; MemRegRole := "";
     Extra := None |}.

Definition readtag_packet : Packet :=
  {| Cmd := 2; Code := Some 0; Flags := Some 2;
     Payload := string_of_bytes readtag_payload;
     Data := pocket.parse_ReadTag readtag_payload |}.

(** A GAT terminal that the session [s1] has locked. *)
Definition locked_pool : connection.ConnectionPool :=
  (connection.LockTerminal no_json_Marshal 5 key0 "s1" "wait"
                           (pool_of (terminal TTYPE_GAT))).1.

(** A JSP terminal that has received one byte, which is no start of frame. *)
Definition jsp_world : daemon.World :=
  connection.assign key0 (connection.set_Buffer [0])
                    (world_of (terminal TTYPE_JSP) None).

(** ** The words of the specification *)


(** The answer that replaces the one of a back end that is late. *)
Definition kpo_answer (sm : session.SessionManager) : KPOResult * string :=
  if ServiceAutofixExpired (session.config sm)
  then (KPO_RES_YES, ServiceFixedMsg (session.config sm))
  else (KPO_RES_NO, ServiceLinkErrMsg (session.config sm)).




(** The MEMREG table: from the mode and from whether the entry is present,
    whether it is present afterwards, the kind of the message and the
    sound. *)
Definition memreg_table (mode : utils.MemRegMode) (has : bool) : bool * string * Z :=
  match mode, has with
  | utils.MEMREG_MODE_AUTO, false => (true, "set", 1)
  | utils.MEMREG_MODE_AUTO, true => (false, "clr", 1)
  | (utils.MEMREG_MODE_SET | utils.MEMREG_MODE_DISP), false => (true, "set", 1)
  | (utils.MEMREG_MODE_SET | utils.MEMREG_MODE_DISP), true => (true, "info_set", 3)
  | (utils.MEMREG_MODE_CLR | utils.MEMREG_MODE_TAKE), true => (false, "clr", 1)
  | (utils.MEMREG_MODE_CLR | utils.MEMREG_MODE_TAKE), false => (false, "info_clr", 3)
  end.

(** ** The words of the further properties *)

(** Do two pairs of parsed keys name the same entry of the MEMREG
    store?  The modes of the keys do not count. *)
Definition same_entry (ks ku ks' ku' : utils.MemRegKey) : bool :=
  String.eqb (utils.Storage ks') (utils.Storage ks)
  && String.eqb (utils.Storage ku') (utils.Storage ku).

(** The length field of a POCKET frame. *)
Definition payload_len (data : list Z) : Z := le16 (slice data 3 5).

(** Two POCKET frames that the decoder accepts, their checksum byte being
    the CRC of the frame that holds it: a [ReadTagExtended] frame with the
    UID [ABCD] and a [RelayControlEx] frame with five payload bytes. *)
Definition extended_frame : list Z :=
  [42; 0; 3; 7; 0; 119; 0; 2; 171; 205; 0; 0; 0; 1].
Definition relay_frame : list Z := [42; 0; 21; 5; 0; 70; 0; 0; 0; 0; 0; 0].

(** The fields that the decoder reads from the payload of a relay
    command. *)
Definition relay_fields (onTime flags : Z) (caption uid : string)
  : gmap string GoVal :=
  <["caption" := VString caption]>
    (<["uid" := VString uid]>
       (<["flags" := VUint8 flags]> (<["on_time" := VUint32 onTime]> ∅))).

(** The bytes of a GAT frame between the length byte and the data. *)
Definition gat_header (cmd address teStatus : Z) : list Z :=
  if negb (Z.land cmd 16 =? 0) then [address; cmd; teStatus] else [address; cmd].

(** The index of the byte that the GAT decoder compares with the LRC: the
    last byte that the length byte counts, or the byte after the header
    when the length byte counts the header only. *)
Definition lrc_index (data : list Z) : Z :=
  Z.max (at_ data 0 - 1) (if Z.land (at_ data 2) 16 =? 0 then 3 else 4).

(** A GAT frame that the decoder accepts: [REQ_MASTER] without data,
    followed by one more byte. *)
Definition accepted_frame : list Z := [4; 122; 229; 155; 0].

(** The byte of a hexadecimal digit. *)
Definition hex_byte (x : Z) : Z := byte_of_ascii (hex_digit x).

Definition hex_byte_ok (x : Z) : bool :=
  gostrings.key_char (hex_byte x)
  && (gostrings.upper_byte (hex_byte x) =? hex_byte x)
  && match jsp.hex_value (hex_byte x) with Some y => y =? x | None => false end.

(** Does the JSP reader report [true]? *)
Definition reports_true (r : Res jsp.ReadResult) : bool :=
  match r with Ok (jsp.RBool true) => true | _ => false end.

(** The last card of [cards] whose UID normalises to [u]. *)
Definition last_card (u : string) (cards : list cardlist.CardEntry)
  : option cardlist.CardEntry :=
  if String.eqb u "" then None
  else List.find (fun c => String.eqb (cardlist.parseGMC (cardlist.EUID c)) u)
                 (rev cards).

(** Does one of [uids] normalise to [u]? *)
Definition listed (u : string) (uids : list string) : bool :=
  negb (String.eqb u "")
  && existsb (fun uid => String.eqb (cardlist.parseGMC uid) u) uids.

(** [sm'] differs from [sm] in the session [p] at most, which keeps its
    id. *)
Definition same_but (p : string) (sm sm' : session.SessionManager) : Prop :=
  (forall id, id <> p -> session.sessions sm' !! id = session.sessions sm !! id)
  /\ SID <$> session.sessions sm' !! p = SID <$> session.sessions sm !! p
  /\ session.config sm' = session.config sm
  /\ session.idGen sm' = session.idGen sm
  /\ session.pool sm' = session.pool sm
  /\ session.httpClient sm' = session.httpClient sm.

(** The manager after the call of [ProcessSessionStage] at the time [t]. *)
Definition after_tick {P : Type} `{session.ConnectionPoolInterface P}
           (t : Z) (id : string) (pl : P) (sm : session.SessionManager)
  : session.SessionManager :=
  (session.ProcessSessionStage t id sm pl).1.1.1.

(** A session that has its verdict: the session of [waiting_manager],
    denied, in [LAST_ANSWER] and without wait. *)
Definition denied_session : Session :=
  session.set_Wait None
    (session.verdict 0 "denied" SESSION_STAGE_LAST_ANSWER waiting_session).
Definition denied_manager : session.SessionManager :=
  session.with_sessions waiting_manager
    (<[session1 := denied_session]> (session.sessions waiting_manager)).

(** The entry [k] of the extra settings of a connection. *)
Definition extra_entry (k : string) (conn : connection.Connection) : option GoVal :=
  match connection.Settings conn with
  | Some st => match Extra st with Some extra => extra !! k | None => None end
  | None => None
  end.

(** What the handler of a SPHINX line leaves of a connection. *)
Definition kept (c c' : connection.Connection) : Prop :=
  connection.Buffer c' = connection.Buffer c
  /\ connection.Conn c' = connection.Conn c
  /\ connection.Settings c' = connection.Settings c.

(** A SPHINX terminal that has received a line and the beginning of the
    next one, and a JSP terminal that has received a stray byte and the
    beginning of a frame. *)
Definition sphinx_world : daemon.World :=
  connection.assign key0 (connection.set_Buffer [79; 75; 13; 10; 80; 73])
                    (world_of (terminal TTYPE_SPHINX) None).
Definition jsp_partial_world : daemon.World :=
  connection.assign key0 (connection.set_Buffer [0; 3; 48; 48])
                    (world_of (terminal TTYPE_JSP) None).

(** ** The POCKET codec *)

(** What the decoder checks on a frame that is long enough: the CRC-8 of
    the whole frame, the two checksum bytes included, against the first
    checksum byte. *)
Lemma pocket_decoder_checksum_span (data : list Z) :
  8 <= len data ->
  at_ data 0 = pocket.POCKET_MARKER ->
  7 + le16 (slice data 3 5) <= len data ->
  (utils.CRC8 (slice data 0 (7 + le16 (slice data 3 5)))
   =? u8 (Z.land (le16 (slice data 5 7)) 255)) = false ->
  pocket.DecodePacket data = Err "CRC mismatch".
Proof.
  intros Hlen Hmark Hpay Hcrc. unfold pocket.DecodePacket.
  replace (len data <? 8) with false by (symmetry; apply Z.ltb_ge; lia).
  rewrite Hmark, Z.eqb_refl. simpl negb. cbv iota.
  replace (len data <? 7 + le16 (slice data 3 5)) with false
    by (symmetry; apply Z.ltb_ge; lia).
  rewrite Hcrc. reflexivity.
Qed.

(** C3 (does not hold of the code). The decoder does not invert the
    encoder. The [ReadTag] frame that [CreatePacket] builds for the card
    04AEECFA9B carries the CRC-8 of the five header bytes followed by the
    payload, 0x31; the decoder computes the CRC-8 of the whole frame, 0xB2,
    and rejects the frame. A frame without payload, such as the [Enquire]
    ping, has seven bytes and is rejected as too short whatever its command
    and flags. *)
Theorem pocket_decoder_rejects_encoder_frames :
  pocket.CreatePacket 2 0 readtag_payload
  = [42; 0; 2; 9; 0; 49; 0] ++ readtag_payload
  /\ utils.CRC8 ([42; 0; 2; 9; 0] ++ readtag_payload) = 49
  /\ utils.CRC8 (pocket.CreatePacket 2 0 readtag_payload) = 178
  /\ pocket.DecodePacket (pocket.CreatePacket 2 0 readtag_payload) = Err "CRC mismatch"
  /\ (forall cmd flags : Z,
        pocket.DecodePacket (pocket.EncodePacket cmd flags "") = Err "packet too short").
Proof.
  repeat split; vm_compute; reflexivity.
Qed.

(** ** The answer of the back end *)





(** ** The waits of a session *)

(** C6. When the wait of a session for the back end has expired and no
    answer has arrived, [checkWait] reports the wait as over, stores the
    answer that the configuration prescribes (granted with the fixed
    message under [ServiceAutofixExpired], denied with the link-error
    message otherwise), removes the wait and puts the session into the
    destination stage of the wait. The stage constant 0 is not a
    destination: the code reads it as "none", and no wait of the program
    has it. *)
Theorem kpo_wait_timeout_fallback (now : Z) (p : string) (s : Session)
        (w : SessionWait) (sm : session.SessionManager)
        (Hs : session.sessions sm !! p = Some s)
        (Hid : SID s = p)
        (Hw : Wait s = Some w)
        (Hkind : ProcType w = 1)
        (Hundef : session.kpo_available s = false)
        (Hexp : ExpireTime w < now)
        (Hdst : stage_num (DstStage w) <> 0) :
  exists s' kpoData,
    snd (session.checkWait now p s sm) = true
    /\ session.sessions (fst (session.checkWait now p s sm)) !! p = Some s'
    /\ SData s' !! "kpo" = Some (VMap kpoData)
    /\ kpoData !! "result" = Some (VKPOResult (fst (kpo_answer sm)))
    /\ kpoData !! "message" = Some (VString (snd (kpo_answer sm)))
    /\ Wait s' = None
    /\ Stage s' = DstStage w.
Proof.
  unfold session.checkWait. rewrite Hw, Hkind, Hundef. simpl.
  apply Z.ltb_lt in Hexp. rewrite Hexp.
  apply Z.eqb_neq in Hdst.
  unfold kpo_answer.
  destruct (ServiceAutofixExpired (session.config sm));
    unfold session.setKpoResult; rewrite Hid, Hs; simpl;
    unfold session.waitDone_at; simpl;
    rewrite alter_insert_eq; unfold session.waitDone; simpl; rewrite Hw;
    rewrite Hdst; simpl.
  all: eexists; eexists; split; [reflexivity|].
  all: split; [apply lookup_insert_eq|].
  all: simpl; split; [apply lookup_insert_eq|].
  all: repeat split.
  all: rewrite lookup_insert_ne by done.
  all: try (rewrite lookup_insert_ne by done).
  all: apply lookup_insert_eq.
Qed.

(** The session that [StartSession] left waiting, looked at half a second
    after its deadline. *)
Lemma kpo_wait_timeout_fallback_witness :
  exists s' kpoData,
    snd (session.checkWait 2000000000 session1 waiting_session waiting_manager) = true
    /\ session.sessions
         (fst (session.checkWait 2000000000 session1 waiting_session waiting_manager))
       !! session1 = Some s'
    /\ SData s' !! "kpo" = Some (VMap kpoData)
    /\ kpoData !! "result" = Some (VKPOResult (fst (kpo_answer waiting_manager)))
    /\ kpoData !! "message" = Some (VString (snd (kpo_answer waiting_manager)))
    /\ Wait s' = None
    /\ Stage s' = DstStage kpo_wait.
Proof.
  apply (kpo_wait_timeout_fallback 2000000000 session1 waiting_session kpo_wait
                                   waiting_manager).
  - vm_compute. reflexivity.
  - vm_compute. reflexivity.
  - vm_compute. reflexivity.
  - reflexivity.
  - vm_compute. reflexivity.
  - vm_compute. reflexivity.
  - vm_compute. lia.
Defined.

(** ** The order of the stages *)

Section Stages.

Context {P : Type} `{session.ConnectionPoolInterface P}.
Variable now : Z.









End Stages.



(** ** MEMREG *)

(** Bytes and strings. *)
Lemma byte_ascii_byte (b : Z) : 0 <= b < 256 -> byte_of_ascii (ascii_of_byte b) = b.
Proof.
  intros Hb. unfold byte_of_ascii, ascii_of_byte, u8.
  rewrite Z.mod_small by lia.
  rewrite N_ascii_embedding.
  - apply Z2N.id. lia.
  - apply N2Z.inj_lt. rewrite Z2N.id by lia. simpl. lia.
Qed.

Lemma list_ascii_string (l : list ascii) :
  list_ascii_of_string (string_of_list_ascii l) = l.
Proof. induction l; simpl; congruence. Qed.

Lemma bytes_string_bytes (l : list Z) :
  Forall (fun b => 0 <= b < 256) l -> bytes_of_string (string_of_bytes l) = l.
Proof.
  intros F. unfold bytes_of_string, string_of_bytes. rewrite list_ascii_string.
  induction F; simpl; [reflexivity|].
  rewrite byte_ascii_byte by assumption. congruence.
Qed.

Lemma strlen_bytes (s : string) : strlen s = len (bytes_of_string s).
Proof.
  unfold strlen, len, bytes_of_string. rewrite length_map. f_equal.
  induction s; simpl; congruence.
Qed.

Lemma strlen_string_of_bytes (l : list Z) : strlen (string_of_bytes l) = len l.
Proof.
  unfold strlen, len, string_of_bytes. f_equal.
  induction l; simpl; congruence.
Qed.

Lemma string_of_bytes_nonempty (l : list Z) :
  len l <> 0 -> String.eqb (string_of_bytes l) "" = false.
Proof. destruct l; simpl; [unfold len; simpl; lia|reflexivity]. Qed.

(** The characters of a key are ASCII, are no white space and no slash. *)
Lemma key_char_range (b : Z) : gostrings.key_char b = true -> 43 <= b <= 122.
Proof. unfold gostrings.key_char. lia. Qed.

Lemma key_chars_bytes (l : list Z) :
  forallb gostrings.key_char l = true -> Forall (fun b => 0 <= b < 256) l.
Proof.
  induction l; simpl; intros F; constructor.
  - apply andb_prop in F. destruct F as [Ha _]. apply key_char_range in Ha. lia.
  - apply IHl. apply andb_prop in F. tauto.
Qed.

Ltac key_chars_no_space :=
  repeat match goal with
         | F : _ && _ = true |- _ => apply andb_prop in F; destruct F as [? F]
         end;
  repeat match goal with
         | K : gostrings.key_char _ = true |- _ => apply key_char_range in K
         end;
  unfold gostrings.ascii_space, gostrings.space2, gostrings.space3;
  repeat match goal with
         | |- context [?x =? ?y] => destruct (Z.eqb_spec x y); try lia
         | |- context [?x <=? ?y] => destruct (Z.leb_spec x y); try lia
         end;
  simpl; try reflexivity.

Lemma drop_space_key (l : list Z) :
  forallb gostrings.key_char l = true -> gostrings.drop_space l = None.
Proof.
  destruct l as [|a [|b [|c r]]]; simpl; intros F; try reflexivity;
    key_chars_no_space.
Qed.

Lemma drop_space_rev_key (l : list Z) :
  forallb gostrings.key_char l = true -> gostrings.drop_space_rev l = None.
Proof.
  destruct l as [|a [|b [|c r]]]; simpl; intros F; try reflexivity;
    key_chars_no_space.
Qed.

Lemma strip_stop step fuel (l : list Z) :
  step l = None -> gostrings.strip step fuel l = l.
Proof. intros E. destruct fuel; simpl; [reflexivity|]. rewrite E. reflexivity. Qed.

Lemma forallb_rev {A} (f : A -> bool) (l : list A) : forallb f (rev l) = forallb f l.
Proof.
  induction l; simpl; [reflexivity|]. rewrite forallb_app, IHl. simpl.
  rewrite andb_true_r. apply andb_comm.
Qed.

Lemma TrimSpace_key (l : list Z) :
  forallb gostrings.key_char l = true ->
  gostrings.TrimSpace (string_of_bytes l) = string_of_bytes l.
Proof.
  intros F. unfold gostrings.TrimSpace.
  rewrite bytes_string_bytes by (apply key_chars_bytes; assumption).
  rewrite (strip_stop _ _ l) by (apply drop_space_key; assumption).
  rewrite strip_stop by (apply drop_space_rev_key; rewrite forallb_rev; assumption).
  rewrite rev_involutive. reflexivity.
Qed.

Lemma cut_key (l : list Z) :
  forallb gostrings.key_char l = true -> gostrings.cut 47 l = (l, None).
Proof.
  induction l; simpl; intros F; [reflexivity|].
  apply andb_prop in F. destruct F as [Ha F].
  destruct (Z.eqb_spec a 47) as [->|N].
  - vm_compute in Ha. discriminate.
  - rewrite IHl by assumption. reflexivity.
Qed.

Lemma cut_length sep (l x : list Z) y :
  gostrings.cut sep l = (x, y) -> (length x <= length l)%nat.
Proof.
  revert x y. induction l; simpl; intros x y E.
  - injection E as <- <-. simpl. lia.
  - destruct (a =? sep).
    + injection E as <- <-. simpl. lia.
    + destruct (gostrings.cut sep l) as [x' y'] eqn:C. injection E as <- <-.
      simpl. specialize (IHl _ _ eq_refl). lia.
Qed.

(** The storage part of a parsed key is itself a key, of mode [AUTO]:
    [Set], [Get], [Del] and [Has], which parse their arguments again, accept
    what [handleMemRegDevice] hands them. *)
Lemma ParseMemRegKey_storage (k : string) (key : utils.MemRegKey) :
  utils.ParseMemRegKey k = Ok key ->
  utils.ParseMemRegKey (utils.Storage key)
  = Ok {| utils.Storage := utils.Storage key; utils.Mode := utils.MEMREG_MODE_AUTO |}.
Proof.
  unfold utils.ParseMemRegKey at 1.
  destruct (String.eqb k ""); [discriminate|].
  destruct ((strlen (gostrings.TrimSpace k) <? 1)
            || (64 <? strlen (gostrings.TrimSpace k))) eqn:L; [discriminate|].
  destruct (gostrings.cut 47 (bytes_of_string (gostrings.TrimSpace k)))
    as [st rest] eqn:C.
  intros E.
  assert (utils.all_key_chars st = true /\ utils.Storage key = string_of_bytes st)
    as [K ->].
  { destruct rest as [md|]; destruct (utils.all_key_chars st); simpl in E;
      try discriminate.
    - destruct (utils.all_key_chars md); [|discriminate]. injection E as <-. auto.
    - injection E as <-. auto. }
  clear E.
  unfold utils.all_key_chars in K. apply andb_prop in K. destruct K as [Kn Kc].
  apply negb_true_iff, Z.eqb_neq in Kn.
  unfold utils.ParseMemRegKey.
  rewrite string_of_bytes_nonempty by assumption.
  rewrite TrimSpace_key by assumption.
  rewrite strlen_string_of_bytes.
  apply cut_length in C. rewrite strlen_bytes in L.
  apply orb_false_elim in L. destruct L as [L1 L2].
  apply Z.ltb_ge in L1, L2. unfold len in *.
  replace ((Z.of_nat (length st) <? 1) || (64 <? Z.of_nat (length st))) with false
    by (symmetry; apply orb_false_intro; apply Z.ltb_ge; lia).
  rewrite bytes_string_bytes by (apply key_chars_bytes; assumption).
  rewrite cut_key by assumption.
  unfold utils.all_key_chars. rewrite Kc.
  replace (len st =? 0) with false by (symmetry; apply Z.eqb_neq; assumption).
  reflexivity.
Qed.

Lemma ParseMemRegKey_nonempty (k : string) (key : utils.MemRegKey) :
  utils.ParseMemRegKey k = Ok key -> String.eqb k "" = false.
Proof.
  unfold utils.ParseMemRegKey. destruct (String.eqb k ""); [discriminate|reflexivity].
Qed.

Section Storage.

Variables (S U : string) (ks ku : utils.MemRegKey).
Hypothesis PS : utils.ParseMemRegKey S = Ok ks.
Hypothesis PU : utils.ParseMemRegKey U = Ok ku.
Hypothesis SS : utils.Storage ks = S.
Hypothesis SU : utils.Storage ku = U.

Lemma Has_after_Set (mrs : utils.MemRegStorage) :
  (utils.Set_ mrs S U (VBool true)).2 = Ok tt
  /\ utils.Has (utils.Set_ mrs S U (VBool true)).1 S U = Ok true.
Proof.
  unfold utils.Set_, utils.Has, utils.Get. rewrite PS, PU, SS, SU. simpl.
  split; [reflexivity|]. rewrite !lookup_insert_eq. reflexivity.
Qed.

Lemma Has_after_Del (mrs : utils.MemRegStorage) :
  (utils.Del mrs S U).2 = Ok tt
  /\ utils.Has (utils.Del mrs S U).1 S U = Ok false.
Proof.
  unfold utils.Del, utils.Has, utils.Get. rewrite PS, PU, SS, SU.
  destruct (utils.storage mrs !! S) as [inner|] eqn:E; simpl.
  - split; [reflexivity|]. rewrite lookup_insert_eq, lookup_delete_eq. reflexivity.
  - split; [reflexivity|]. rewrite E. reflexivity.
Qed.

End Storage.

(** C7. On a connected terminal whose [memreg_dev] parses to the storage
    [S] with its mode, a tag read whose UID parses to the key [U] is
    answered as the table says. With [has] the presence of the entry
    before: mode [auto] sets an absent entry (message "set") and deletes a
    present one (message "clr"); modes [set] and [disp] set an absent entry
    and leave a present one (message "info_set"); modes [clr] and [take]
    delete a present entry and leave an absent one (message "info_clr").
    The message of the table for [S] goes to the terminal in one
    Interactive frame, shown for 3000 ms, with the success sound after a
    change and the error sound otherwise. *)
Theorem memreg_device_semantics {D} (now : Z) (key : string) (packet : Packet)
        (w : connection.World D) (conn : connection.Connection)
        (settings : TerminalSettings) (uid : string)
        (memregKey uidKey : utils.MemRegKey) (has : bool)
        (Hconn : connection.connections (connection.w_pool w) !! key = Some conn)
        (Hup : connection.Connected conn = true)
        (Hset : connection.Settings conn = Some settings)
        (Huid : Data packet !! "uid" = Some (VString uid))
        (Hdev : utils.ParseMemRegKey (MemRegDev settings) = Ok memregKey)
        (Hkey : utils.ParseMemRegKey uid = Ok uidKey)
        (Hhas : utils.Has (connection.w_memreg w) (utils.Storage memregKey)
                          (utils.Storage uidKey) = Ok has) :
  let S := utils.Storage memregKey in
  let U := utils.Storage uidKey in
  let w' := (connection.handleMemRegDevice now key packet w).1 in
  let '(present, kind, sound) := memreg_table (utils.Mode memregKey) has in
  utils.Has (connection.w_memreg w') S U = Ok present
  /\ written key w'
     = written key w
       ++ [pocket.CreatePacket 6 (connection.as_uint8 (Data packet !! "reader_type"))
             (pocket.CreateInteractivePacket (connection.getMemRegMessage S kind)
                                             3000 sound true)].
Proof.
  intros S U w'.
  pose proof (ParseMemRegKey_storage _ _ Hdev) as PS.
  pose proof (ParseMemRegKey_storage _ _ Hkey) as PU.
  fold S in PS. fold U in PU.
  destruct (Has_after_Set S U _ _ PS PU eq_refl eq_refl (connection.w_memreg w))
    as [S1 S2].
  destruct (Has_after_Del S U _ _ PS PU eq_refl eq_refl (connection.w_memreg w))
    as [D1 D2].
  assert (forall m msg,
             written key (connection.send now key msg (connection.with_memreg m w))
             = written key w ++ [msg]) as W.
  { intros. unfold written, connection.send, connection.Send, connection.Send_from.
    simpl. rewrite Hconn, Hup. simpl. rewrite lookup_alter_eq, Hconn. reflexivity. }
  assert (forall r, (if negb (r =? 0) then r else 0) = r) as Fl.
  { intros r. destruct (Z.eqb_spec r 0); simpl; congruence. }
  subst w'. unfold connection.handleMemRegDevice.
  rewrite Hconn, Hset, (ParseMemRegKey_nonempty _ _ Hdev), Huid.
  simpl session.as_string.
  rewrite (ParseMemRegKey_nonempty _ _ Hkey), Hdev, Hkey.
  fold S U. unfold S, U in Hhas |- *.
  rewrite Hhas. rewrite Fl.
  unfold connection.memreg_switch, connection.memreg_set, connection.memreg_del.
  fold S U. fold S U in Hhas.
  destruct (utils.Set_ (connection.w_memreg w) S U (VBool true)) as [ms rs].
  destruct (utils.Del (connection.w_memreg w) S U) as [md rd].
  simpl in S1, S2, D1, D2. subst rs rd.
  destruct (utils.Mode memregKey), has; simpl; rewrite W; auto.
Qed.

(** The first read of the card on the terminal that hands out towels. *)
Lemma memreg_device_semantics_witness :
  utils.Has
    (connection.w_memreg
       (connection.handleMemRegDevice 7 key0 readtag_packet
                                      (world_of towel_terminal None)).1)
    "towel" blocked_card = Ok true
  /\ written key0
       (connection.handleMemRegDevice 7 key0 readtag_packet
                                      (world_of towel_terminal None)).1
     = written key0 (world_of towel_terminal None)
       ++ [pocket.CreatePacket 6 1
             (pocket.CreateInteractivePacket
                (connection.getMemRegMessage "towel" "set") 3000 1 true)].
Proof.
  apply (memreg_device_semantics 7 key0 readtag_packet (world_of towel_terminal None)
           (conn_of towel_terminal) towel_terminal blocked_card
           {| utils.Storage := "towel"; utils.Mode := utils.MEMREG_MODE_SET |}
           {| utils.Storage := blocked_card; utils.Mode := utils.MEMREG_MODE_AUTO |}
           false).
  - vm_compute. reflexivity.
  - reflexivity.
  - reflexivity.
  - vm_compute. reflexivity.
  - vm_compute. reflexivity.
  - vm_compute. reflexivity.
  - vm_compute. reflexivity.
Defined.

(** ** The pool *)

Section Reading.

Context {D : Type}.
Variable json_Marshal : gmap string GoVal -> list Z.
Variable json_Unmarshal : list Z -> option (gmap string GoVal).
Variable onTagRead :
  option (string -> string -> Z -> bool -> connection.World D
          -> connection.World D * Res unit).
Variable onPassEvent :
  option (string -> bool -> connection.World D -> connection.World D * Res unit).
Variable now : Z.

Lemma lookup_assign key f (w : connection.World D) :
  connection.connections (connection.w_pool (connection.assign key f w)) !! key
  = f <$> connection.connections (connection.w_pool w) !! key.
Proof. unfold connection.assign. simpl. apply lookup_alter_eq. Qed.

(** Fewer than eight buffered bytes are left to wait on a GAT connection. *)
Lemma gat_short_read (fuel : nat) (key : string) (data : list Z)
      (w : connection.World D) (conn : connection.Connection)
      (settings : TerminalSettings) :
  connection.connections (connection.w_pool w) !! key = Some conn ->
  connection.Settings conn = Some settings ->
  Type_ settings = TTYPE_GAT ->
  0 < len data ->
  len (connection.Buffer conn ++ data) < 8 ->
  connection.handleConnection json_Marshal json_Unmarshal onTagRead onPassEvent now
                              fuel key data w
  = Some (connection.assign key
            (fun c => connection.set_Buffer (connection.Buffer c ++ data)
                        (connection.set_LastActivity now c)) w, Ok tt).
Proof.
  intros Hconn Hset Hgat Hdata Hshort.
  unfold connection.handleConnection.
  replace (0 <? len data) with true by (symmetry; apply Z.ltb_lt; assumption).
  remember (connection.assign key _ w) as w1 eqn:Ew.
  assert (connection.connections (connection.w_pool w1) !! key
          = Some (connection.set_Buffer (connection.Buffer conn ++ data)
                    (connection.set_LastActivity now conn))) as L.
  { rewrite Ew, lookup_assign, Hconn. reflexivity. }
  clear Ew.
  unfold connection.processData. rewrite L. simpl. rewrite Hset, Hgat.
  unfold connection.processGatData.
  destruct (connection.buffered key w1); simpl; [reflexivity|].
  rewrite L. simpl.
  replace (len (connection.Buffer conn ++ data) <? 8) with true
    by (symmetry; apply Z.ltb_lt; assumption).
  reflexivity.
Qed.

(** C4 (does not hold of the code). When bytes arrive on a GAT connection
    and fewer than eight bytes are buffered with them, as when
    00 04 7A E5 01 94 arrive on an empty buffer, the time of the last
    activity is updated and that is all: [processGatData] looks for a frame
    only in eight bytes or more, and then for the marker 2A, so every byte
    stays in the buffer, none is skipped and none reaches the decoder. The
    decoder, for its part, returns an error on 04 7A E5 01 94, whose last
    byte is not the exclusive or 9A of the bytes before it, and on
    04 7A E5 01 9A as well, the [REQ_MASTER] frame of the encoder. *)
Theorem gat_short_buffer_is_kept (fuel : nat) (key : string) (data : list Z)
        (w : connection.World D) (conn : connection.Connection)
        (settings : TerminalSettings)
        (Hconn : connection.connections (connection.w_pool w) !! key = Some conn)
        (Hset : connection.Settings conn = Some settings)
        (Hgat : Type_ settings = TTYPE_GAT)
        (Hdata : 0 < len data)
        (Hshort : len (connection.Buffer conn ++ data) < 8) :
  exists w',
    connection.handleConnection json_Marshal json_Unmarshal onTagRead onPassEvent
                                now fuel key data w = Some (w', Ok tt)
    /\ connection.Buffer <$> connection.connections (connection.w_pool w') !! key
       = Some (connection.Buffer conn ++ data)
    /\ connection.LastActivity <$> connection.connections (connection.w_pool w') !! key
       = Some now
    /\ written key w' = written key w
    /\ connection.w_daemon w' = connection.w_daemon w
    /\ is_err (gat.DecodePacket req_master_bytes) = true
    /\ gat.calculateLRC [4; 122; 229; 1] = 154
    /\ gat.CreateReqMasterPacket 122 gat.GAT_TTYPE_ACCESS = [4; 122; 229; 1; 154]
    /\ is_err (gat.DecodePacket (gat.CreateReqMasterPacket 122 gat.GAT_TTYPE_ACCESS))
       = true.
Proof.
  eexists. split; [apply (gat_short_read fuel key data w conn settings); assumption|].
  unfold written. rewrite lookup_assign, Hconn. simpl.
  repeat split; vm_compute; reflexivity.
Qed.

(** A JSP buffer without a start of frame. *)
Definition no_sof (key : string) (w : connection.World D) : Prop :=
  exists c j, connection.connections (connection.w_pool w) !! key = Some c
              /\ connection.JSPConn c = Some j
              /\ jsp.index_byte jsp.JSP_SOF (jsp.Buffer j) = None.

Lemma TryReadPacket_no_sof (j : jsp.JSPConnection) :
  jsp.index_byte jsp.JSP_SOF (jsp.Buffer j) = None ->
  exists j', jsp.TryReadPacket json_Unmarshal j = (j', Ok (jsp.RBool false))
             /\ jsp.index_byte jsp.JSP_SOF (jsp.Buffer j') = None.
Proof.
  intros E. unfold jsp.TryReadPacket.
  destruct (len (jsp.Buffer j) =? 0).
  - exists j. auto.
  - rewrite E. eexists. split; [reflexivity|]. reflexivity.
Qed.

(** On such a buffer a turn of the loop ends in the next turn, on such a
    buffer again. *)
Lemma turn_no_sof (key : string) (w : connection.World D) :
  no_sof key w ->
  exists w', connection.processJSPData_turn json_Marshal json_Unmarshal onTagRead
               onPassEvent now key w = (w', connection.NextTurn)
             /\ no_sof key w'.
Proof.
  intros (c & j & L & J & E). unfold connection.processJSPData_turn.
  rewrite L, J. simpl.
  destruct (TryReadPacket_no_sof j E) as (j' & -> & E').
  eexists. split; [reflexivity|].
  exists (connection.set_JSPConn (Some j') c), j'.
  rewrite lookup_assign, L. auto.
Qed.

Lemma loop_no_sof (fuel : nat) : forall key w,
  no_sof key w ->
  connection.processJSPData_loop json_Marshal json_Unmarshal onTagRead onPassEvent
                                 now fuel key w = None.
Proof.
  induction fuel as [|n IH]; intros key w I; simpl; [reflexivity|].
  destruct (turn_no_sof key w I) as (w' & -> & I'). apply IH. assumption.
Qed.

(** C10 (does not hold of the code). When the bytes that a JSP connection
    holds, those of the JSP buffer followed by those just received, contain
    no start-of-frame byte (there may be none at all), the loop of
    [processJSPData] is still running after any number of turns: the
    [break] that answers the decoder's "no more packets" leaves the
    [switch], not the [for]. *)
Theorem jsp_loop_never_returns_without_sof (key : string) (w : connection.World D)
        (conn : connection.Connection)
        (Hconn : connection.connections (connection.w_pool w) !! key = Some conn)
        (Hsof : jsp.index_byte jsp.JSP_SOF
                  (jsp.Buffer (default jsp.NewJSPConnection (connection.JSPConn conn))
                   ++ connection.Buffer conn) = None) :
  forall fuel,
    connection.processJSPData json_Marshal json_Unmarshal onTagRead onPassEvent now
                              fuel key w = None.
Proof.
  intros fuel. unfold connection.processJSPData. apply loop_no_sof.
  eexists _, _. rewrite lookup_assign, Hconn. simpl.
  split; [reflexivity|]. split; [reflexivity|]. exact Hsof.
Qed.

End Reading.

(** The six bytes of the scenario, received on an empty GAT buffer, stay
    in the buffer as they came, the first byte included, and the decoder
    returns an error on the five bytes that the scenario has it decode. *)
Lemma gat_resync_bytes_not_decoded :
  (fun out =>
     (connection.Buffer <$> connection.connections (connection.w_pool out.1) !! key0,
      out.2))
    <$> connection.handleConnection no_json_Marshal no_json_Unmarshal None None
          77 10 key0 resync_bytes (world_of (terminal TTYPE_GAT) None)
  = Some (Some resync_bytes, Ok tt)
  /\ gat.DecodePacket req_master_bytes = Err "LRC mismatch".
Proof. split; vm_compute; reflexivity. Qed.

(** The scenario itself. *)
Lemma gat_short_buffer_is_kept_witness :
  exists w',
    connection.handleConnection no_json_Marshal no_json_Unmarshal None None
                                77 10 key0 resync_bytes
                                (world_of (terminal TTYPE_GAT) None)
    = Some (w', Ok tt)
    /\ connection.Buffer <$> connection.connections (connection.w_pool w') !! key0
       = Some (connection.Buffer (conn_of (terminal TTYPE_GAT)) ++ resync_bytes)
    /\ connection.LastActivity <$> connection.connections (connection.w_pool w') !! key0
       = Some 77
    /\ written key0 w' = written key0 (world_of (terminal TTYPE_GAT) None)
    /\ connection.w_daemon w' = connection.w_daemon (world_of (terminal TTYPE_GAT) None)
    /\ is_err (gat.DecodePacket req_master_bytes) = true
    /\ gat.calculateLRC [4; 122; 229; 1] = 154
    /\ gat.CreateReqMasterPacket 122 gat.GAT_TTYPE_ACCESS = [4; 122; 229; 1; 154]
    /\ is_err (gat.DecodePacket (gat.CreateReqMasterPacket 122 gat.GAT_TTYPE_ACCESS))
       = true.
Proof.
  apply (gat_short_buffer_is_kept no_json_Marshal no_json_Unmarshal None None 77 10
           key0 resync_bytes (world_of (terminal TTYPE_GAT) None)
           (conn_of (terminal TTYPE_GAT)) (terminal TTYPE_GAT)).
  - vm_compute. reflexivity.
  - reflexivity.
  - reflexivity.
  - vm_compute. reflexivity.
  - vm_compute. reflexivity.
Defined.

(** One byte that is no start of frame, and a thousand turns. *)
Lemma jsp_loop_never_returns_without_sof_witness :
  connection.processJSPData no_json_Marshal no_json_Unmarshal None None 77
                            1000 key0 jsp_world = None.
Proof.
  apply (jsp_loop_never_returns_without_sof no_json_Marshal no_json_Unmarshal
           None None 77 key0 jsp_world
           (connection.set_Buffer [0] (conn_of (terminal TTYPE_JSP)))).
  - vm_compute. reflexivity.
  - vm_compute. reflexivity.
Defined.

(** ** The lock of a terminal *)

(** C9 (does not hold of the code). On a connected terminal that gets no
    lock frame (GAT, SPHINX), [LockTerminal] succeeds for any session
    while the terminal is locked by [owner], and makes the caller the
    owner. *)
Theorem lock_terminal_overwrites_owner (json_Marshal : gmap string GoVal -> list Z)
        (now : Z) (key owner sessionID text : string)
        (cp : connection.ConnectionPool) (conn : connection.Connection)
        (settings : TerminalSettings)
        (Hconn : connection.connections cp !! key = Some conn)
        (Hup : connection.Connected conn = true)
        (Hset : connection.Settings conn = Some settings)
        (Hpocket : TerminalType_eqb (Type_ settings) TTYPE_POCKET = false)
        (Hjsp : TerminalType_eqb (Type_ settings) TTYPE_JSP = false)
        (Hlocked : connection.reader_locked conn = Some (VString owner)) :
  let out := connection.LockTerminal json_Marshal now key sessionID text cp in
  out.2 = Ok tt
  /\ connection.reader_locked <$> connection.connections out.1 !! key
     = Some (Some (VString sessionID)).
Proof.
  unfold connection.LockTerminal. rewrite Hconn, Hup, Hset. simpl.
  rewrite Hpocket, Hjsp. simpl. split; [reflexivity|].
  rewrite lookup_alter_eq, Hconn. simpl. unfold connection.reader_locked. simpl.
  rewrite lookup_insert_eq. reflexivity.
Qed.

(** The session [s2] takes the terminal that [s1] has locked. *)
Lemma lock_terminal_overwrites_owner_witness :
  (connection.LockTerminal no_json_Marshal 6 key0 "s2" "wait" locked_pool).2 = Ok tt
  /\ connection.reader_locked
       <$> connection.connections
             (connection.LockTerminal no_json_Marshal 6 key0 "s2" "wait" locked_pool).1
           !! key0
     = Some (Some (VString "s2")).
Proof.
  apply (lock_terminal_overwrites_owner no_json_Marshal 6 key0 "s1" "s2" "wait"
           locked_pool
           (default (conn_of (terminal TTYPE_GAT))
                    (connection.connections locked_pool !! key0))
           (connection.set_Extra (Some (<["reader_locked" := VString "s1"]> ∅))
                                 (terminal TTYPE_GAT))).
  - vm_compute. reflexivity.
  - reflexivity.
  - vm_compute. reflexivity.
  - reflexivity.
  - reflexivity.
  - vm_compute. reflexivity.
Defined.

(** The other half of C9 holds: [UnlockTerminal] refuses a session
    that is not the owner, and changes nothing. *)
Lemma unlock_terminal_refuses_other (json_Marshal : gmap string GoVal -> list Z)
      (now : Z) (key owner sessionID : string)
      (cp : connection.ConnectionPool) (conn : connection.Connection) :
  connection.connections cp !! key = Some conn ->
  connection.reader_locked conn = Some (VString owner) ->
  String.eqb owner sessionID = false ->
  is_err (connection.UnlockTerminal json_Marshal now key sessionID cp).2 = true
  /\ (connection.UnlockTerminal json_Marshal now key sessionID cp).1 = cp.
Proof.
  intros Hconn Hlocked Hother.
  unfold connection.UnlockTerminal. rewrite Hconn.
  destruct (connection.Connected conn); simpl; [|auto].
  unfold connection.reader_locked in Hlocked.
  destruct (connection.Settings conn) as [st|]; [|discriminate].
  destruct (Extra st) as [extra|]; [|discriminate].
  rewrite Hlocked, Hother. simpl. auto.
Qed.

(** On a POCKET or a JSP terminal neither call returns: each sends its
    frame through [Send] while it holds the write lock that [Send] waits
    for. *)
Lemma lock_terminal_blocks (json_Marshal : gmap string GoVal -> list Z) :
  (connection.LockTerminal json_Marshal 5 key0 "s1" "wait"
                           (pool_of (terminal TTYPE_POCKET))).2 = Blocked
  /\ (connection.LockTerminal json_Marshal 5 key0 "s1" "wait"
                              (pool_of (terminal TTYPE_JSP))).2 = Blocked.
Proof. split; vm_compute; reflexivity. Qed.

(** ** The tag reads *)

(** C2 (does not hold of the code). A tag read of a card that the GLOBAL
    list holds, on a terminal of any type but POCKET, and so on a JSP
    terminal, changes nothing: no frame is written, no session is created,
    no request is left to the back end, and the terminal gets no message. *)
Theorem global_deny_sends_nothing_unless_pocket
        (json_Marshal : gmap string GoVal -> list Z)
        (json_Unmarshal : list Z -> option (gmap string GoVal)) (now : Z)
        (connKey uid : string) (readerType : Z) (auth : bool) (w : daemon.World)
        (conn : connection.Connection) (settings : TerminalSettings)
        (cl : cardlist.CardList)
        (Hconn : connection.connections (connection.w_pool w) !! connKey = Some conn)
        (Hset : connection.Settings conn = Some settings)
        (Hlist : daemon.cardList (connection.w_daemon w) = Some cl)
        (Hhit : String.eqb (cardlist.CheckGlobal cl (gostrings.ToUpper uid)) "" = false)
        (Hnot : TerminalType_eqb (Type_ settings) TTYPE_POCKET = false) :
  daemon.ProcessTagRead json_Marshal json_Unmarshal now connKey uid readerType auth w
  = (w, Ok tt).
Proof.
  unfold daemon.ProcessTagRead, connection.GetConnection. rewrite Hconn. simpl.
  rewrite Hset, Hlist, Hhit. simpl. rewrite Hnot. reflexivity.
Qed.

(** The scenario: the card 04AEECFA9B on the JSP terminal. *)
Lemma global_deny_sends_nothing_unless_pocket_witness :
  daemon.ProcessTagRead no_json_Marshal no_json_Unmarshal 1000000000 key0
                        blocked_card 1 true
                        (world_of (terminal TTYPE_JSP) (Some deny_list))
  = (world_of (terminal TTYPE_JSP) (Some deny_list), Ok tt).
Proof.
  apply (global_deny_sends_nothing_unless_pocket no_json_Marshal no_json_Unmarshal
           1000000000 key0 blocked_card 1 true
           (world_of (terminal TTYPE_JSP) (Some deny_list))
           (conn_of (terminal TTYPE_JSP)) (terminal TTYPE_JSP) deny_list).
  - vm_compute. reflexivity.
  - reflexivity.
  - reflexivity.
  - vm_compute. reflexivity.
  - reflexivity.
Defined.

(** What the same handler does elsewhere: the card on a POCKET terminal
    gets the Interactive frame with the message of the list, and a card
    that the MEMREG storage denies gets its message on a JSP terminal too,
    through [SendJSPMessage] with 3000 ms. *)
Lemma deny_messages_of_the_sibling_paths
      (json_Marshal : gmap string GoVal -> list Z)
      (json_Unmarshal : list Z -> option (gmap string GoVal)) :
  cardlist.CheckGlobal deny_list blocked_card = blocked_msg
  /\ written key0
       (daemon.ProcessTagRead json_Marshal json_Unmarshal 1000000000 key0
          blocked_card 1 true (world_of (terminal TTYPE_POCKET) (Some deny_list))).1
     = [pocket.CreatePacket pocket.POCKET_CMD_INTERACTIVE 0
          (pocket.CreateInteractivePacket blocked_msg 3000 4 true)]
  /\ written key0
       (daemon.ProcessTagRead json_Marshal json_Unmarshal 1000000000 key0
          blocked_card 1 true
          (connection.with_memreg
             (utils.Set_ {| utils.storage := ∅ |} "towel" blocked_card (VBool true)).1
             (world_of
                {| ID := "T1"; IP := "10.0.0.7"; Port := 8000; Type_ := TTYPE_JSP;
                   UTF := false; RegQuery := false; ConfigString := "T1:10.0.0.7";
                   DenyLockers := false; DenyCT := false; CTRole := "";
                   MemRegDev := ""; MemRegDeny := "towel"; MemRegRole := "";
                   Extra := None |} None))).1
     = [jsp.CreateMessagePacket json_Marshal (daemon.getMemRegDenyMessage "towel") 3000].
Proof. repeat split; vm_compute; reflexivity. Qed.

(** C1 (does not hold of the code). A card is read twice, one second
    apart, on the same terminal. After the first read the terminal has a
    session that is neither processed nor completed, the condition under
    which [handleCRTIdentification] leaves a terminal alone; the second
    read starts a second session all the same, and the manager holds two
    unfinished sessions of the terminal. *)
Theorem second_tag_read_starts_second_session
        (json_Marshal : gmap string GoVal -> list Z)
        (json_Unmarshal : list Z -> option (gmap string GoVal)) :
  let read now w :=
    (daemon.ProcessTagRead json_Marshal json_Unmarshal now key0 "04A1B2C3D4" 1 true
                           w).1 in
  let w1 := read 1000000000 (world_of (terminal TTYPE_GAT) None) in
  let w2 := read 2000000000 w1 in
  daemon.has_active_session key0 (manager_of w1) = true
  /\ map (fun s => (SID s, SKey s, stage_num (Stage s), Processed s, Completed s))
         (session.GetAllSessions (manager_of w2))
     = [("session_1_1", key0, 9, false, false);
        ("session_2_2", key0, 9, false, false)].
Proof. split; vm_compute; reflexivity. Qed.

(** * Further properties of the code *)

(** ** Bytes, slices and strings *)

Lemma slice_app_prefix {A} (pre l rest : list A) :
  slice (pre ++ l ++ rest) (len pre) (len pre + len l) = l.
Proof.
  unfold slice, len. rewrite Nat2Z.id.
  replace (Z.to_nat (Z.of_nat (length pre) + Z.of_nat (length l) - Z.of_nat (length pre)))
    with (length l) by lia.
  rewrite drop_app_length. apply take_app_length.
Qed.

Lemma slice_all {A} (l : list A) (n : Z) : n = len l -> slice l 0 n = l.
Proof. intros ->. unfold slice, len. rewrite drop_0. apply take_ge. lia. Qed.

Lemma slice_take {A} (l : list A) (n : Z) : slice l 0 n = take (Z.to_nat n) l.
Proof. unfold slice. rewrite drop_0, Z.sub_0_r. reflexivity. Qed.

Lemma at_app_r (l r : list Z) (i : Z) : len l <= i -> at_ (l ++ r) i = at_ r (i - len l).
Proof.
  intros H. unfold at_, len in *. rewrite app_nth2 by lia. f_equal. lia.
Qed.

Lemma ascii_byte_ascii (a : ascii) : ascii_of_byte (byte_of_ascii a) = a.
Proof.
  unfold ascii_of_byte, byte_of_ascii, u8.
  pose proof (N_ascii_bounded a) as B.
  rewrite Z.mod_small by lia. rewrite N2Z.id. apply ascii_N_embedding.
Qed.

Lemma string_bytes_string (s : string) : string_of_bytes (bytes_of_string s) = s.
Proof.
  unfold string_of_bytes, bytes_of_string. rewrite map_map.
  rewrite (map_ext _ (fun a => a)) by apply ascii_byte_ascii.
  rewrite map_id. apply string_of_list_ascii_of_string.
Qed.

Lemma byte_of_ascii_range (a : ascii) : 0 <= byte_of_ascii a < 256.
Proof. unfold byte_of_ascii. pose proof (N_ascii_bounded a). lia. Qed.

Lemma u8_range (z : Z) : 0 <= u8 z < 256.
Proof. unfold u8. apply Z.mod_pos_bound. lia. Qed.

Lemma land_255 (v : Z) : Z.land v 255 = v mod 256.
Proof. change 255 with (Z.ones 8). rewrite Z.land_ones by lia. reflexivity. Qed.

Lemma no_common_bit (a b n : Z) :
  0 <= n -> 0 <= a < 2 ^ n -> Z.land a (b * 2 ^ n) = 0.
Proof.
  intros Hn Ha. apply Z.bits_inj'. intros k Hk. rewrite Z.land_spec, Z.bits_0.
  destruct (Z.lt_ge_cases k n).
  - rewrite Z.mul_pow2_bits_low by lia. apply andb_false_r.
  - replace (Z.testbit a k) with false; [reflexivity|].
    symmetry. destruct (Z.eq_dec a 0) as [->|]; [apply Z.bits_0|].
    apply Z.bits_above_log2; [lia|].
    assert (Z.log2 a < n) by (apply Z.log2_lt_pow2; lia). lia.
Qed.

Lemma lor_shiftl_byte (a b : Z) (n : Z) :
  0 <= n -> 0 <= a < 2 ^ n -> Z.lor a (Z.shiftl b n) = a + b * 2 ^ n.
Proof.
  intros Hn Ha. rewrite Z.shiftl_mul_pow2 by lia.
  rewrite <- Z.lxor_lor by (apply no_common_bit; assumption).
  symmetry. apply Z.add_nocarry_lxor. apply no_common_bit; assumption.
Qed.

Lemma lxor_byte (a b : Z) : 0 <= a < 256 -> 0 <= b < 256 -> 0 <= Z.lxor a b < 256.
Proof.
  intros Ha Hb. split.
  - apply Z.lxor_nonneg. lia.
  - destruct (Z.eq_dec (Z.lxor a b) 0) as [->|N]; [lia|].
    apply Z.log2_lt_cancel. change (Z.log2 256) with 8.
    pose proof (Z.log2_lxor a b ltac:(lia) ltac:(lia)) as L.
    assert (Z.log2 a < 8).
    { destruct (Z.eq_dec a 0) as [->|]; [simpl; lia|]. apply Z.log2_lt_pow2; lia. }
    assert (Z.log2 b < 8).
    { destruct (Z.eq_dec b 0) as [->|]; [simpl; lia|]. apply Z.log2_lt_pow2; lia. }
    lia.
Qed.

(** ** Package [utils] *)

Lemma CRC8_byte_same (c : Z) : utils.CRC8_byte c c = 0.
Proof. unfold utils.CRC8_byte. rewrite Z.lxor_nilpotent. reflexivity. Qed.

Lemma CRC8_snoc (data : list Z) (b : Z) :
  utils.CRC8 (data ++ [b]) = utils.CRC8_byte (utils.CRC8 data) b.
Proof. unfold utils.CRC8. rewrite fold_left_app. reflexivity. Qed.

Lemma CRC8_shift_range (c : Z) : 0 <= utils.CRC8_shift c < 256.
Proof.
  unfold utils.CRC8_shift. destruct (Z.testbit c 7).
  - apply lxor_byte; [apply u8_range|lia].
  - apply u8_range.
Qed.

Lemma CRC8_byte_range (c b : Z) : 0 <= utils.CRC8_byte c b < 256.
Proof. unfold utils.CRC8_byte. simpl. apply CRC8_shift_range. Qed.

Lemma CRC8_range (data : list Z) : 0 <= utils.CRC8 data < 256.
Proof.
  destruct (decide (data = [])) as [->|N].
  - vm_compute. split; [discriminate|reflexivity].
  - destruct (exists_last N) as (l & b & ->). rewrite CRC8_snoc. apply CRC8_byte_range.
Qed.

(** X1. The checksum of a sequence of bytes followed by its own checksum
    is 0, and a checksum is a byte whatever the sequence holds. *)
Theorem crc8_of_data_with_its_checksum_is_zero (data : list Z) :
  utils.CRC8 (data ++ [utils.CRC8 data]) = 0 /\ 0 <= utils.CRC8 data < 256.
Proof. split; [rewrite CRC8_snoc; apply CRC8_byte_same | apply CRC8_range]. Qed.

Lemma le16_encode (v : Z) : le16 (utils.EncodeUint16 v) = v mod 65536.
Proof.
  unfold le16, utils.EncodeUint16, at_. simpl nth.
  rewrite !land_255, Z.shiftr_div_pow2 by lia.
  rewrite (lor_shiftl_byte _ _ 8) by (try lia; apply Z.mod_pos_bound; lia).
  change (2 ^ 8) with 256.
  pose proof (Z.div_mod v 256 ltac:(lia)).
  pose proof (Z.div_mod (v / 256) 256 ltac:(lia)).
  pose proof (Z.mod_pos_bound v 256 ltac:(lia)).
  pose proof (Z.mod_pos_bound (v / 256) 256 ltac:(lia)).
  apply Z.mod_unique_pos with (q := v / 256 / 256); lia.
Qed.

Lemma le32_encode (v : Z) : le32 (utils.EncodeUint32 v) = v mod 4294967296.
Proof.
  unfold le32, utils.EncodeUint32, at_. simpl nth.
  rewrite !land_255, !Z.shiftr_div_pow2 by lia.
  change (2 ^ 8) with 256. change (2 ^ 16) with 65536. change (2 ^ 24) with 16777216.
  pose proof (Z.mod_pos_bound v 256 ltac:(lia)).
  pose proof (Z.mod_pos_bound (v / 256) 256 ltac:(lia)).
  pose proof (Z.mod_pos_bound (v / 65536) 256 ltac:(lia)).
  pose proof (Z.mod_pos_bound (v / 16777216) 256 ltac:(lia)).
  rewrite (lor_shiftl_byte (v mod 256) _ 8) by lia.
  replace (Z.shiftl ((v / 16777216) mod 256) 24)
    with (Z.shiftl (Z.shiftl ((v / 16777216) mod 256) 8) 16)
    by (rewrite Z.shiftl_shiftl by lia; reflexivity).
  rewrite <- Z.shiftl_lor.
  rewrite (lor_shiftl_byte ((v / 65536) mod 256) _ 8) by lia.
  rewrite (lor_shiftl_byte _ _ 16)
    by (change (2 ^ 8) with 256; change (2 ^ 16) with 65536; lia).
  change (2 ^ 8) with 256. change (2 ^ 16) with 65536.
  assert (E1 : v / 65536 = v / 256 / 256) by (rewrite Z.div_div by lia; reflexivity).
  assert (E2 : v / 16777216 = v / 256 / 256 / 256)
    by (rewrite !Z.div_div by lia; reflexivity).
  rewrite E1, E2 in *.
  pose proof (Z.div_mod v 256 ltac:(lia)).
  pose proof (Z.div_mod (v / 256) 256 ltac:(lia)).
  pose proof (Z.div_mod (v / 256 / 256) 256 ltac:(lia)).
  pose proof (Z.div_mod (v / 256 / 256 / 256) 256 ltac:(lia)).
  apply Z.mod_unique_pos with (q := v / 256 / 256 / 256 / 256); lia.
Qed.

(** X2. [DecodeUint16] reads back what [EncodeUint16] wrote, and
    [DecodeUint32] what [EncodeUint32] wrote: the value modulo 2^16 and
    2^32, so the value itself for a [uint16] and a [uint32]; bytes that
    follow the encoding are not read. *)
Theorem uint_encoders_round_trip (v : Z) (rest : list Z) :
  utils.DecodeUint16 (utils.EncodeUint16 v ++ rest) = v mod 65536
  /\ utils.DecodeUint32 (utils.EncodeUint32 v ++ rest) = v mod 4294967296.
Proof.
  split.
  - unfold utils.DecodeUint16.
    replace (len (utils.EncodeUint16 v ++ rest) <? 2) with false.
    + rewrite <- le16_encode. reflexivity.
    + symmetry. apply Z.ltb_ge. unfold len. simpl. lia.
  - unfold utils.DecodeUint32.
    replace (len (utils.EncodeUint32 v ++ rest) <? 4) with false.
    + rewrite <- le32_encode. reflexivity.
    + symmetry. apply Z.ltb_ge. unfold len. simpl. lia.
Qed.

(** X3. [DecodeTLV] reads back the tag and the value that [EncodeTLV]
    wrote, and tells how many bytes it has read, when the value has from
    1 to 255 bytes; whatever follows is left. An empty value is encoded as
    the tag alone, which the decoder does not take for a structure. *)
Theorem tlv_round_trip (tag : Z) (value rest : list Z) :
  0 < len value < 256 ->
  utils.DecodeTLV (utils.EncodeTLV tag value ++ rest) = (tag, value, 2 + len value)
  /\ utils.DecodeTLV (utils.EncodeTLV tag []) = (0, [], 0).
Proof.
  intros Hv. split; [|reflexivity]. unfold utils.EncodeTLV.
  replace (0 <? len value) with true by (symmetry; apply Z.ltb_lt; lia).
  unfold u8. rewrite Z.mod_small by lia.
  unfold utils.DecodeTLV.
  replace (len (([tag] ++ [len value] ++ value) ++ rest) <? 2) with false
    by (symmetry; apply Z.ltb_ge; unfold len; simpl; lia).
  change (at_ (([tag] ++ [len value] ++ value) ++ rest) 0) with tag.
  change (at_ (([tag] ++ [len value] ++ value) ++ rest) 1) with (len value).
  cbv zeta.
  replace (len (([tag] ++ [len value] ++ value) ++ rest) <? 2 + len value) with false.
  2:{ symmetry; apply Z.ltb_ge. unfold len. simpl. rewrite length_app. lia. }
  f_equal. f_equal.
  change (([tag] ++ [len value] ++ value) ++ rest) with ([tag; len value] ++ value ++ rest).
  apply (slice_app_prefix [tag; len value] value rest).
Qed.

(** The text "Hi" under the tag 3, followed by a second structure. *)
Lemma tlv_round_trip_witness :
  utils.DecodeTLV (utils.EncodeTLV 3 [72; 105] ++ [0; 2; 1; 0]) = (3, [72; 105], 2 + 2)
  /\ utils.DecodeTLV (utils.EncodeTLV 3 []) = (0, [], 0).
Proof. apply (tlv_round_trip 3 [72; 105] [0; 2; 1; 0]). vm_compute. split; reflexivity. Defined.

(** X4. After [Set] has stored a value under a storage key and a UID key,
    [Get] returns that value for every pair of keys with the same names,
    whatever their modes are, and what it returned before for every other
    pair. *)
Theorem memreg_get_after_set (mrs : utils.MemRegStorage) (S U S' U' : string)
        (ks ku ks' ku' : utils.MemRegKey) (v : GoVal)
        (PS : utils.ParseMemRegKey S = Ok ks) (PU : utils.ParseMemRegKey U = Ok ku)
        (PS' : utils.ParseMemRegKey S' = Ok ks')
        (PU' : utils.ParseMemRegKey U' = Ok ku') :
  (utils.Set_ mrs S U v).2 = Ok tt
  /\ utils.Get (utils.Set_ mrs S U v).1 S' U'
     = if same_entry ks ku ks' ku' then Ok v else utils.Get mrs S' U'.
Proof.
  unfold utils.Set_, utils.Get, same_entry. rewrite PS, PU, PS', PU'. simpl.
  split; [reflexivity|].
  destruct (String.eqb_spec (utils.Storage ks') (utils.Storage ks)) as [->|NS]; simpl.
  - rewrite lookup_insert_eq.
    destruct (String.eqb_spec (utils.Storage ku') (utils.Storage ku)) as [->|NU].
    + rewrite lookup_insert_eq. reflexivity.
    + rewrite lookup_insert_ne by congruence.
      destruct (utils.storage mrs !! utils.Storage ks); simpl; [reflexivity|].
      rewrite lookup_empty. reflexivity.
  - rewrite lookup_insert_ne by congruence. reflexivity.
Qed.

(** The towel that [towel/add] has registered is found under
    [towel/take]. *)
Lemma memreg_get_after_set_witness :
  (utils.Set_ {| utils.storage := ∅ |} "towel/add" blocked_card (VBool true)).2 = Ok tt
  /\ utils.Get (utils.Set_ {| utils.storage := ∅ |} "towel/add" blocked_card
                           (VBool true)).1 "towel/take" blocked_card
     = if same_entry {| utils.Storage := "towel"; utils.Mode := utils.MEMREG_MODE_SET |}
                     {| utils.Storage := blocked_card;
                        utils.Mode := utils.MEMREG_MODE_AUTO |}
                     {| utils.Storage := "towel"; utils.Mode := utils.MEMREG_MODE_TAKE |}
                     {| utils.Storage := blocked_card;
                        utils.Mode := utils.MEMREG_MODE_AUTO |}
       then Ok (VBool true)
       else utils.Get {| utils.storage := ∅ |} "towel/take" blocked_card.
Proof.
  apply (memreg_get_after_set {| utils.storage := ∅ |} "towel/add" blocked_card
           "towel/take" blocked_card); vm_compute; reflexivity.
Defined.

(** X5. After [Del] has removed an entry, [Get] returns nil and [Has]
    false for every pair of keys with the same names, and [Get] returns
    what it returned before for every other pair; [Del] succeeds whether
    the entry was there or not. *)
Theorem memreg_get_after_del (mrs : utils.MemRegStorage) (S U S' U' : string)
        (ks ku ks' ku' : utils.MemRegKey)
        (PS : utils.ParseMemRegKey S = Ok ks) (PU : utils.ParseMemRegKey U = Ok ku)
        (PS' : utils.ParseMemRegKey S' = Ok ks')
        (PU' : utils.ParseMemRegKey U' = Ok ku') :
  (utils.Del mrs S U).2 = Ok tt
  /\ utils.Get (utils.Del mrs S U).1 S' U'
     = (if same_entry ks ku ks' ku' then Ok VNil else utils.Get mrs S' U')
  /\ utils.Has (utils.Del mrs S U).1 S U = Ok false.
Proof.
  assert (G : (utils.Del mrs S U).2 = Ok tt
              /\ forall S' U' ks' ku',
                   utils.ParseMemRegKey S' = Ok ks' -> utils.ParseMemRegKey U' = Ok ku' ->
                   utils.Get (utils.Del mrs S U).1 S' U'
                   = (if same_entry ks ku ks' ku' then Ok VNil
                      else utils.Get mrs S' U')).
  { unfold utils.Del, utils.Get, same_entry. rewrite PS, PU.
    destruct (utils.storage mrs !! utils.Storage ks) as [inner|] eqn:E; simpl.
    - split; [reflexivity|]. clear dependent S'. clear dependent U'. clear ks' ku'.
      intros S' U' ks' ku' PS' PU'. rewrite PS', PU'.
      destruct (String.eqb_spec (utils.Storage ks') (utils.Storage ks)) as [->|NS]; simpl.
      + rewrite lookup_insert_eq, E.
        destruct (String.eqb_spec (utils.Storage ku') (utils.Storage ku)) as [->|NU].
        * rewrite lookup_delete_eq. reflexivity.
        * rewrite lookup_delete_ne by congruence. reflexivity.
      + rewrite lookup_insert_ne by congruence. reflexivity.
    - split; [reflexivity|]. clear dependent S'. clear dependent U'. clear ks' ku'.
      intros S' U' ks' ku' PS' PU'. rewrite PS', PU'.
      destruct (String.eqb_spec (utils.Storage ks') (utils.Storage ks)) as [->|NS]; simpl.
      + rewrite E.
        destruct (String.eqb (utils.Storage ku') (utils.Storage ku)); reflexivity.
      + reflexivity. }
  destruct G as [G1 G2]. split; [exact G1|]. split; [apply G2; assumption|].
  unfold utils.Has. rewrite (G2 S U ks ku PS PU). unfold same_entry.
  rewrite !String.eqb_refl. reflexivity.
Qed.

(** [towel/take] removes the towel that [towel/add] has registered. *)
Lemma memreg_get_after_del_witness :
  (utils.Del (utils.Set_ {| utils.storage := ∅ |} "towel/add" blocked_card
                         (VBool true)).1 "towel/take" blocked_card).2 = Ok tt
  /\ utils.Get (utils.Del (utils.Set_ {| utils.storage := ∅ |} "towel/add"
                                      blocked_card (VBool true)).1
                          "towel/take" blocked_card).1 "towel" blocked_card
     = (if same_entry {| utils.Storage := "towel"; utils.Mode := utils.MEMREG_MODE_TAKE |}
                      {| utils.Storage := blocked_card;
                         utils.Mode := utils.MEMREG_MODE_AUTO |}
                      {| utils.Storage := "towel"; utils.Mode := utils.MEMREG_MODE_AUTO |}
                      {| utils.Storage := blocked_card;
                         utils.Mode := utils.MEMREG_MODE_AUTO |}
        then Ok VNil
        else utils.Get (utils.Set_ {| utils.storage := ∅ |} "towel/add" blocked_card
                                   (VBool true)).1 "towel" blocked_card)
  /\ utils.Has (utils.Del (utils.Set_ {| utils.storage := ∅ |} "towel/add"
                                      blocked_card (VBool true)).1
                          "towel/take" blocked_card).1 "towel/take" blocked_card
     = Ok false.
Proof.
  apply (memreg_get_after_del
           (utils.Set_ {| utils.storage := ∅ |} "towel/add" blocked_card (VBool true)).1
           "towel/take" blocked_card "towel" blocked_card);
    vm_compute; reflexivity.
Defined.

(** X6. The name that [ParseMemRegKey] takes from a key has from 1 to 64
    bytes, all of them letters, digits, [_], [-] or [+], and is itself a
    key, of mode [AUTO]. *)
Theorem memreg_key_is_a_name (k : string) (key : utils.MemRegKey) :
  utils.ParseMemRegKey k = Ok key ->
  1 <= strlen (utils.Storage key) <= 64
  /\ forallb gostrings.key_char (bytes_of_string (utils.Storage key)) = true
  /\ utils.ParseMemRegKey (utils.Storage key)
     = Ok {| utils.Storage := utils.Storage key; utils.Mode := utils.MEMREG_MODE_AUTO |}.
Proof.
  intros E. pose proof (ParseMemRegKey_storage k key E) as I.
  split; [|split; [|exact I]]; clear I; revert E; unfold utils.ParseMemRegKey;
    (destruct (String.eqb k ""); [discriminate|]);
    (destruct ((strlen (gostrings.TrimSpace k) <? 1)
               || (64 <? strlen (gostrings.TrimSpace k))) eqn:L; [discriminate|]);
    (destruct (gostrings.cut 47 (bytes_of_string (gostrings.TrimSpace k)))
       as [st rest] eqn:C);
    intros E;
    (assert (utils.all_key_chars st = true /\ utils.Storage key = string_of_bytes st)
      as [K ->]
      by (destruct rest as [md|]; destruct (utils.all_key_chars st); simpl in E;
          try discriminate;
          [destruct (utils.all_key_chars md); [|discriminate]; injection E as <-; auto
          |injection E as <-; auto]));
    unfold utils.all_key_chars in K; apply andb_prop in K; destruct K as [Kn Kc];
    apply negb_true_iff, Z.eqb_neq in Kn.
  - rewrite strlen_string_of_bytes. apply cut_length in C.
    rewrite strlen_bytes in L. apply orb_false_elim in L. destruct L as [L1 L2].
    apply Z.ltb_ge in L1, L2. unfold len in *. lia.
  - rewrite bytes_string_bytes by (apply key_chars_bytes; assumption). exact Kc.
Qed.

(** The key [towel/Take] between spaces. *)
Lemma memreg_key_is_a_name_witness :
  1 <= strlen "towel" <= 64
  /\ forallb gostrings.key_char (bytes_of_string "towel") = true
  /\ utils.ParseMemRegKey "towel"
     = Ok {| utils.Storage := "towel"; utils.Mode := utils.MEMREG_MODE_AUTO |}.
Proof.
  apply (memreg_key_is_a_name " towel/Take "
           {| utils.Storage := "towel"; utils.Mode := utils.MEMREG_MODE_TAKE |}).
  vm_compute. reflexivity.
Defined.

(** ** Package [pocket] *)

(** What the decoder has checked and read when it returns a packet. *)
Lemma pocket_decode_inv (data : list Z) (p : Packet) :
  pocket.DecodePacket data = Ok p ->
  8 <= len data /\ at_ data 0 = 42 /\ 7 + payload_len data <= len data
  /\ utils.CRC8 (slice data 0 (7 + payload_len data))
     = u8 (Z.land (le16 (slice data 5 7)) 255)
  /\ exists d,
       pocket.parse_payload (at_ data 2) (slice data 7 (7 + payload_len data)) = Ok d
       /\ p = {| Cmd := at_ data 2; Code := Some (at_ data 1);
                 Flags := Some (at_ data 2);
                 Payload := string_of_bytes (slice data 7 (7 + payload_len data));
                 Data := d |}.
Proof.
  unfold pocket.DecodePacket, payload_len.
  destruct (Z.ltb_spec (len data) 8) as [|L8]; [discriminate|].
  destruct (Z.eqb_spec (at_ data 0) pocket.POCKET_MARKER) as [M|]; [|discriminate].
  simpl negb. cbv iota.
  destruct (Z.ltb_spec (len data) (7 + le16 (slice data 3 5))) as [|LP]; [discriminate|].
  destruct (Z.eqb_spec (utils.CRC8 (slice data 0 (7 + le16 (slice data 3 5))))
                       (u8 (Z.land (le16 (slice data 5 7)) 255))) as [C|]; [|discriminate].
  simpl negb. cbv iota.
  destruct (pocket.parse_payload _ _) as [d| | |] eqn:PP; try discriminate.
  intros E. injection E as <-.
  repeat split; try assumption. exists d. split; reflexivity.
Qed.

(** X7. A frame that the POCKET decoder accepts has at least eight bytes,
    begins with the marker [2A] and holds the payload that its length
    field announces. In the packet, [Cmd] is the command byte of the
    frame, [Code] its flags byte and [Flags] its command byte again: the
    two fields are exchanged. *)
Theorem pocket_decoder_swaps_code_and_flags (data : list Z) (p : Packet) :
  pocket.DecodePacket data = Ok p ->
  8 <= len data /\ at_ data 0 = 42 /\ 7 + payload_len data <= len data
  /\ Cmd p = at_ data 2 /\ Code p = Some (at_ data 1) /\ Flags p = Some (at_ data 2)
  /\ Payload p = string_of_bytes (slice data 7 (7 + payload_len data)).
Proof.
  intros E. destruct (pocket_decode_inv data p E) as (A & B & C & _ & d & _ & ->).
  repeat split; assumption.
Qed.

Lemma pocket_decoder_swaps_code_and_flags_witness :
  8 <= len extended_frame /\ at_ extended_frame 0 = 42
  /\ 7 + payload_len extended_frame <= len extended_frame
  /\ 3 = at_ extended_frame 2 /\ Some 0 = Some (at_ extended_frame 1)
  /\ Some 3 = Some (at_ extended_frame 2)
  /\ string_of_bytes [2; 171; 205; 0; 0; 0; 1]
     = string_of_bytes (slice extended_frame 7 (7 + payload_len extended_frame)).
Proof.
  apply (pocket_decoder_swaps_code_and_flags extended_frame
           {| Cmd := 3; Code := Some 0; Flags := Some 3;
              Payload := string_of_bytes [2; 171; 205; 0; 0; 0; 1];
              Data := pocket.parse_ReadTagExtended 3 [2; 171; 205; 0; 0; 0; 1] |}).
  vm_compute. reflexivity.
Defined.

(** X8. The decoder of [ReadTag] wants one byte more than the reader
    type, the reader flags, the length of the UID and the UID: a payload
    that ends with its UID yields no field at all, and one with a byte
    after the UID yields the four fields, [auth] being true whatever the
    payload holds. *)
Theorem read_tag_needs_a_byte_after_the_uid (readerType readerFlags : Z)
        (uid : list Z) :
  pocket.parse_ReadTag ([readerType; readerFlags; len uid] ++ uid) = ∅
  /\ forall (b : Z) (rest : list Z),
       pocket.parse_ReadTag ([readerType; readerFlags; len uid] ++ uid ++ b :: rest)
       = <["auth" := VBool true]>
           (<["uid" := VString (utils.BytesToHex uid)]>
              (<["reader_flags" := VUint8 readerFlags]>
                 (<["reader_type" := VUint8 readerType]> ∅))).
Proof.
  split.
  - unfold pocket.parse_ReadTag.
    destruct (4 <=? len ([readerType; readerFlags; len uid] ++ uid)); [|reflexivity].
    change (at_ ([readerType; readerFlags; len uid] ++ uid) 2) with (len uid).
    replace (4 + len uid <=? len ([readerType; readerFlags; len uid] ++ uid)) with false;
      [reflexivity|].
    symmetry. apply Z.leb_gt. unfold len. simpl. lia.
  - intros b rest. unfold pocket.parse_ReadTag.
    replace (4 <=? len ([readerType; readerFlags; len uid] ++ uid ++ b :: rest)) with true
      by (symmetry; apply Z.leb_le; unfold len; simpl; rewrite length_app; simpl; lia).
    change (at_ ([readerType; readerFlags; len uid] ++ uid ++ b :: rest) 2) with (len uid).
    change (at_ ([readerType; readerFlags; len uid] ++ uid ++ b :: rest) 1)
      with readerFlags.
    change (at_ ([readerType; readerFlags; len uid] ++ uid ++ b :: rest) 0)
      with readerType.
    replace (4 + len uid <=? len ([readerType; readerFlags; len uid] ++ uid ++ b :: rest))
      with true
      by (symmetry; apply Z.leb_le; unfold len; simpl; rewrite length_app; simpl; lia).
    cbv zeta.
    pose proof (slice_app_prefix [readerType; readerFlags; len uid] uid (b :: rest)) as E.
    change (len [readerType; readerFlags; len uid]) with 3 in E. rewrite E.
    reflexivity.
Qed.

(** X9. A packet of [ReadTagExtended] never carries [temp_card] nor
    [fast_react], and carries [last_sector_auth] and [passtech_auth]
    whenever it carries a UID: the four flags are read from the command
    byte, which is 3, not from the flags byte of the frame. *)
Theorem read_tag_extended_flags (data : list Z) (p : Packet) :
  pocket.DecodePacket data = Ok p -> Cmd p = 3 ->
  Data p !! "temp_card" = None /\ Data p !! "fast_react" = None
  /\ (Data p !! "uid" = None
      \/ (Data p !! "last_sector_auth" = Some (VBool true)
          /\ Data p !! "passtech_auth" = Some (VBool true))).
Proof.
  intros E C. destruct (pocket_decode_inv data p E) as (_ & _ & _ & _ & d & PP & ->).
  simpl in C. rewrite C in PP. simpl Data.
  unfold pocket.parse_payload in PP. simpl in PP. injection PP as <-.
  unfold pocket.parse_ReadTagExtended.
  generalize (slice data 7 (7 + payload_len data)). intros pl.
  destruct (len pl <? 5); [rewrite !lookup_empty; auto|].
  destruct (len pl <? 1 + at_ pl 0); [rewrite !lookup_empty; auto|].
  simpl. unfold pocket.set_flag.
  destruct (2 <? at_ pl 0);
  destruct (1 + at_ pl 0 + 2 <=? len pl);
  match goal with
  | |- context [pocket.parse_lockers ?l] => destruct (pocket.parse_lockers l)
  end;
  repeat (rewrite lookup_insert_ne by done); rewrite ?lookup_insert_eq, ?lookup_empty;
  auto.
Qed.

Lemma read_tag_extended_flags_witness :
  pocket.parse_ReadTagExtended 3 [2; 171; 205; 0; 0; 0; 1] !! "temp_card" = None
  /\ pocket.parse_ReadTagExtended 3 [2; 171; 205; 0; 0; 0; 1] !! "fast_react" = None
  /\ (pocket.parse_ReadTagExtended 3 [2; 171; 205; 0; 0; 0; 1] !! "uid" = None
      \/ (pocket.parse_ReadTagExtended 3 [2; 171; 205; 0; 0; 0; 1] !! "last_sector_auth"
          = Some (VBool true)
          /\ pocket.parse_ReadTagExtended 3 [2; 171; 205; 0; 0; 0; 1] !! "passtech_auth"
             = Some (VBool true))).
Proof.
  apply (read_tag_extended_flags extended_frame
           {| Cmd := 3; Code := Some 0; Flags := Some 3;
              Payload := string_of_bytes [2; 171; 205; 0; 0; 0; 1];
              Data := pocket.parse_ReadTagExtended 3 [2; 171; 205; 0; 0; 0; 1] |}).
  - vm_compute. reflexivity.
  - reflexivity.
Defined.

Lemma relay_control_ex_panics (data : list Z) :
  len data = 12 -> at_ data 0 = 42 -> at_ data 2 = 21 -> payload_len data = 5 ->
  utils.CRC8 data = u8 (Z.land (le16 (slice data 5 7)) 255) ->
  pocket.DecodePacket data = Panic.
Proof.
  intros L M C PL CRC.
  assert (S0 : slice data 0 12 = data).
  { unfold slice. simpl. rewrite drop_0. apply take_ge. unfold len in L. lia. }
  assert (L5 : len (slice data 7 12) = 5).
  { unfold slice, len in *. simpl. rewrite length_take, length_drop. lia. }
  unfold pocket.DecodePacket. fold (payload_len data).
  rewrite L, M, C, PL. change (7 + 5) with 12. rewrite S0, CRC, (Z.eqb_refl (u8 _)).
  change (12 <? 8) with false. change (12 <? 12) with false.
  change (42 =? pocket.POCKET_MARKER) with true. cbn [negb].
  unfold pocket.parse_payload. change (21 =? 2) with false. change (21 =? 3) with false.
  change (21 =? 21) with true. cbv iota.
  unfold pocket.parse_RelayControlEx, index. rewrite L5. reflexivity.
Qed.

Section Crash.

Context {D : Type}.
Variable json_Marshal : gmap string GoVal -> list Z.
Variable json_Unmarshal : list Z -> option (gmap string GoVal).
Variable onTagRead :
  option (string -> string -> Z -> bool -> connection.World D
          -> connection.World D * Res unit).
Variable onPassEvent :
  option (string -> bool -> connection.World D -> connection.World D * Res unit).
Variable now : Z.

(** X10. A [RelayControlEx] frame with a payload of exactly five bytes
    and a checksum that the decoder accepts makes the decoder read the
    sixth byte of the payload: the decoder panics, and with it the
    goroutine that reads a POCKET connection on which the frame arrives. *)
Theorem short_relay_frame_panics (fuel : nat) (key : string) (data : list Z)
        (w : connection.World D) (conn : connection.Connection)
        (settings : TerminalSettings) :
  connection.connections (connection.w_pool w) !! key = Some conn ->
  connection.Settings conn = Some settings ->
  Type_ settings = TTYPE_POCKET ->
  connection.Buffer conn = [] ->
  len data = 12 -> at_ data 0 = 42 -> at_ data 2 = 21 -> payload_len data = 5 ->
  utils.CRC8 data = u8 (Z.land (le16 (slice data 5 7)) 255) ->
  pocket.DecodePacket data = Panic
  /\ exists w',
       connection.handleConnection json_Marshal json_Unmarshal onTagRead onPassEvent
                                   now fuel key data w = Some (w', Panic).
Proof.
  intros L S T B L12 M C PL CRC.
  pose proof (relay_control_ex_panics data L12 M C PL CRC) as DP.
  split; [exact DP|].
  unfold connection.handleConnection. rewrite L12. change (0 <? 12) with true. cbv iota.
  remember (connection.assign key _ w) as w1 eqn:Ew.
  assert (L1 : connection.connections (connection.w_pool w1) !! key
               = Some (connection.set_Buffer data
                         (connection.set_LastActivity now conn))).
  { rewrite Ew, lookup_assign, L. cbn [fmap option_fmap option_map]. rewrite B.
    reflexivity. }
  clear Ew.
  unfold connection.processData. rewrite L1.
  cbn [connection.Settings connection.set_Buffer connection.set_LastActivity].
  rewrite S, T. unfold connection.processPocketData, connection.buffered. rewrite L1.
  cbn [connection.Buffer connection.set_Buffer].
  destruct (length data) as [|n] eqn:Ld; [unfold len in L12; lia|].
  cbn [connection.processPocketData_loop]. rewrite L1.
  cbn [connection.Buffer connection.set_Buffer]. rewrite L12.
  change (12 <? 8) with false. change (12 <? 7) with false. cbv iota.
  rewrite M. change (negb (42 =? 42)) with false. cbv iota zeta.
  assert (PL' : utils.DecodeUint16 (slice data 3 5) = 5).
  { unfold utils.DecodeUint16.
    replace (len (slice data 3 5) <? 2) with false; [exact PL|].
    symmetry. apply Z.ltb_ge. unfold slice, len in *. rewrite length_take, length_drop.
    change (Z.to_nat (5 - 3)) with 2%nat. change (Z.to_nat 3) with 3%nat. lia. }
  rewrite PL'. change (7 + 5) with 12. change (12 <? 12) with false. cbv iota.
  assert (S0 : slice data 0 12 = data).
  { unfold slice. rewrite drop_0. apply take_ge. unfold len in L12. lia. }
  rewrite S0. unfold connection.handlePocketPacket. rewrite DP.
  eexists. reflexivity.
Qed.

End Crash.

(** The frame 2A 00 15 05 00 46 00 00 00 00 00 00 on a POCKET terminal. *)
Lemma short_relay_frame_panics_witness :
  pocket.DecodePacket relay_frame = Panic
  /\ exists w',
       connection.handleConnection no_json_Marshal no_json_Unmarshal None None 7 1
                                   key0 relay_frame
                                   (world_of (terminal TTYPE_POCKET) None)
       = Some (w', Panic).
Proof.
  apply (short_relay_frame_panics no_json_Marshal no_json_Unmarshal None None 7 1 key0
           relay_frame (world_of (terminal TTYPE_POCKET) None)
           (conn_of (terminal TTYPE_POCKET)) (terminal TTYPE_POCKET));
    vm_compute; reflexivity.
Defined.

(** X11. The decoder of [RelayControlEx] reads back the time, the flags,
    the UID and the caption that [RelayOnEx] wrote, when the time is at
    most [0x0FFFFFFF], the UID has at most 32 bytes and the caption at
    most 96, or 16 with the count-down flag. *)
Theorem relay_payload_round_trip (onTime flags : Z) (caption uid : string) :
  0 <= onTime <= 268435455 ->
  strlen uid <= 32 ->
  strlen caption <= (if Z.land flags 1 =? 0 then 96 else 16) ->
  pocket.parse_RelayControlEx (pocket.RelayOnEx onTime flags caption uid)
  = Ok (relay_fields onTime flags caption uid).
Proof.
  intros Ht Hu Hc.
  assert (Lu : len (bytes_of_string uid) = strlen uid) by (symmetry; apply strlen_bytes).
  assert (Lc : len (bytes_of_string caption) = strlen caption)
    by (symmetry; apply strlen_bytes).
  assert (Hu0 : 0 <= strlen uid) by (unfold strlen; lia).
  assert (R : pocket.RelayOnEx onTime flags caption uid
              = (utils.EncodeUint32 onTime ++ [flags; strlen uid])
                  ++ bytes_of_string uid ++ bytes_of_string caption).
  { unfold pocket.RelayOnEx.
    replace (268435455 <? onTime) with false by (symmetry; apply Z.ltb_ge; lia).
    unfold pocket.POCKET_RELAY_UID_MAX_LEN, pocket.POCKET_RELAY_FLAG_DOWNCOUNT.
    replace (32 <? strlen uid) with false by (symmetry; apply Z.ltb_ge; lia).
    unfold u8. rewrite Z.mod_small by lia.
    assert (U : (if 0 <? strlen uid
                 then ((utils.EncodeUint32 onTime ++ [flags]) ++ [strlen uid])
                        ++ slice (bytes_of_string uid) 0 (strlen uid)
                 else (utils.EncodeUint32 onTime ++ [flags]) ++ [strlen uid])
                = (utils.EncodeUint32 onTime ++ [flags; strlen uid])
                    ++ bytes_of_string uid).
    { destruct (Z.ltb_spec 0 (strlen uid)).
      - rewrite slice_all by lia. rewrite <- !app_assoc. reflexivity.
      - assert (bytes_of_string uid = []) as ->.
        { apply length_zero_iff_nil. unfold len in Lu. lia. }
        rewrite app_nil_r, <- !app_assoc. reflexivity. }
    cbv zeta. rewrite U.
    destruct (String.eqb_spec caption "") as [->|N]; simpl negb; cbv iota.
    - simpl. rewrite app_nil_r. reflexivity.
    - replace ((if negb (Z.land flags 1 =? 0) then 16 else 96) <? strlen caption)
        with false.
      + rewrite <- !app_assoc. reflexivity.
      + symmetry. apply Z.ltb_ge. destruct (Z.land flags 1 =? 0); simpl; lia. }
  rewrite R. clear R.
  unfold pocket.parse_RelayControlEx.
  set (hdr := utils.EncodeUint32 onTime ++ [flags; strlen uid]).
  assert (Lh : len hdr = 6) by reflexivity.
  assert (Lall : len (hdr ++ bytes_of_string uid ++ bytes_of_string caption)
                 = 6 + strlen uid + strlen caption).
  { unfold len in *. rewrite !length_app. lia. }
  assert (Hc0 : 0 <= strlen caption) by (unfold strlen; lia).
  rewrite Lall.
  replace (5 <=? 6 + strlen uid + strlen caption) with true
    by (symmetry; apply Z.leb_le; lia).
  unfold index. rewrite Lall.
  replace ((0 <=? 5) && (5 <? 6 + strlen uid + strlen caption)) with true
    by (symmetry; apply andb_true_intro; split; [reflexivity|apply Z.ltb_lt; lia]).
  change (at_ (hdr ++ bytes_of_string uid ++ bytes_of_string caption) 5)
    with (strlen uid).
  change (at_ (hdr ++ bytes_of_string uid ++ bytes_of_string caption) 4) with flags.
  replace (6 + strlen uid <=? 6 + strlen uid + strlen caption) with true
    by (symmetry; apply Z.leb_le; lia).
  pose proof (slice_app_prefix hdr (bytes_of_string uid) (bytes_of_string caption)) as SU.
  rewrite Lh, Lu in SU. rewrite SU, string_bytes_string.
  assert (T : le32 (slice (hdr ++ bytes_of_string uid ++ bytes_of_string caption) 0 4)
              = onTime).
  { change (slice (hdr ++ bytes_of_string uid ++ bytes_of_string caption) 0 4)
      with (utils.EncodeUint32 onTime).
    rewrite le32_encode. apply Z.mod_small. lia. }
  rewrite T.
  assert (Cp : (if 6 + strlen uid <? 6 + strlen uid + strlen caption
                then string_of_bytes
                       (drop (Z.to_nat (6 + strlen uid))
                             (hdr ++ bytes_of_string uid ++ bytes_of_string caption))
                else "") = caption).
  { replace (Z.to_nat (6 + strlen uid)) with (length (hdr ++ bytes_of_string uid))
      by (rewrite length_app; unfold len in *; lia).
    rewrite app_assoc, drop_app_length, string_bytes_string.
    destruct (Z.ltb_spec (6 + strlen uid) (6 + strlen uid + strlen caption));
      [reflexivity|].
    destruct caption; [reflexivity|]. unfold strlen in *. simpl in *. lia. }
  cbv zeta. rewrite Cp. reflexivity.
Qed.

(** The relay opened for three seconds for the card of the examples. *)
Lemma relay_payload_round_trip_witness :
  pocket.parse_RelayControlEx (pocket.RelayOnEx 3000 0 "Welcome" blocked_card)
  = Ok (relay_fields 3000 0 "Welcome" blocked_card).
Proof.
  apply (relay_payload_round_trip 3000 0 "Welcome" blocked_card).
  - lia.
  - vm_compute. discriminate.
  - vm_compute. discriminate.
Defined.

(** ** Package [gat] *)

Lemma calculateLRC_snoc (l : list Z) (b : Z) :
  gat.calculateLRC (l ++ [b]) = Z.lxor (gat.calculateLRC l) b.
Proof. unfold gat.calculateLRC. rewrite fold_left_app. reflexivity. Qed.

(** X12. The exclusive or of all the bytes of a frame that [EncodePacket]
    has built is 0, and the first byte of the frame is the number of the
    bytes before the LRC, as a [uint8]. *)
Theorem gat_frame_checks_to_zero (cmd address teStatus : Z) (data : list Z) :
  gat.calculateLRC (gat.EncodePacket cmd address teStatus data) = 0
  /\ at_ (gat.EncodePacket cmd address teStatus data) 0
     = u8 (len (gat.EncodePacket cmd address teStatus data) - 1).
Proof.
  unfold gat.EncodePacket. cbv zeta. split.
  - rewrite calculateLRC_snoc. apply Z.lxor_nilpotent.
  - set (packet := (if negb (Z.land cmd 16 =? 0) then [address; cmd] ++ [teStatus]
                    else [address; cmd]) ++ data).
    change (at_ ((u8 (len packet + 1) :: packet) ++ _) 0) with (u8 (len packet + 1)).
    f_equal. unfold len. rewrite length_app. simpl. lia.
Qed.

Lemma gat_EncodePacket_eq cmd address teStatus data :
  gat.EncodePacket cmd address teStatus data
  = (u8 (len (gat_header cmd address teStatus ++ data) + 1)
       :: gat_header cmd address teStatus ++ data)
    ++ [gat.calculateLRC (u8 (len (gat_header cmd address teStatus ++ data) + 1)
                          :: gat_header cmd address teStatus ++ data)].
Proof. unfold gat.EncodePacket, gat_header. destruct (negb _); reflexivity. Qed.

Lemma gat_empty_data_round_trip (cmd address teStatus : Z) :
  is_ok (gat.DecodePacket (gat.EncodePacket cmd address teStatus [])) = true.
Proof.
  unfold gat.EncodePacket.
  destruct (Z.land cmd 16 =? 0) eqn:B; cbn [negb]; cbv zeta.
  - change (u8 (len ([address; cmd] ++ []) + 1)) with 3.
    change ([address; cmd] ++ []) with [address; cmd].
    set (lrc := gat.calculateLRC [3; address; cmd]).
    change ([3; address; cmd] ++ [lrc]) with [3; address; cmd; lrc].
    unfold gat.DecodePacket.
    change (len [3; address; cmd; lrc]) with 4.
    change (at_ [3; address; cmd; lrc] 0) with 3.
    change (at_ [3; address; cmd; lrc] 2) with cmd.
    rewrite B. cbn [negb andb]. cbv zeta.
    change (4 <? 4) with false. change (3 <? 3) with false.
    change (4 <? 3 + 1) with false. change (3 - 3 - 1) with (-1).
    change (0 <? -1) with false. cbn [andb]. change (3 + 0) with 3.
    change (4 <=? 3) with false.
    change (at_ [3; address; cmd; lrc] 3) with lrc.
    change (slice [3; address; cmd; lrc] 0 3) with [3; address; cmd].
    fold lrc. rewrite Z.eqb_refl. reflexivity.
  - change (u8 (len (([address; cmd] ++ [teStatus]) ++ []) + 1)) with 4.
    change (([address; cmd] ++ [teStatus]) ++ []) with [address; cmd; teStatus].
    set (lrc := gat.calculateLRC [4; address; cmd; teStatus]).
    change ([4; address; cmd; teStatus] ++ [lrc]) with [4; address; cmd; teStatus; lrc].
    unfold gat.DecodePacket.
    change (len [4; address; cmd; teStatus; lrc]) with 5.
    change (at_ [4; address; cmd; teStatus; lrc] 0) with 4.
    change (at_ [4; address; cmd; teStatus; lrc] 2) with cmd.
    rewrite B. cbn [negb andb]. cbv zeta.
    change (5 <? 4) with false. change (4 <? 3) with false.
    change (5 <? 4 + 1) with false. change (5 <=? 3) with false. cbv iota.
    change (4 - 4 - 1) with (-1).
    change (0 <? -1) with false. cbn [andb]. change (4 + 0) with 4.
    change (5 <=? 4) with false.
    change (at_ [4; address; cmd; teStatus; lrc] 4) with lrc.
    change (slice [4; address; cmd; teStatus; lrc] 0 4) with [4; address; cmd; teStatus].
    fold lrc. rewrite Z.eqb_refl. reflexivity.
Qed.

(** X13. The decoder accepts the frame that [EncodePacket] builds without
    data. Of a frame built with data it takes the last byte of the data
    for the LRC: it accepts the frame when that byte is the exclusive or
    of the bytes before it, and rejects it otherwise. *)
Theorem gat_decoder_takes_last_data_byte_for_lrc
        (cmd address teStatus : Z) (d : list Z) (x : Z) :
  len d <= 250 ->
  let frame := gat.EncodePacket cmd address teStatus (d ++ [x]) in
  is_ok (gat.DecodePacket (gat.EncodePacket cmd address teStatus [])) = true
  /\ is_ok (gat.DecodePacket frame)
     = (x =? gat.calculateLRC (slice frame 0 (len frame - 2))).
Proof.
  intros Hd frame. split; [apply gat_empty_data_round_trip|].
  subst frame. rewrite gat_EncodePacket_eq.
  set (h := gat_header cmd address teStatus).
  assert (Hh : (len h = 2 /\ (Z.land cmd 16 =? 0) = true /\ h = [address; cmd])
               \/ (len h = 3 /\ (Z.land cmd 16 =? 0) = false
                   /\ h = [address; cmd; teStatus])).
  { subst h. unfold gat_header. destruct (Z.land cmd 16 =? 0); simpl; auto. }
  assert (Ld : 0 <= len d) by (unfold len; lia).
  set (L := len (h ++ d ++ [x]) + 1).
  assert (EL : L = len h + len d + 2).
  { subst L. unfold len. rewrite !length_app. simpl. lia. }
  assert (U : u8 L = L) by (unfold u8; apply Z.mod_small; lia).
  rewrite U.
  set (body := L :: h ++ d).
  assert (F : (L :: h ++ d ++ [x]) ++ [gat.calculateLRC (L :: h ++ d ++ [x])]
              = body ++ [x; gat.calculateLRC (L :: h ++ d ++ [x])]).
  { subst body. simpl. rewrite <- !app_assoc. reflexivity. }
  rewrite F. clear F.
  set (lrc := gat.calculateLRC (L :: h ++ d ++ [x])).
  assert (Lb : len body = L - 1).
  { subst body. unfold len in *. simpl. rewrite length_app. lia. }
  assert (Lf : len (body ++ [x; lrc]) = L + 1).
  { unfold len in *. rewrite length_app. change (length [x; lrc]) with 2%nat. lia. }
  rewrite Lf. replace (L + 1 - 2) with (L - 1) by lia.
  assert (ST : slice (body ++ [x; lrc]) 0 (L - 1) = body).
  { rewrite slice_take. rewrite <- Lb. unfold len. rewrite Nat2Z.id.
    apply take_app_length. }
  rewrite ST.
  unfold gat.DecodePacket. rewrite Lf.
  replace (L + 1 <? 4) with false by (symmetry; apply Z.ltb_ge; lia).
  change (at_ (body ++ [x; lrc]) 0) with L.
  replace (L <? 3) with false by (symmetry; apply Z.ltb_ge; lia).
  rewrite Z.ltb_irrefl.
  assert (C2 : at_ (body ++ [x; lrc]) 2 = cmd).
  { subst body. destruct Hh as [(_ & _ & ->)|(_ & _ & ->)]; reflexivity. }
  rewrite C2.
  replace (L + 1 <=? 3) with false by (symmetry; apply Z.leb_gt; lia).
  rewrite andb_false_r.
  set (offset := if negb (Z.land cmd 16 =? 0) then 4 else 3).
  assert (EO : offset = len h + 1).
  { subst offset. destruct Hh as [(-> & -> & _)|(-> & -> & _)]; reflexivity. }
  cbv zeta.
  replace (L - offset - 1) with (len d) by lia.
  replace (L + 1 <? offset + len d) with false by (symmetry; apply Z.ltb_ge; lia).
  rewrite andb_false_r.
  assert (EP : offset + (if 0 <? len d then len d else 0) = L - 1).
  { destruct (Z.ltb_spec 0 (len d)); lia. }
  rewrite EP.
  replace (L + 1 <=? L - 1) with false by (symmetry; apply Z.leb_gt; lia).
  rewrite ST.
  rewrite at_app_r by lia. rewrite Lb, Z.sub_diag. change (at_ [x; lrc] 0) with x.
  destruct (x =? gat.calculateLRC body); reflexivity.
Qed.

(** The [REQ_MASTER] frame of an access terminal: its data byte 01 is not
    the exclusive or of 04 7A E5. *)
Lemma gat_decoder_takes_last_data_byte_for_lrc_witness :
  is_ok (gat.DecodePacket (gat.EncodePacket 229 122 0 [])) = true
  /\ is_ok (gat.DecodePacket (gat.EncodePacket 229 122 0 ([] ++ [1])))
     = (1 =? gat.calculateLRC
               (slice (gat.EncodePacket 229 122 0 ([] ++ [1])) 0
                      (len (gat.EncodePacket 229 122 0 ([] ++ [1])) - 2))).
Proof.
  apply (gat_decoder_takes_last_data_byte_for_lrc 229 122 0 [] 1).
  vm_compute. discriminate.
Defined.

Lemma parse_command_address cmd data po plen (d : gmap string GoVal) :
  gat.parse_command cmd data po plen d !! "address" = d !! "address".
Proof.
  unfold gat.parse_command, gat.card_fields.
  repeat case_match; repeat (rewrite lookup_insert_ne by done); reflexivity.
Qed.

(** X14. A frame that the GAT decoder accepts has a length byte of at
    least 3 and one byte more than the length byte counts; the byte that
    the decoder has compared with the LRC is the exclusive or of the bytes
    before it. The packet carries the command byte and the address of the
    frame. *)
Theorem gat_decoded_frame (data : list Z) (p : Packet) :
  gat.DecodePacket data = Ok p ->
  3 <= at_ data 0 /\ at_ data 0 + 1 <= len data
  /\ lrc_index data < len data
  /\ at_ data (lrc_index data) = gat.calculateLRC (slice data 0 (lrc_index data))
  /\ Cmd p = at_ data 2
  /\ Data p !! "address" = Some (VUint8 (at_ data 1)).
Proof.
  unfold gat.DecodePacket, lrc_index.
  destruct (Z.ltb_spec (len data) 4) as [|L4]; [discriminate|].
  destruct (Z.ltb_spec (at_ data 0) 3) as [|L3]; [discriminate|].
  destruct (Z.ltb_spec (len data) (at_ data 0 + 1)) as [|LL]; [discriminate|].
  set (o := if Z.land (at_ data 2) 16 =? 0 then 3 else 4).
  assert (Ho : (if negb (Z.land (at_ data 2) 16 =? 0) then 4 else 3) = o)
    by (subst o; destruct (Z.land (at_ data 2) 16 =? 0); reflexivity).
  assert (Ro : 3 <= o <= 4) by (subst o; destruct (Z.land (at_ data 2) 16 =? 0); lia).
  destruct (negb (Z.land (at_ data 2) 16 =? 0) && (len data <=? 3)); [discriminate|].
  cbv zeta. rewrite Ho.
  set (plen := if 0 <? at_ data 0 - o - 1 then at_ data 0 - o - 1 else 0).
  assert (Hk : o + plen = Z.max (at_ data 0 - 1) o).
  { subst plen. destruct (Z.ltb_spec 0 (at_ data 0 - o - 1)); lia. }
  destruct ((0 <? at_ data 0 - o - 1) && (len data <? o + (at_ data 0 - o - 1)));
    [discriminate|].
  rewrite Hk.
  destruct (Z.leb_spec (len data) (Z.max (at_ data 0 - 1) o)) as [|Lk]; [discriminate|].
  destruct (Z.eqb_spec (at_ data (Z.max (at_ data 0 - 1) o))
                       (gat.calculateLRC (slice data 0 (Z.max (at_ data 0 - 1) o))))
    as [E|]; [|discriminate].
  simpl negb. cbv iota. intros P. injection P as <-.
  cbn [Cmd Data]. rewrite parse_command_address, lookup_insert_ne by done.
  rewrite lookup_insert_eq. repeat split; try lia; assumption.
Qed.

(** The frame 04 7A E5 9B followed by one byte. *)
Lemma gat_decoded_frame_witness :
  3 <= at_ accepted_frame 0 /\ at_ accepted_frame 0 + 1 <= len accepted_frame
  /\ lrc_index accepted_frame < len accepted_frame
  /\ at_ accepted_frame (lrc_index accepted_frame)
     = gat.calculateLRC (slice accepted_frame 0 (lrc_index accepted_frame))
  /\ 229 = at_ accepted_frame 2
  /\ gat.parse_command 229 accepted_frame 3 0
       (<["te_status" := VUint8 0]> (<["address" := VUint8 122]> ∅)) !! "address"
     = Some (VUint8 (at_ accepted_frame 1)).
Proof.
  apply (gat_decoded_frame accepted_frame
           {| Cmd := 229; Code := None; Flags := None; Payload := "";
              Data := gat.parse_command 229 accepted_frame 3 0
                        (<["te_status" := VUint8 0]>
                           (<["address" := VUint8 122]> ∅)) |}).
  vm_compute. reflexivity.
Defined.

Lemma cut_none (uid : list Z) :
  gat.cut_after_last_nonzero uid = None <-> forallb (Z.eqb 0) uid = true.
Proof.
  induction uid as [|b r IH]; cbn [forallb gat.cut_after_last_nonzero]; [tauto|].
  destruct (gat.cut_after_last_nonzero r) as [x|].
  - split; [discriminate|]. intros H. apply andb_prop in H. destruct H as [_ H].
    apply IH in H. discriminate.
  - destruct IH as [IH _]. rewrite (IH eq_refl), andb_true_r.
    destruct (Z.eqb_spec b 0) as [->|N].
    + split; reflexivity.
    + split; [discriminate|]. intros H. apply Z.eqb_eq in H. congruence.
Qed.

Lemma cut_some (uid r : list Z) :
  gat.cut_after_last_nonzero uid = Some r ->
  uid = r ++ repeat 0 (length uid - length r) /\ List.last r 0 <> 0
  /\ (length r <= length uid)%nat.
Proof.
  revert r. induction uid as [|b u IH]; simpl; intros r E; [discriminate|].
  destruct (gat.cut_after_last_nonzero u) as [x|] eqn:C.
  - injection E as <-. destruct (IH x eq_refl) as (E1 & E2 & E3).
    simpl. split; [|split].
    + f_equal. exact E1.
    + destruct x; [simpl in E2; congruence|exact E2].
    + lia.
  - destruct (Z.eqb_spec b 0) as [|N]; [discriminate|]. injection E as <-.
    apply cut_none in C. simpl. split; [|split; [assumption|lia]].
    f_equal. rewrite Nat.sub_0_r. clear -C.
    induction u as [|c u IH]; cbn [forallb repeat length] in *; [reflexivity|].
    apply andb_prop in C. destruct C as [C1 C2]. apply Z.eqb_eq in C1. subst c.
    f_equal. apply IH. assumption.
Qed.

(** X15. The UID of a card loses its trailing zero bytes and nothing
    else, and then ends with a byte that is not zero; a UID of zero bytes
    only is kept as it is. *)
Theorem gat_uid_trailing_zeros (uid : list Z) :
  uid = gat.trim_uid uid ++ repeat 0 (length uid - length (gat.trim_uid uid))
  /\ (if forallb (Z.eqb 0) uid then gat.trim_uid uid = uid
      else List.last (gat.trim_uid uid) 0 <> 0).
Proof.
  unfold gat.trim_uid.
  destruct (gat.cut_after_last_nonzero uid) as [r|] eqn:C.
  - destruct (cut_some uid r C) as (E1 & E2 & _). split; [exact E1|].
    destruct (forallb (Z.eqb 0) uid) eqn:F; [|exact E2].
    apply cut_none in F. congruence.
  - split; [rewrite Nat.sub_diag, app_nil_r; reflexivity|].
    apply cut_none in C. rewrite C. reflexivity.
Qed.

(** ** Package [jsp] *)

Lemma hex_byte_all : forallb hex_byte_ok (map Z.of_nat (seq 0 16)) = true.
Proof. vm_compute. reflexivity. Qed.

Lemma hex_byte_facts (x : Z) :
  0 <= x < 16 ->
  gostrings.key_char (hex_byte x) = true
  /\ gostrings.upper_byte (hex_byte x) = hex_byte x
  /\ jsp.hex_value (hex_byte x) = Some x.
Proof.
  intros H. pose proof hex_byte_all as A. rewrite forallb_forall in A.
  assert (I : In x (map Z.of_nat (seq 0 16))).
  { apply in_map_iff. exists (Z.to_nat x). split; [lia|]. apply in_seq. lia. }
  apply A in I. unfold hex_byte_ok in I.
  apply andb_prop in I. destruct I as [I I3]. apply andb_prop in I. destruct I as [I1 I2].
  apply Z.eqb_eq in I2. repeat split; try assumption.
  destruct (jsp.hex_value (hex_byte x)); [|discriminate]. apply Z.eqb_eq in I3. congruence.
Qed.

(** The verb [%04X] prints four digits of a number below 65536. *)
Lemma hexw4_digits (n : Z) :
  0 <= n < 65536 ->
  hexw 4 n = string_of_bytes [hex_byte (n / 4096 mod 16); hex_byte (n / 256 mod 16);
                              hex_byte (n / 16 mod 16); hex_byte (n mod 16)].
Proof.
  intros H. unfold hexw. rewrite andb_false_r.
  replace (4 + Z.to_nat (Z.log2 n) + 1)%nat
    with (S (S (S (S (S (Z.to_nat (Z.log2 n))))))) by lia.
  cbn [hex_digits Nat.pred Nat.eqb]. rewrite !andb_false_r.
  assert (Z0 : n / 16 / 16 / 16 / 16 = 0).
  { rewrite !Z.div_div by lia. apply Z.div_small. lia. }
  rewrite Z0. cbn [Z.eqb andb].
  unfold string_of_bytes, hex_byte. cbn [map string_of_list_ascii].
  rewrite !ascii_byte_ascii.
  rewrite !Z.div_div by lia. reflexivity.
Qed.

(** [DecodeHex] reads them back. *)
Lemma DecodeHex_hexw4 (n : Z) :
  0 <= n < 65536 -> strlen (hexw 4 n) = 4 /\ jsp.DecodeHex (hexw 4 n) = Ok n.
Proof.
  intros H. rewrite hexw4_digits by assumption.
  set (a := n / 4096 mod 16). set (b := n / 256 mod 16).
  set (c := n / 16 mod 16). set (d := n mod 16).
  assert (Ha : 0 <= a < 16) by (apply Z.mod_pos_bound; lia).
  assert (Hb : 0 <= b < 16) by (apply Z.mod_pos_bound; lia).
  assert (Hc : 0 <= c < 16) by (apply Z.mod_pos_bound; lia).
  assert (Hd : 0 <= d < 16) by (apply Z.mod_pos_bound; lia).
  destruct (hex_byte_facts a Ha) as (Ka & Ua & Va).
  destruct (hex_byte_facts b Hb) as (Kb & Ub & Vb).
  destruct (hex_byte_facts c Hc) as (Kc & Uc & Vc).
  destruct (hex_byte_facts d Hd) as (Kd & Ud & Vd).
  set (l := [hex_byte a; hex_byte b; hex_byte c; hex_byte d]).
  assert (K : forallb gostrings.key_char l = true).
  { subst l. cbn [forallb]. rewrite Ka, Kb, Kc, Kd. reflexivity. }
  split; [rewrite strlen_string_of_bytes; reflexivity|].
  unfold jsp.DecodeHex. rewrite TrimSpace_key by assumption.
  unfold gostrings.ToUpper.
  rewrite bytes_string_bytes by (apply key_chars_bytes; assumption).
  assert (U : map gostrings.upper_byte l = l).
  { subst l. cbn [map]. rewrite Ua, Ub, Uc, Ud. reflexivity. }
  rewrite U, strlen_string_of_bytes.
  rewrite bytes_string_bytes by (apply key_chars_bytes; assumption).
  change (len l) with 4.
  change (negb (4 mod 2 =? 0)) with false. change ((4 <? 2) || (6 <? 4)) with false.
  cbv iota.
  assert (M : mapM jsp.hex_value l = Some [a; b; c; d]).
  { subst l. cbn [mapM]. rewrite Va, Vb, Vc, Vd. reflexivity. }
  rewrite M. cbn [fold_left]. f_equal.
  subst a b c d.
  pose proof (Z.div_mod n 16 ltac:(lia)).
  pose proof (Z.div_mod (n / 16) 16 ltac:(lia)).
  pose proof (Z.div_mod (n / 16 / 16) 16 ltac:(lia)).
  assert (E1 : n / 256 = n / 16 / 16) by (rewrite Z.div_div by lia; reflexivity).
  assert (E2 : n / 4096 = n / 16 / 16 / 16) by (rewrite !Z.div_div by lia; reflexivity).
  rewrite E1, E2.
  assert (E3 : (n / 16 / 16 / 16) mod 16 = n / 16 / 16 / 16).
  { apply Z.mod_small. rewrite <- E2. split; [apply Z.div_pos; lia|].
    apply Z.div_lt_upper_bound; lia. }
  rewrite E3. lia.
Qed.

Lemma hex_value_nonneg b d : jsp.hex_value b = Some d -> 0 <= d.
Proof.
  unfold jsp.hex_value.
  destruct ((48 <=? b) && (b <=? 57)) eqn:A.
  - intros E. injection E as <-. apply andb_prop in A. lia.
  - destruct ((65 <=? b) && (b <=? 70)) eqn:B; [|discriminate].
    intros E. injection E as <-. apply andb_prop in B. lia.
Qed.

Lemma DecodeHex_nonneg s n : jsp.DecodeHex s = Ok n -> 0 <= n.
Proof.
  unfold jsp.DecodeHex.
  destruct (negb _); [discriminate|]. destruct (_ || _); [discriminate|].
  destruct (mapM jsp.hex_value _) as [ds|] eqn:M; [|discriminate].
  intros E. injection E as <-.
  assert (F : Forall (fun d => 0 <= d) ds).
  { apply mapM_Some in M. clear -M. induction M; constructor; [|assumption].
    eapply hex_value_nonneg; eassumption. }
  clear M.
  assert (G : forall acc, 0 <= acc -> 0 <= fold_left (fun acc d => acc * 16 + d) ds acc).
  { induction F as [|d ds Hd F IH]; intros acc Ha; simpl; [assumption|]. apply IH. lia. }
  apply G. lia.
Qed.

Lemma index_byte_range b l p : jsp.index_byte b l = Some p -> 0 <= p < len l.
Proof.
  revert p. induction l as [|x r IH]; simpl; intros p E; [discriminate|].
  destruct (x =? b).
  - injection E as <-. unfold len. simpl. lia.
  - destruct (jsp.index_byte b r) as [q|]; [|discriminate]. injection E as <-.
    specialize (IH q eq_refl). unfold len in *. simpl. lia.
Qed.

Lemma index_byte_skip (b : Z) (garbage rest : list Z) :
  jsp.index_byte b garbage = None ->
  jsp.index_byte b (garbage ++ b :: rest) = Some (len garbage).
Proof.
  induction garbage as [|x g IH]; cbn [jsp.index_byte app]; intros E.
  - rewrite Z.eqb_refl. reflexivity.
  - destruct (x =? b); [discriminate|].
    destruct (jsp.index_byte b g); [discriminate|].
    rewrite (IH eq_refl). unfold len. cbn [fmap option_fmap option_map length].
    f_equal. lia.
Qed.

(** The reader begins at the first start-of-frame byte of the buffer. *)
Lemma TryReadPacket_skip
      (json_Unmarshal : list Z -> option (gmap string GoVal))
      (garbage rest : list Z) (conn : jsp.JSPConnection) :
  jsp.index_byte jsp.JSP_SOF garbage = None ->
  jsp.TryReadPacket json_Unmarshal
    (jsp.set_Buffer (garbage ++ jsp.JSP_SOF :: rest) conn)
  = jsp.TryReadPacket json_Unmarshal (jsp.set_Buffer (jsp.JSP_SOF :: rest) conn).
Proof.
  intros G. unfold jsp.TryReadPacket. cbn [jsp.Buffer jsp.set_Buffer].
  rewrite (index_byte_skip _ _ _ G).
  replace (len (garbage ++ jsp.JSP_SOF :: rest) =? 0) with false
    by (symmetry; apply Z.eqb_neq; unfold len; rewrite length_app; cbn [length]; lia).
  replace (len (jsp.JSP_SOF :: rest) =? 0) with false
    by (symmetry; apply Z.eqb_neq; unfold len; cbn [length]; lia).
  cbn [jsp.index_byte]. rewrite Z.eqb_refl.
  cbv iota beta. change (0 <? 0) with false. cbv iota.
  destruct garbage as [|x g]; [reflexivity|].
  replace (0 <? len (x :: g)) with true
    by (symmetry; apply Z.ltb_lt; unfold len; cbn [length]; lia).
  cbv iota.
  replace (Z.to_nat (len (x :: g))) with (length (x :: g)) by (unfold len; lia).
  rewrite drop_app_length. reflexivity.
Qed.

Section Frames.

Variable json_Marshal : gmap string GoVal -> list Z.
Variable json_Unmarshal : list Z -> option (gmap string GoVal).

Lemma TryReadPacket_frame (data : gmap string GoVal) (rest : list Z)
      (conn : jsp.JSPConnection) :
  json_Unmarshal (json_Marshal data) = Some data ->
  len (json_Marshal data) < 65536 ->
  jsp.TryReadPacket json_Unmarshal
    (jsp.set_Buffer (jsp.EncodePacket json_Marshal data ++ rest) conn)
  = (jsp.set_Buffer rest conn, Ok (jsp.RPacket (jsp.arrLower (VMap data)))).
Proof.
  intros HU HL. unfold jsp.EncodePacket.
  set (js := json_Marshal data) in *.
  assert (L0 : 0 <= len js) by (unfold len; lia).
  destruct (DecodeHex_hexw4 (len js) ltac:(lia)) as [H4 HD].
  set (hx := bytes_of_string (hexw 4 (len js))).
  assert (Lhx : len hx = 4) by (subst hx; rewrite <- strlen_bytes; exact H4).
  set (buf := ([jsp.JSP_SOF] ++ hx ++ js ++ [jsp.JSP_EOF]) ++ rest).
  assert (Lbuf : len buf = 6 + len js + len rest).
  { subst buf. unfold len in *. rewrite !length_app. cbn [length]. lia. }
  assert (Lr : 0 <= len rest) by (unfold len; lia).
  unfold jsp.TryReadPacket. cbn [jsp.Buffer jsp.set_Buffer].
  replace (len buf =? 0) with false by (symmetry; apply Z.eqb_neq; lia).
  change (jsp.index_byte jsp.JSP_SOF buf) with (Some 0).
  cbv iota zeta beta. change (0 <? 0) with false. cbv iota.
  cbn [jsp.Buffer jsp.set_Buffer].
  change (1 + jsp.JSP_LENGTH_SIZE) with 5.
  replace (len buf <? 5) with false by (symmetry; apply Z.ltb_ge; lia).
  assert (S1 : slice buf 1 5 = hx).
  { pose proof (slice_app_prefix [jsp.JSP_SOF] hx ((js ++ [jsp.JSP_EOF]) ++ rest)) as E.
    rewrite Lhx in E. change (len [jsp.JSP_SOF]) with 1 in E. change (1 + 4) with 5 in E.
    rewrite <- E. subst buf. f_equal. rewrite <- !app_assoc. reflexivity. }
  rewrite S1. subst hx. rewrite string_bytes_string, HD.
  cbv zeta.
  replace (len buf <? 5 + len js + 1) with false by (symmetry; apply Z.ltb_ge; lia).
  set (hx := bytes_of_string (hexw 4 (len js))) in *.
  assert (B2 : buf = ([jsp.JSP_SOF] ++ hx) ++ js ++ (jsp.JSP_EOF :: rest)).
  { subst buf. rewrite <- !app_assoc. reflexivity. }
  assert (Lp : len ([jsp.JSP_SOF] ++ hx) = 5).
  { unfold len in *. rewrite length_app. cbn [length]. lia. }
  assert (E : at_ buf (5 + len js) = jsp.JSP_EOF).
  { rewrite B2, app_assoc. rewrite at_app_r.
    - replace (5 + len js - len (([jsp.JSP_SOF] ++ hx) ++ js)) with 0; [reflexivity|].
      unfold len in *. rewrite length_app. lia.
    - unfold len in *. rewrite length_app. lia. }
  rewrite E. change (negb (jsp.JSP_EOF =? jsp.JSP_EOF)) with false. cbv iota.
  assert (SJ : slice buf 5 (5 + len js) = js).
  { rewrite B2.
    pose proof (slice_app_prefix ([jsp.JSP_SOF] ++ hx) js (jsp.JSP_EOF :: rest)) as X.
    rewrite Lp in X. exact X. }
  rewrite SJ, HU.
  assert (D : drop (Z.to_nat (5 + len js + 1)) buf = rest).
  { replace buf with ((([jsp.JSP_SOF] ++ hx) ++ js ++ [jsp.JSP_EOF]) ++ rest)
      by (subst buf; rewrite <- !app_assoc; reflexivity).
    replace (Z.to_nat (5 + len js + 1))
      with (length (([jsp.JSP_SOF] ++ hx) ++ js ++ [jsp.JSP_EOF])).
    - apply drop_app_length.
    - unfold len in *. rewrite !length_app. cbn [length]. lia. }
  rewrite D. reflexivity.
Qed.

(** X16. [TryReadPacket] reads back the object that [EncodePacket] has
    framed, with its keys in lower case, when the JSON text has fewer than
    65536 bytes and the JSON codec reads back what it writes: the bytes
    before the frame, which hold no start-of-frame byte, are dropped, and
    the bytes after the frame stay in the buffer. *)
Theorem jsp_frame_round_trip (data : gmap string GoVal) (garbage rest : list Z)
        (conn : jsp.JSPConnection) :
  json_Unmarshal (json_Marshal data) = Some data ->
  len (json_Marshal data) < 65536 ->
  jsp.index_byte jsp.JSP_SOF garbage = None ->
  jsp.TryReadPacket json_Unmarshal
    (jsp.set_Buffer (garbage ++ jsp.EncodePacket json_Marshal data ++ rest) conn)
  = (jsp.set_Buffer rest conn, Ok (jsp.RPacket (jsp.arrLower (VMap data)))).
Proof.
  intros HU HL HG.
  rewrite <- (TryReadPacket_frame data rest conn HU HL).
  unfold jsp.EncodePacket. cbn [app].
  apply TryReadPacket_skip. exact HG.
Qed.

(** X17. [TryReadPacket] never answers [true]. It removes bytes from the
    front of the buffer and nothing else, and leaves the pending requests
    as they are. A packet takes at least six bytes from the buffer, the
    number of bytes that the reader asks for is positive, and the answer
    [false] on a buffer that is not empty takes at least one byte. *)
Theorem jsp_reader_keeps_a_suffix (conn : jsp.JSPConnection) :
  reports_true (jsp.TryReadPacket json_Unmarshal conn).2 = false
  /\ (exists k : nat,
        jsp.Buffer (jsp.TryReadPacket json_Unmarshal conn).1 = drop k (jsp.Buffer conn))
  /\ jsp.Requests (jsp.TryReadPacket json_Unmarshal conn).1 = jsp.Requests conn
  /\ (forall data, (jsp.TryReadPacket json_Unmarshal conn).2 = Ok (jsp.RPacket data) ->
        len (jsp.Buffer (jsp.TryReadPacket json_Unmarshal conn).1) + 6
        <= len (jsp.Buffer conn))
  /\ (forall n, (jsp.TryReadPacket json_Unmarshal conn).2 = Ok (jsp.RInt n) -> 0 < n)
  /\ ((jsp.TryReadPacket json_Unmarshal conn).2 = Ok (jsp.RBool false) ->
      0 < len (jsp.Buffer conn) ->
      len (jsp.Buffer (jsp.TryReadPacket json_Unmarshal conn).1) < len (jsp.Buffer conn)).
Proof.
  unfold jsp.TryReadPacket.
  destruct (Z.eqb_spec (len (jsp.Buffer conn)) 0) as [E0|N0].
  { cbn. repeat split; try discriminate; [exists 0%nat; reflexivity|lia]. }
  destruct (jsp.index_byte jsp.JSP_SOF (jsp.Buffer conn)) as [pos|] eqn:I.
  2:{ cbn [fst snd reports_true jsp.Buffer jsp.Requests jsp.set_Buffer].
      repeat split; try discriminate.
      - exists (length (jsp.Buffer conn)). rewrite drop_all. reflexivity.
      - intros _ H. exact H. }
  pose proof (index_byte_range _ _ _ I) as R.
  set (c1 := if 0 <? pos then jsp.set_Buffer (drop (Z.to_nat pos) (jsp.Buffer conn)) conn
             else conn).
  assert (B1 : jsp.Buffer c1 = drop (Z.to_nat pos) (jsp.Buffer conn)).
  { subst c1. destruct (Z.ltb_spec 0 pos); [reflexivity|].
    replace pos with 0 by lia. reflexivity. }
  assert (Q1 : jsp.Requests c1 = jsp.Requests conn).
  { subst c1. destruct (0 <? pos); reflexivity. }
  assert (L1 : len (jsp.Buffer c1) = len (jsp.Buffer conn) - pos).
  { rewrite B1. unfold len in *. rewrite length_drop. lia. }
  assert (Skip : exists k : nat,
             drop 1 (jsp.Buffer c1) = drop k (jsp.Buffer conn)
             /\ len (drop 1 (jsp.Buffer c1)) < len (jsp.Buffer conn)).
  { exists (S (Z.to_nat pos)). rewrite B1, drop_drop. split; [f_equal; lia|].
    unfold len in *. rewrite length_drop. lia. }
  destruct Skip as (k1 & Sk1 & Sk2).
  cbv zeta. change (1 + jsp.JSP_LENGTH_SIZE) with 5.
  destruct (Z.ltb_spec (len (jsp.Buffer c1)) 5).
  { cbn [fst snd reports_true]. repeat split; try discriminate; try assumption.
    - eexists; exact B1.
    - intros n E. injection E as <-. lia. }
  destruct (jsp.DecodeHex _) as [pkLen| | |] eqn:D.
  2-4: cbn [fst snd reports_true jsp.Buffer jsp.Requests jsp.set_Buffer];
       repeat split; try discriminate; try assumption;
       [exists k1; exact Sk1 | intros _ _; exact Sk2].
  destruct (Z.ltb_spec (len (jsp.Buffer c1)) (5 + pkLen + 1)).
  { cbn [fst snd reports_true]. repeat split; try discriminate; try assumption.
    - eexists; exact B1.
    - intros n E. injection E as <-. lia. }
  destruct (negb (at_ (jsp.Buffer c1) (5 + pkLen) =? jsp.JSP_EOF)).
  { cbn [fst snd reports_true jsp.Buffer jsp.Requests jsp.set_Buffer].
    repeat split; try discriminate; try assumption;
      [exists k1; exact Sk1 | intros _ _; exact Sk2]. }
  destruct (json_Unmarshal _);
    cbn [fst snd reports_true jsp.Buffer jsp.Requests jsp.set_Buffer].
  - repeat split; try discriminate; try assumption.
    + eexists; rewrite B1, drop_drop; reflexivity.
    + intros data _. pose proof (DecodeHex_nonneg _ _ D) as PK.
      unfold len in *. rewrite length_drop. lia.
  - repeat split; try discriminate; try assumption.
    eexists; rewrite B1, drop_drop; reflexivity.
Qed.

End Frames.

(** The empty object, framed, between a line end and the beginning of the
    next frame. *)
Lemma jsp_frame_round_trip_witness :
  jsp.TryReadPacket (fun _ => Some ∅)
    (jsp.set_Buffer ([13; 10] ++ jsp.EncodePacket (fun _ => [123; 125]) ∅ ++ [3; 48])
                    jsp.NewJSPConnection)
  = (jsp.set_Buffer [3; 48] jsp.NewJSPConnection,
     Ok (jsp.RPacket (jsp.arrLower (VMap ∅)))).
Proof.
  apply (jsp_frame_round_trip (fun _ => [123; 125]) (fun _ => Some ∅) ∅ [13; 10] [3; 48]
           jsp.NewJSPConnection).
  - reflexivity.
  - vm_compute. reflexivity.
  - reflexivity.
Defined.

Lemma lower_byte_range (b : Z) : 0 <= b < 256 -> 0 <= gostrings.lower_byte b < 256.
Proof.
  intros H. unfold gostrings.lower_byte.
  destruct ((65 <=? b) && (b <=? 90)) eqn:E; [|assumption].
  apply andb_prop in E. lia.
Qed.

Lemma lower_byte_idem (b : Z) :
  gostrings.lower_byte (gostrings.lower_byte b) = gostrings.lower_byte b.
Proof.
  unfold gostrings.lower_byte.
  destruct ((65 <=? b) && (b <=? 90)) eqn:E; [|rewrite E; reflexivity].
  apply andb_prop in E.
  replace ((65 <=? b + 32) && (b + 32 <=? 90)) with false; [reflexivity|].
  symmetry. apply andb_false_iff. right. apply Z.leb_gt. lia.
Qed.

Lemma ToLower_idem (s : string) :
  gostrings.ToLower (gostrings.ToLower s) = gostrings.ToLower s.
Proof.
  unfold gostrings.ToLower. rewrite bytes_string_bytes.
  - rewrite map_map. f_equal. apply map_ext. intros b. apply lower_byte_idem.
  - unfold bytes_of_string. rewrite map_map.
    induction (list_ascii_of_string s) as [|a l IH]; constructor; [|exact IH].
    apply lower_byte_range, byte_of_ascii_range.
Qed.

(** X18. The keys of the object that [arrLower] returns are the keys of
    its argument in lower case, and so are in lower case. *)
Theorem arrLower_keys (m : gmap string GoVal) (k : string) :
  (is_Some (jsp.arrLower (VMap m) !! k)
   <-> exists k0, is_Some (m !! k0) /\ gostrings.ToLower k0 = k)
  /\ (is_Some (jsp.arrLower (VMap m) !! k) -> gostrings.ToLower k = k).
Proof.
  assert (A : is_Some (jsp.arrLower (VMap m) !! k)
              <-> exists k0, is_Some (m !! k0) /\ gostrings.ToLower k0 = k).
  { cbn [jsp.arrLower]. revert k.
    match goal with
    | |- forall k, is_Some (map_fold ?f ∅ m !! k) <-> _ =>
        apply (map_fold_weak_ind
                 (fun r m => forall k,
                      is_Some (r !! k)
                      <-> exists k0, is_Some (m !! k0) /\ gostrings.ToLower k0 = k) f)
    end.
    - intros k. rewrite lookup_empty. split.
      + intros [x Hx]. discriminate.
      + intros (k0 & [x Hx] & _). rewrite lookup_empty in Hx. discriminate.
    - intros i x m0 r Hi IH k.
      assert (E : forall v : GoVal,
                is_Some (<[gostrings.ToLower i := v]> r !! k)
                <-> exists k0, is_Some (<[i := x]> m0 !! k0)
                               /\ gostrings.ToLower k0 = k).
      { intros v. destruct (decide (gostrings.ToLower i = k)) as [<-|N].
        - rewrite lookup_insert_eq. split; [|eauto].
          intros _. exists i. rewrite lookup_insert_eq. eauto.
        - rewrite lookup_insert_ne by assumption. rewrite IH. split.
          + intros (k0 & S0 & E0). exists k0. split; [|assumption].
            destruct (decide (i = k0)) as [->|]; [congruence|].
            rewrite lookup_insert_ne by assumption. assumption.
          + intros (k0 & S0 & E0). exists k0. split; [|assumption].
            destruct (decide (i = k0)) as [->|]; [congruence|].
            rewrite lookup_insert_ne in S0 by assumption. assumption. }
      destruct x; apply E. }
  split; [exact A|]. intros S0. apply A in S0. destruct S0 as (k0 & _ & <-).
  apply ToLower_idem.
Qed.

(** ** Package [cardlist] *)

Lemma add_cards_snoc cards c m :
  cardlist.add_cards (cards ++ [c]) m
  = let '(m', added) := cardlist.add_cards cards m in
    let uid := cardlist.parseGMC (cardlist.EUID c) in
    if String.eqb uid "" then (m', added)
    else (<[uid := cardlist.Message c]> m', added ++ [uid]).
Proof.
  unfold cardlist.add_cards. rewrite fold_left_app. cbn [fold_left].
  destruct (fold_left _ cards (m, [])) as [m' added]. reflexivity.
Qed.

Lemma add_cards_lookup cards m u :
  (cardlist.add_cards cards m).1 !! u
  = match last_card u cards with
    | Some c => Some (cardlist.Message c)
    | None => m !! u
    end.
Proof.
  induction cards as [|c cards IH] using rev_ind.
  - unfold last_card. destruct (String.eqb u ""); reflexivity.
  - rewrite add_cards_snoc.
    destruct (cardlist.add_cards cards m) as [m' added] eqn:A. cbn [fst] in IH.
    unfold last_card in *. rewrite rev_app_distr. cbn [rev app List.find].
    destruct (String.eqb_spec (cardlist.parseGMC (cardlist.EUID c)) "") as [E|N].
    + cbn [fst]. rewrite IH. destruct (String.eqb_spec u "") as [|Nu]; [reflexivity|].
      rewrite E. destruct (String.eqb_spec "" u) as [<-|]; [congruence|]. reflexivity.
    + cbn [fst]. destruct (String.eqb_spec u "") as [->|Nu].
      * rewrite lookup_insert_ne by assumption. exact IH.
      * destruct (String.eqb_spec (cardlist.parseGMC (cardlist.EUID c)) u) as [->|Ne].
        -- rewrite lookup_insert_eq. reflexivity.
        -- rewrite lookup_insert_ne by assumption. exact IH.
Qed.

Lemma add_cards_added cards m :
  (cardlist.add_cards cards m).2
  = List.filter (fun u => negb (String.eqb u ""))
                (map (fun c => cardlist.parseGMC (cardlist.EUID c)) cards).
Proof.
  induction cards as [|c cards IH] using rev_ind; [reflexivity|].
  rewrite add_cards_snoc, map_app, List.filter_app.
  destruct (cardlist.add_cards cards m) as [m' added]. cbn [snd] in IH.
  cbn [map List.filter].
  destruct (String.eqb (cardlist.parseGMC (cardlist.EUID c)) ""); cbn [negb snd].
  - rewrite app_nil_r. exact IH.
  - rewrite IH. reflexivity.
Qed.

(** X19. After [AddGlobal], [CheckGlobal] answers with the message of the
    last card of the call whose UID, trimmed and in upper case, is the
    queried UID trimmed and in upper case, and as before when the call
    holds no such card; a card whose UID is not 8 to 20 hexadecimal digits
    is skipped. The secondary list is not touched, and the UIDs returned
    are the normalised UIDs of the cards that were not skipped. *)
Theorem cardlist_check_after_add (cards : list cardlist.CardEntry)
        (cl : cardlist.CardList) (x : string) :
  cardlist.CheckGlobal (cardlist.AddGlobal cards cl).1 x
  = match last_card (gostrings.ToUpper (gostrings.TrimSpace x)) cards with
    | Some c => cardlist.Message c
    | None => cardlist.CheckGlobal cl x
    end
  /\ cardlist.CheckSecondary (cardlist.AddGlobal cards cl).1 x = cardlist.CheckSecondary cl x
  /\ (cardlist.AddGlobal cards cl).2
     = List.filter (fun u => negb (String.eqb u ""))
                   (map (fun c => cardlist.parseGMC (cardlist.EUID c)) cards).
Proof.
  unfold cardlist.AddGlobal, cardlist.CheckGlobal, cardlist.CheckSecondary.
  pose proof (add_cards_lookup cards (cardlist.gmclist cl)
                (gostrings.ToUpper (gostrings.TrimSpace x))) as L.
  pose proof (add_cards_added cards (cardlist.gmclist cl)) as A.
  destruct (cardlist.add_cards cards (cardlist.gmclist cl)) as [m added].
  cbn [fst snd cardlist.gmclist cardlist.mclist] in *.
  rewrite L. split; [|split; [reflexivity|exact A]].
  destruct (last_card _ cards); reflexivity.
Qed.

Lemma del_cards_snoc uids uid m :
  cardlist.del_cards (uids ++ [uid]) m
  = let '(m', removed) := cardlist.del_cards uids m in
    let uid := cardlist.parseGMC uid in
    if String.eqb uid "" then (m', removed)
    else match m' !! uid with
         | Some _ => (delete uid m', removed ++ [uid])
         | None => (m', removed)
         end.
Proof.
  unfold cardlist.del_cards. rewrite fold_left_app. cbn [fold_left].
  destruct (fold_left _ uids (m, [])) as [m' removed]. reflexivity.
Qed.

Lemma del_cards_lookup uids m u :
  (cardlist.del_cards uids m).1 !! u = if listed u uids then None else m !! u.
Proof.
  induction uids as [|uid uids IH] using rev_ind.
  - unfold listed. cbn [existsb]. rewrite andb_false_r. reflexivity.
  - rewrite del_cards_snoc.
    destruct (cardlist.del_cards uids m) as [m' removed]. cbn [fst] in IH.
    unfold listed in *. rewrite existsb_app. cbn [existsb]. rewrite orb_false_r.
    destruct (String.eqb_spec (cardlist.parseGMC uid) "") as [E|N].
    + cbn [fst]. rewrite IH. rewrite E.
      destruct (String.eqb_spec u "") as [->|Nu]; cbn [negb andb]; [reflexivity|].
      destruct (String.eqb_spec "" u) as [<-|]; [congruence|]. rewrite orb_false_r.
      reflexivity.
    + destruct (String.eqb_spec (cardlist.parseGMC uid) u) as [<-|Ne].
      * replace (negb (String.eqb (cardlist.parseGMC uid) ""))
          with true by (symmetry; apply negb_true_iff, String.eqb_neq; assumption).
        rewrite orb_true_r. cbn [andb].
        destruct (m' !! cardlist.parseGMC uid) eqn:Lk; cbn [fst].
        -- apply lookup_delete_eq.
        -- exact Lk.
      * rewrite orb_false_r.
        destruct (m' !! cardlist.parseGMC uid); cbn [fst].
        -- rewrite lookup_delete_ne by assumption. exact IH.
        -- exact IH.
Qed.

(** X20. After [DelGlobal], [CheckGlobal] finds nothing for a UID that
    normalises to a valid UID of the call, and answers as before for every
    other UID; the secondary list is not touched. *)
Theorem cardlist_check_after_del (uids : list string) (cl : cardlist.CardList)
        (x : string) :
  cardlist.CheckGlobal (cardlist.DelGlobal uids cl).1 x
  = (if listed (gostrings.ToUpper (gostrings.TrimSpace x)) uids then ""
     else cardlist.CheckGlobal cl x)
  /\ cardlist.CheckSecondary (cardlist.DelGlobal uids cl).1 x
     = cardlist.CheckSecondary cl x.
Proof.
  unfold cardlist.DelGlobal, cardlist.CheckGlobal, cardlist.CheckSecondary.
  pose proof (del_cards_lookup uids (cardlist.gmclist cl)
                (gostrings.ToUpper (gostrings.TrimSpace x))) as L.
  destruct (cardlist.del_cards uids (cardlist.gmclist cl)) as [m removed].
  cbn [fst cardlist.gmclist cardlist.mclist] in *. rewrite L.
  split; [|reflexivity]. destruct (listed _ uids); reflexivity.
Qed.

Lemma sync_add_lookup (incoming m : gmap string string) (u : string) :
  (cardlist.sync_add incoming m).1 !! u
  = match m !! u with Some old => Some old | None => incoming !! u end.
Proof.
  unfold cardlist.sync_add.
  apply (map_fold_weak_ind
           (fun (r : gmap string string * list string) (inc : gmap string string) =>
              r.1 !! u = match m !! u with Some old => Some old | None => inc !! u end)).
  - cbn [fst]. rewrite lookup_empty. destruct (m !! u); reflexivity.
  - intros i x inc [r add] Hi IH. cbn [fst] in *.
    destruct (r !! i) eqn:Ri; cbn [fst].
    + rewrite IH. destruct (m !! u) eqn:Mu; [reflexivity|].
      destruct (decide (i = u)) as [->|N].
      * rewrite IH, Hi in Ri. discriminate.
      * rewrite lookup_insert_ne by assumption. reflexivity.
    + destruct (decide (i = u)) as [->|N].
      * rewrite lookup_insert_eq. rewrite IH in Ri.
        destruct (m !! u); [discriminate|]. rewrite lookup_insert_eq. reflexivity.
      * rewrite !lookup_insert_ne by assumption. exact IH.
Qed.

Lemma sync_del_lookup (incoming m : gmap string string) (u : string) :
  (cardlist.sync_del incoming m).1 !! u
  = match incoming !! u with Some _ => m !! u | None => None end.
Proof.
  unfold cardlist.sync_del.
  assert (G : forall m0 : gmap string string,
             (map_fold
                (fun uid (_ : string) '(m1, del) =>
                   match incoming !! uid with
                   | None => (delete uid m1, del ++ [uid])
                   | Some _ => (m1, del)
                   end) (m, []) m0).1 !! u
             = match m0 !! u with
               | Some _ => match incoming !! u with Some _ => m !! u | None => None end
               | None => m !! u
               end).
  { apply (map_fold_weak_ind
             (fun (r : gmap string string * list string) (m0 : gmap string string) =>
                r.1 !! u = match m0 !! u with
                           | Some _ => match incoming !! u with
                                       | Some _ => m !! u | None => None end
                           | None => m !! u
                           end)).
    - cbn [fst]. rewrite lookup_empty. reflexivity.
    - intros i x m0 [r del] Hi IH. cbn [fst] in *.
      destruct (decide (i = u)) as [->|N].
      + rewrite lookup_insert_eq. rewrite Hi in IH.
        destruct (incoming !! u); cbn [fst]; [exact IH|apply lookup_delete_eq].
      + rewrite lookup_insert_ne by assumption.
        destruct (incoming !! i); cbn [fst]; [exact IH|].
        rewrite lookup_delete_ne by assumption. exact IH. }
  rewrite G. destruct (m !! u) eqn:Mu; [reflexivity|].
  destruct (incoming !! u); reflexivity.
Qed.

(** X21. After [SyncGlobal] the global list holds the valid UIDs of the
    call and no other. A UID that the list held before keeps the message
    that it had: the message of the call is stored for the new UIDs only.
    The secondary list is not touched. *)
Theorem sync_keeps_the_old_messages (cards : list cardlist.CardEntry)
        (cl : cardlist.CardList) (u : string) :
  cardlist.gmclist (cardlist.SyncGlobal cards cl).1 !! u
  = match (cardlist.add_cards cards ∅).1 !! u with
    | Some msg => Some (default msg (cardlist.gmclist cl !! u))
    | None => None
    end
  /\ cardlist.mclist (cardlist.SyncGlobal cards cl).1 = cardlist.mclist cl.
Proof.
  unfold cardlist.SyncGlobal.
  pose proof (sync_add_lookup (cardlist.add_cards cards ∅).1 (cardlist.gmclist cl) u) as A.
  destruct (cardlist.sync_add _ _) as [m1 add]. cbn [fst] in A.
  pose proof (sync_del_lookup (cardlist.add_cards cards ∅).1 m1 u) as D.
  destruct (cardlist.sync_del _ _) as [m2 del]. cbn [fst] in D.
  cbn [fst cardlist.gmclist cardlist.mclist]. split; [|reflexivity].
  rewrite D, A. destruct ((cardlist.add_cards cards ∅).1 !! u); [|reflexivity].
  destruct (cardlist.gmclist cl !! u); reflexivity.
Qed.

(** ** Package [httpclient] *)

Lemma attempts_spec (once : Z -> Res httpclient.HTTPResponse) (turns : nat) :
  forall start r n,
    httpclient.Request1C_attempts once turns start = (r, n) ->
    start <= n <= start + Z.of_nat turns
    /\ (forall k, start <= k < n - 1 -> is_err (once k) = true)
    /\ (is_err r = true ->
        n = start + Z.of_nat turns /\ forall k, start <= k < n -> is_err (once k) = true)
    /\ (is_err r = false -> start < n /\ once (n - 1) = r).
Proof.
  induction turns as [|t IH]; intros start r n E; cbn [httpclient.Request1C_attempts] in E.
  - injection E as <- <-. cbn [is_err]. rewrite Z.add_0_r.
    repeat split; intros; try lia; try discriminate.
  - destruct (once start) as [resp|e| |] eqn:O.
    + injection E as <- <-. replace (start + 1 - 1) with start by lia.
      cbn [is_err]. repeat split; intros; try lia; try discriminate; try assumption.
    + apply IH in E. destruct E as (R & A & B & C).
      split; [lia|]. split; [|split].
      * intros k Hk. destruct (Z.eq_dec k start) as [->|]; [rewrite O; reflexivity|].
        apply A. lia.
      * intros Er. destruct (B Er) as [-> B2]. split; [lia|].
        intros k Hk. destruct (Z.eq_dec k start) as [->|]; [rewrite O; reflexivity|].
        apply B2. lia.
      * intros Er. destruct (C Er). split; [lia|assumption].
    + injection E as <- <-. replace (start + 1 - 1) with start by lia.
      cbn [is_err]. repeat split; intros; try lia; try discriminate; try assumption.
    + injection E as <- <-. replace (start + 1 - 1) with start by lia.
      cbn [is_err]. repeat split; intros; try lia; try discriminate; try assumption.
Qed.

(** X22. [Request1C] makes at least one call and at most one more than
    the configured number of retries, a negative number counting as 0. It
    stops at the first call that does not fail and returns its answer;
    every call before the last one has failed, and the result is an error
    only when all the calls allowed have failed. *)
Theorem request_is_retried_until_it_answers
        (retryCount : Z) (once : Z -> Res httpclient.HTTPResponse) :
  let r := (httpclient.Request1C_retry retryCount once).1 in
  let n := (httpclient.Request1C_retry retryCount once).2 in
  1 <= n <= Z.max retryCount 0 + 1
  /\ (forall k, 0 <= k < n - 1 -> is_err (once k) = true)
  /\ (if is_err r then n = Z.max retryCount 0 + 1 /\ is_err (once (n - 1)) = true
      else once (n - 1) = r).
Proof.
  cbv zeta. unfold httpclient.Request1C_retry.
  set (m := if retryCount <? 0 then 0 else retryCount).
  assert (Hm : m = Z.max retryCount 0) by (subst m; destruct (Z.ltb_spec retryCount 0); lia).
  destruct (httpclient.Request1C_attempts once (Z.to_nat (m + 1)) 0) as [r n] eqn:E.
  apply attempts_spec in E. destruct E as (R & A & B & C). cbn [fst snd].
  rewrite Z2Nat.id in * by lia.
  destruct (is_err r) eqn:Er.
  - destruct (B eq_refl) as [-> B2]. repeat split; try lia; try assumption.
    apply B2. lia.
  - destruct (C eq_refl) as [C1 C2]. repeat split; try lia; assumption.
Qed.

(** ** Package [session] *)

Section Start.

Context {P : Type} `{session.ConnectionPoolInterface P}.

(** X23. When the manager has a pool and the pool knows the connection
    of the terminal, with its settings, [StartSession] denies every tag:
    the [rfid] entry that it builds has no [auth], which
    [checkTagReadDeny] reads as a tag that was not read. The session is
    created in [LAST_ANSWER] with the result 0; the terminal is not
    locked, no request goes to the back end and no wait is set. *)
Theorem start_session_with_pool_denies (now : Z) (uid key apkey : string)
        (lockers : list LockerInfo) (sm : session.SessionManager) (pl : P)
        (conn : Connection) (settings : TerminalSettings) :
  session.pool sm = true ->
  session.GetConnection key pl = Some conn ->
  Settings conn = Some settings ->
  exists sm' id s,
    session.StartSession now uid key apkey lockers sm pl = (sm', pl, [], Ok id)
    /\ session.sessions sm' !! id = Some s
    /\ Stage s = SESSION_STAGE_LAST_ANSWER
    /\ SData s !! "result" = Some (VInt 0)
    /\ SData s !! "message" = Some (VString "Метка не прочитана")
    /\ SData s !! "kpo" = None
    /\ Wait s = None.
Proof.
  intros Hp Hc Hs. unfold session.StartSession, session.CreateSession.
  destruct (session.generateSessionID now sm) as [sm1 id] eqn:G.
  assert (Hp1 : session.pool sm1 = true).
  { unfold session.generateSessionID in G. injection G as <- _. exact Hp. }
  cbn [session.with_sessions session.pool].
  unfold session.checkTagReadDeny.
  cbn [session.pool session.with_sessions session.new_session session.set_Data
       SKey SData].
  rewrite Hp1. cbn [negb]. rewrite Hc, Hs.
  rewrite lookup_insert_eq. cbn [session.as_map].
  assert (A : session.as_bool (session.rfid_data uid lockers !! "auth") = None).
  { unfold session.rfid_data. destruct (0 <? len lockers).
    - destruct (utils.ProcessLockersData lockers) as [a f].
      rewrite !lookup_insert_ne by done. rewrite lookup_empty. reflexivity.
    - rewrite lookup_insert_ne by done. rewrite lookup_empty. reflexivity. }
  rewrite A. cbn [default negb].
  eexists _, id, _. split; [reflexivity|].
  cbn [session.sessions session.with_sessions]. rewrite lookup_insert_eq.
  split; [reflexivity|].
  cbn. rewrite ?lookup_insert_eq.
  repeat split; repeat (rewrite lookup_insert_ne by done);
    rewrite ?lookup_insert_eq, ?lookup_empty; reflexivity.
Qed.

End Start.

(** The manager of the daemon and the card of the examples. *)
Lemma start_session_with_pool_denies_witness :
  exists sm' id s,
    session.StartSession (H := the_pool) 1000000000 blocked_card key0 "MAIN" []
                         manager0 (pool_of (terminal TTYPE_GAT))
    = (sm', pool_of (terminal TTYPE_GAT), [], Ok id)
    /\ session.sessions sm' !! id = Some s
    /\ Stage s = SESSION_STAGE_LAST_ANSWER
    /\ SData s !! "result" = Some (VInt 0)
    /\ SData s !! "message" = Some (VString "Метка не прочитана")
    /\ SData s !! "kpo" = None
    /\ Wait s = None.
Proof.
  apply (start_session_with_pool_denies (H := the_pool) 1000000000 blocked_card key0
           "MAIN" [] manager0 (pool_of (terminal TTYPE_GAT))
           {| types.Key := key0; ConKey := key0; CIP := "10.0.0.7"; CPort := 8000;
              types.Settings := Some (terminal TTYPE_GAT); types.StartTime := 0;
              types.LastActivity := 0; types.Connected := true |}
           (terminal TTYPE_GAT)).
  - reflexivity.
  - vm_compute. reflexivity.
  - reflexivity.
Defined.

Lemma same_but_refl p sm : same_but p sm sm.
Proof. repeat split. Qed.

Lemma same_but_trans p a b c : same_but p a b -> same_but p b c -> same_but p a c.
Proof.
  intros (A1 & A2 & A3 & A4 & A5 & A6) (B1 & B2 & B3 & B4 & B5 & B6).
  repeat split; try congruence.
  intros id N. rewrite B1, A1 by assumption. reflexivity.
Qed.

Lemma same_but_alter p sm (f : Session -> Session) :
  (forall s, SID (f s) = SID s) ->
  same_but p sm (session.with_sessions sm (alter f p (session.sessions sm))).
Proof.
  intros F. repeat split; cbn [session.sessions session.with_sessions].
  - intros id N. apply lookup_alter_ne. congruence.
  - rewrite lookup_alter_eq. destruct (session.sessions sm !! p); cbn; [|reflexivity].
    rewrite F. reflexivity.
Qed.

Lemma same_but_insert p sm s s' :
  session.sessions sm !! p = Some s -> SID s' = SID s ->
  same_but p sm (session.with_sessions sm (<[p := s']> (session.sessions sm))).
Proof.
  intros L E. repeat split; cbn [session.sessions session.with_sessions].
  - intros id N. apply lookup_insert_ne. congruence.
  - rewrite lookup_insert_eq, L. cbn. congruence.
Qed.

Lemma setKpoResult_same t p r m sm :
  same_but p sm (session.setKpoResult t p r m sm).1.
Proof.
  unfold session.setKpoResult.
  destruct (session.sessions sm !! p) as [s|] eqn:E; cbn [fst].
  - eapply same_but_insert; [exact E|reflexivity].
  - apply same_but_refl.
Qed.

Lemma waitDone_SID s : SID (session.waitDone s) = SID s.
Proof.
  unfold session.waitDone. destruct (Wait s) as [w|]; [|reflexivity].
  destruct (negb _); reflexivity.
Qed.

Lemma waitDone_at_same p sm : same_but p sm (session.waitDone_at p sm).
Proof. apply same_but_alter, waitDone_SID. Qed.

Lemma checkWait_same now p s sm :
  SID s = p -> same_but p sm (session.checkWait now p s sm).1.
Proof.
  intros E. unfold session.checkWait. rewrite E.
  repeat case_match; cbn [fst];
    repeat first
      [ apply same_but_refl
      | apply waitDone_at_same
      | apply setKpoResult_same
      | apply same_but_alter; reflexivity
      | eapply same_but_trans; [|apply waitDone_at_same] ].
Qed.

Section Frame.

Context {P : Type} `{session.ConnectionPoolInterface P}.
Variable now : Z.

Lemma dispatch_SID (sm : session.SessionManager) (s : Session) (pl : P) :
  SID (session.dispatch now sm s pl).1.1.1 = SID s.
Proof.
  unfold session.dispatch.
  destruct (Stage s); cbn [fst];
    unfold session.processKpoResult, session.processKpoDirect, session.returned,
      session.processCamResult, session.processOpenFirst, session.processFirstPassed,
      session.processOpenSecond, session.processSecondPassed, session.processPassed,
      session.processLastAnswer, session.processDone;
    repeat case_match; reflexivity.
Qed.

Lemma ProcessSessionStage_same (sessionID : string)
      (sm : session.SessionManager) (pl : P) :
  (forall s, session.sessions sm !! sessionID = Some s -> SID s = sessionID) ->
  same_but sessionID sm (session.ProcessSessionStage now sessionID sm pl).1.1.1.
Proof.
  intros W. unfold session.ProcessSessionStage.
  destruct (session.sessions sm !! sessionID) as [s|] eqn:L; [|apply same_but_refl].
  specialize (W s eq_refl).
  destruct (Processed s || Completed s); [apply same_but_refl|].
  assert (C : exists sm1 go,
             match Wait s with
             | Some _ => session.checkWait now sessionID s sm
             | None => (sm, true)
             end = (sm1, go) /\ same_but sessionID sm sm1).
  { destruct (Wait s).
    - pose proof (checkWait_same now sessionID s sm W) as S.
      destruct (session.checkWait now sessionID s sm) as [sm1 go]. eauto.
    - eexists _, _. split; [reflexivity|apply same_but_refl]. }
  destruct C as (sm1 & go & -> & S1).
  destruct go; cbn [negb fst]; [|exact S1].
  destruct (session.sessions sm1 !! sessionID) as [s1|] eqn:L1; [|exact S1].
  pose proof (dispatch_SID sm1 s1 pl) as D.
  destruct (session.dispatch now sm1 s1 pl) as [[[s' pl'] eff] r]. cbn [fst] in *.
  eapply same_but_trans; [exact S1|].
  eapply same_but_insert; eassumption.
Qed.

(** X24. One call of [ProcessSessionStage] for a session that is stored
    under its own id changes no other session of the manager; the session
    keeps its id, and the manager its configuration, its counter of ids
    and its pool and HTTP client. *)
Theorem process_stage_touches_one_session (sessionID : string)
        (sm : session.SessionManager) (pl : P) :
  (forall s, session.sessions sm !! sessionID = Some s -> SID s = sessionID) ->
  let sm' := (session.ProcessSessionStage now sessionID sm pl).1.1.1 in
  (forall id, id <> sessionID ->
     session.sessions sm' !! id = session.sessions sm !! id)
  /\ SID <$> session.sessions sm' !! sessionID
     = SID <$> session.sessions sm !! sessionID
  /\ session.config sm' = session.config sm
  /\ session.idGen sm' = session.idGen sm
  /\ session.pool sm' = session.pool sm
  /\ session.httpClient sm' = session.httpClient sm.
Proof. intros W. exact (ProcessSessionStage_same sessionID sm pl W). Qed.

Lemma tick_plain t id pl sm s :
  session.sessions sm !! id = Some s -> Wait s = None ->
  Processed s = false -> Completed s = false ->
  after_tick t id pl sm
  = session.with_sessions sm
      (<[id := (session.dispatch t sm s pl).1.1.1]> (session.sessions sm)).
Proof.
  intros L W Pr C. unfold after_tick, session.ProcessSessionStage.
  rewrite L, W, Pr, C. cbn [orb negb]. rewrite L.
  destruct (session.dispatch t sm s pl) as [[[s' pl'] eff] r]. reflexivity.
Qed.

(** X25. A session in [LAST_ANSWER] that waits for nothing, in a manager
    without pool, is completed after three calls of
    [ProcessSessionStage], whenever they are made: granted, it goes
    through [PASSED] to [DONE]; denied, it goes to [DONE] at once, and the
    third call finds it processed. Its data are not changed. *)
Theorem answered_session_completes (t1 t2 t3 : Z) (id : string) (pl : P)
        (sm : session.SessionManager) (s : Session) :
  session.sessions sm !! id = Some s ->
  Stage s = SESSION_STAGE_LAST_ANSWER ->
  Wait s = None -> Processed s = false -> Completed s = false ->
  session.pool sm = false ->
  exists s',
    session.sessions (after_tick t3 id pl (after_tick t2 id pl (after_tick t1 id pl sm)))
      !! id = Some s'
    /\ Stage s' = SESSION_STAGE_DONE
    /\ Processed s' = true /\ Completed s' = true /\ ReportSent s' = true
    /\ SData s' = SData s.
Proof.
  intros L St W Pr C Pl.
  rewrite (tick_plain t1 id pl sm s L W Pr C).
  unfold session.dispatch at 1. rewrite St. unfold session.processLastAnswer.
  unfold session.sendAllowMessage, session.sendDenyMessage, session.returned.
  rewrite Pl. cbn [negb fst snd].
  destruct (0 <? default 0 (session.as_int (SData s !! "result"))) eqn:R; cbn [fst snd].
  - set (s1 := session.set_Stage SESSION_STAGE_PASSED s).
    set (sm1 := session.with_sessions sm (<[id := s1]> (session.sessions sm))).
    assert (L1 : session.sessions sm1 !! id = Some s1) by apply lookup_insert_eq.
    rewrite (tick_plain t2 id pl sm1 s1 L1 W Pr C).
    unfold session.dispatch at 1. cbn [Stage s1 session.set_Stage].
    assert (RI : exists r, session.as_int (SData s !! "result") = Some r).
    { destruct (session.as_int (SData s !! "result")) as [r|]; [eauto|discriminate]. }
    destruct RI as [r RI].
    set (s2 := session.set_Stage SESSION_STAGE_DONE (session.set_ReportSent true s1)).
    assert (E2 : (session.processPassed sm1 s1 pl).1.1.1 = s2).
    { unfold session.processPassed. destruct (session.httpClient sm1); [|reflexivity].
      change (SData s1) with (SData s). rewrite RI. reflexivity. }
    rewrite E2.
    set (sm2 := session.with_sessions sm1 (<[id := s2]> (session.sessions sm1))).
    assert (L2 : session.sessions sm2 !! id = Some s2) by apply lookup_insert_eq.
    rewrite (tick_plain t3 id pl sm2 s2 L2 W Pr C).
    cbn [session.sessions session.with_sessions]. rewrite lookup_insert_eq.
    eexists. split; [reflexivity|].
    unfold session.dispatch. cbn [Stage s2 session.set_Stage].
    unfold session.processDone. cbn. repeat split.
  - set (s1 := session.set_Stage SESSION_STAGE_DONE s).
    set (sm1 := session.with_sessions sm (<[id := s1]> (session.sessions sm))).
    assert (L1 : session.sessions sm1 !! id = Some s1) by apply lookup_insert_eq.
    rewrite (tick_plain t2 id pl sm1 s1 L1 W Pr C).
    unfold session.dispatch at 1. cbn [Stage s1 session.set_Stage].
    set (s2 := (session.processDone sm1 s1 pl).1.1.1).
    set (sm2 := session.with_sessions sm1 (<[id := s2]> (session.sessions sm1))).
    assert (L2 : session.sessions sm2 !! id = Some s2) by apply lookup_insert_eq.
    assert (D2 : Processed s2 = true /\ Completed s2 = true /\ ReportSent s2 = true
                 /\ Stage s2 = SESSION_STAGE_DONE /\ SData s2 = SData s).
    { subst s2 s1. unfold session.processDone.
      cbn [ReportSent session.set_Stage].
      destruct (ReportSent s) eqn:RS; cbn; repeat split; assumption. }
    destruct D2 as (D21 & D22 & D23 & D24 & D25).
    unfold after_tick, session.ProcessSessionStage. rewrite L2, D21. cbn [orb fst].
    rewrite L2. exists s2. repeat split; assumption.
Qed.

End Frame.

(** The session of the examples, which waits for the back end. *)
Lemma process_stage_touches_one_session_witness :
  let sm' :=
    (session.ProcessSessionStage (H := the_pool) 1200000000 session1 waiting_manager
                                 (pool_of (terminal TTYPE_GAT))).1.1.1 in
  (forall id, id <> session1 ->
     session.sessions sm' !! id = session.sessions waiting_manager !! id)
  /\ SID <$> session.sessions sm' !! session1
     = SID <$> session.sessions waiting_manager !! session1
  /\ session.config sm' = session.config waiting_manager
  /\ session.idGen sm' = session.idGen waiting_manager
  /\ session.pool sm' = session.pool waiting_manager
  /\ session.httpClient sm' = session.httpClient waiting_manager.
Proof.
  apply (process_stage_touches_one_session (H := the_pool) 1200000000 session1
           waiting_manager (pool_of (terminal TTYPE_GAT))).
  vm_compute. intros s E. injection E as <-. reflexivity.
Defined.

(** The session of the examples, denied. *)
Lemma answered_session_completes_witness :
  exists s',
    session.sessions
      (after_tick (H := the_pool) 3 session1 (pool_of (terminal TTYPE_GAT))
         (after_tick (H := the_pool) 2 session1 (pool_of (terminal TTYPE_GAT))
            (after_tick (H := the_pool) 1 session1 (pool_of (terminal TTYPE_GAT))
               denied_manager)))
      !! session1 = Some s'
    /\ Stage s' = SESSION_STAGE_DONE
    /\ Processed s' = true /\ Completed s' = true /\ ReportSent s' = true
    /\ SData s' = SData denied_session.
Proof.
  apply (answered_session_completes (H := the_pool) 1 2 3 session1
           (pool_of (terminal TTYPE_GAT)) denied_manager denied_session);
    vm_compute; reflexivity.
Defined.

Lemma fold_delete_lookup (ids : list string) (m : gmap string Session) (k : string) :
  fold_left (fun m id => delete id m) ids m !! k
  = if existsb (String.eqb k) ids then None else m !! k.
Proof.
  revert m. induction ids as [|i ids IH]; intros m; cbn [fold_left existsb];
    [reflexivity|].
  rewrite IH. destruct (String.eqb_spec k i) as [->|N]; cbn [orb].
  - rewrite lookup_delete_eq. destruct (existsb _ ids); reflexivity.
  - rewrite lookup_delete_ne by congruence. reflexivity.
Qed.

Lemma expired_ids (f : Session -> bool) (m : gmap string Session) (k : string) :
  existsb (String.eqb k) (List.filter (fun '(_, s) => f s) (map_to_list m)).*1
  = match m !! k with Some s => f s | None => false end.
Proof.
  apply eq_true_iff_eq. rewrite existsb_exists. split.
  - intros (x & Hx & E). apply String.eqb_eq in E. subst x.
    apply list_elem_of_In, list_elem_of_fmap in Hx. destruct Hx as ([k' s] & -> & Hx).
    apply list_elem_of_In, filter_In in Hx. destruct Hx as [Hx F].
    apply list_elem_of_In, elem_of_map_to_list in Hx. cbn [fst]. rewrite Hx. exact F.
  - destruct (m !! k) as [s|] eqn:L; [|discriminate]. intros F.
    exists k. split; [|apply String.eqb_refl].
    apply list_elem_of_In, list_elem_of_fmap. exists (k, s). split; [reflexivity|].
    apply list_elem_of_In, filter_In. split; [|exact F].
    apply list_elem_of_In, elem_of_map_to_list. exact L.
Qed.

(** X26. [CleanupExpiredSessions] removes the sessions that were
    requested longer ago than [SessionExpireTime], completed or not, and
    keeps every other session as it is. *)
Theorem cleanup_drops_the_old_sessions (now : Z) (sm : session.SessionManager)
        (id : string) :
  session.GetSession id (session.CleanupExpiredSessions now sm)
  = match session.GetSession id sm with
    | Some s => if session.expired now sm s then None else Some s
    | None => None
    end.
Proof.
  unfold session.GetSession, session.CleanupExpiredSessions.
  cbn [session.sessions session.with_sessions].
  rewrite fold_delete_lookup, (expired_ids (session.expired now sm)).
  destruct (session.sessions sm !! id) as [s|]; [|reflexivity].
  destruct (session.expired now sm s); reflexivity.
Qed.

(** ** Package [connection] *)

(** X27. On a connected terminal that gets no lock frame (GAT, SPHINX),
    [UnlockTerminal] by the session that has locked the terminal undoes
    [LockTerminal]: both calls succeed, the terminal has no owner
    afterwards, the other extra settings are what they were, nothing is
    written to the socket and no other connection is changed. *)
Theorem lock_then_unlock (json_Marshal : gmap string GoVal -> list Z)
        (t1 t2 : Z) (key sessionID text : string)
        (cp : connection.ConnectionPool) (conn : connection.Connection)
        (settings : TerminalSettings) :
  connection.connections cp !! key = Some conn ->
  connection.Connected conn = true ->
  connection.Settings conn = Some settings ->
  TerminalType_eqb (Type_ settings) TTYPE_POCKET = false ->
  TerminalType_eqb (Type_ settings) TTYPE_JSP = false ->
  let locked := connection.LockTerminal json_Marshal t1 key sessionID text cp in
  let unlocked := connection.UnlockTerminal json_Marshal t2 key sessionID locked.1 in
  locked.2 = Ok tt /\ unlocked.2 = Ok tt
  /\ exists conn',
       connection.connections unlocked.1 !! key = Some conn'
       /\ extra_entry "reader_locked" conn' = None
       /\ (forall k, k <> "reader_locked" -> extra_entry k conn' = extra_entry k conn)
       /\ connection.Conn conn' = connection.Conn conn
       /\ connection.Buffer conn' = connection.Buffer conn
       /\ (forall key', key' <> key ->
             connection.connections unlocked.1 !! key'
             = connection.connections cp !! key').
Proof.
  intros L Up S Tp Tj. cbv zeta.
  assert (E1 : connection.LockTerminal json_Marshal t1 key sessionID text cp
               = (connection.update key
                    (connection.set_Settings
                       (Some (connection.set_Extra
                                (Some (<["reader_locked" := VString sessionID]>
                                         (default ∅ (Extra settings)))) settings))) cp,
                  Ok tt)).
  { unfold connection.LockTerminal. rewrite L, Up, S. simpl. rewrite Tp, Tj.
    reflexivity. }
  rewrite E1. cbn [fst snd]. split; [reflexivity|].
  set (st1 := connection.set_Extra _ settings).
  set (cp1 := connection.update key (connection.set_Settings (Some st1)) cp).
  assert (L1 : connection.connections cp1 !! key
               = Some (connection.set_Settings (Some st1) conn)).
  { subst cp1. unfold connection.update. cbn [connection.connections].
    rewrite lookup_alter_eq, L. reflexivity. }
  assert (E2 : connection.UnlockTerminal json_Marshal t2 key sessionID cp1
               = (connection.update key
                    (connection.set_Settings
                       (Some (connection.set_Extra
                                (Some (delete "reader_locked"
                                         (<["reader_locked" := VString sessionID]>
                                            (default ∅ (Extra settings))))) st1))) cp1,
                  Ok tt)).
  { unfold connection.UnlockTerminal. rewrite L1. simpl. rewrite Up. simpl.
    rewrite lookup_insert_eq, String.eqb_refl. simpl. rewrite Tp, Tj. reflexivity. }
  rewrite E2. cbn [fst snd]. split; [reflexivity|].
  unfold connection.update at 1. cbn [connection.connections].
  rewrite lookup_alter_eq, L1. cbn [fmap option_fmap option_map].
  eexists. split; [reflexivity|].
  unfold extra_entry. simpl. rewrite S.
  split; [apply lookup_delete_eq|]. split; [|split; [reflexivity|split; [reflexivity|]]].
  - intros k N. rewrite lookup_delete_ne by congruence.
    rewrite lookup_insert_ne by congruence.
    destruct (Extra settings); [reflexivity|apply lookup_empty].
  - intros key' N. subst cp1. unfold connection.update. cbn [connection.connections].
    rewrite !lookup_alter_ne by congruence. reflexivity.
Qed.

(** The GAT terminal of the examples, locked and unlocked by [s1]. *)
Lemma lock_then_unlock_witness :
  let locked :=
    connection.LockTerminal no_json_Marshal 5 key0 "s1" "wait"
                            (pool_of (terminal TTYPE_GAT)) in
  let unlocked := connection.UnlockTerminal no_json_Marshal 6 key0 "s1" locked.1 in
  locked.2 = Ok tt /\ unlocked.2 = Ok tt
  /\ exists conn',
       connection.connections unlocked.1 !! key0 = Some conn'
       /\ extra_entry "reader_locked" conn' = None
       /\ (forall k, k <> "reader_locked" ->
             extra_entry k conn' = extra_entry k (conn_of (terminal TTYPE_GAT)))
       /\ connection.Conn conn' = connection.Conn (conn_of (terminal TTYPE_GAT))
       /\ connection.Buffer conn' = connection.Buffer (conn_of (terminal TTYPE_GAT))
       /\ (forall key', key' <> key0 ->
             connection.connections unlocked.1 !! key'
             = connection.connections (pool_of (terminal TTYPE_GAT)) !! key').
Proof.
  apply (lock_then_unlock no_json_Marshal 5 6 key0 "s1" "wait"
           (pool_of (terminal TTYPE_GAT)) (conn_of (terminal TTYPE_GAT))
           (terminal TTYPE_GAT)); vm_compute; reflexivity.
Defined.

Lemma index_crlf_range (l : list Z) (p : Z) :
  connection.index_crlf l = Some p -> 0 <= p /\ p + 2 <= len l.
Proof.
  revert p. induction l as [|a r IH]; intros p E; [discriminate|].
  assert (R : (a = 13 /\ exists r', r = 10 :: r' /\ p = 0)
              \/ (Z.succ <$> connection.index_crlf r = Some p)).
  { cbn [connection.index_crlf] in E.
    destruct a as [|a|a]; try (right; exact E).
    repeat (destruct a as [a|a|]; try (right; exact E)).
    destruct r as [|b r']; [right; exact E|].
    destruct b as [|b|b]; try (right; exact E).
    repeat (destruct b as [b|b|]; try (right; exact E)).
    left. injection E as <-. eauto. }
  destruct R as [(-> & r' & -> & ->)|R].
  - unfold len. cbn [length]. lia.
  - destruct (connection.index_crlf r) as [q|]; [|discriminate]. injection R as <-.
    destruct (IH q eq_refl). unfold len in *. cbn [length]. lia.
Qed.

Section Lines.

Context {D : Type}.
Variable json_Marshal : gmap string GoVal -> list Z.
Variable json_Unmarshal : list Z -> option (gmap string GoVal).
Variable onTagRead :
  option (string -> string -> Z -> bool -> connection.World D
          -> connection.World D * Res unit).
Variable onPassEvent :
  option (string -> bool -> connection.World D -> connection.World D * Res unit).
Variable now : Z.

Lemma handleSphinxPacket_kept (key : string) (data : list Z) (w : connection.World D)
      (c : connection.Connection) :
  connection.connections (connection.w_pool w) !! key = Some c ->
  exists c',
    connection.connections
      (connection.w_pool (connection.handleSphinxPacket now key data w)) !! key = Some c'
    /\ kept c c'.
Proof.
  intros L. unfold connection.handleSphinxPacket.
  repeat case_match;
    try (exists c; split; [exact L|repeat split]);
    unfold connection.assign; cbn [connection.w_pool connection.with_pool
                                   connection.update connection.connections];
    rewrite lookup_alter_eq, L; cbn [fmap option_fmap option_map];
    eexists; (split; [reflexivity|]);
    try (destruct (connection.SphinxPing c)); repeat split.
Qed.

Lemma sphinx_loop (key : string) (fuel : nat) :
  forall (buf : list Z) (w : connection.World D) (c : connection.Connection),
    connection.connections (connection.w_pool w) !! key = Some c ->
    connection.Buffer c = buf ->
    (length buf <= fuel)%nat ->
    exists c' (k : nat),
      connection.connections
        (connection.w_pool (connection.processSphinxData_loop now fuel key buf w)) !! key
      = Some c'
      /\ connection.Buffer c' = drop k buf
      /\ connection.index_crlf (connection.Buffer c') = None
      /\ connection.Conn c' = connection.Conn c
      /\ connection.Settings c' = connection.Settings c.
Proof.
  induction fuel as [|n IH]; intros buf w c L B F.
  - cbn [connection.processSphinxData_loop]. exists c, 0%nat.
    assert (buf = []) as -> by (apply length_zero_iff_nil; lia).
    rewrite B. repeat split; assumption.
  - cbn [connection.processSphinxData_loop].
    destruct (connection.index_crlf buf) as [p|] eqn:I.
    + destruct (index_crlf_range _ _ I) as [P0 P1].
      set (rest := drop (Z.to_nat (p + 2)) buf).
      set (w1 := connection.assign key (connection.set_Buffer rest) w).
      assert (L1 : connection.connections (connection.w_pool w1) !! key
                   = Some (connection.set_Buffer rest c)).
      { subst w1. unfold connection.assign.
        cbn [connection.w_pool connection.with_pool connection.update
             connection.connections].
        rewrite lookup_alter_eq, L. reflexivity. }
      destruct (handleSphinxPacket_kept key (slice buf 0 (p + 2)) w1 _ L1)
        as (c2 & L2 & K1 & K2 & K3).
      destruct (IH rest _ c2 L2 K1) as (c' & k & L' & B' & I' & C' & S').
      { subst rest. rewrite length_drop. unfold len in P1. lia. }
      exists c', (Z.to_nat (p + 2) + k)%nat. split; [exact L'|].
      split; [rewrite B'; subst rest; apply drop_drop|].
      split; [exact I'|].
      cbn [connection.Conn connection.Settings connection.set_Buffer] in K2, K3.
      split; congruence.
    + exists c, 0%nat. rewrite B. repeat split; assumption.
Qed.

(** X28. [processSphinxData] takes every complete line from the buffer
    of the connection: what it leaves is the end of the buffer, without a
    line end in it. It writes nothing to the socket and keeps the
    settings. *)
Theorem sphinx_keeps_the_unfinished_line (key : string) (w : connection.World D)
        (c : connection.Connection) :
  connection.connections (connection.w_pool w) !! key = Some c ->
  exists c' (k : nat),
    connection.connections
      (connection.w_pool (connection.processSphinxData now key w)) !! key = Some c'
    /\ connection.Buffer c' = drop k (connection.Buffer c)
    /\ connection.index_crlf (connection.Buffer c') = None
    /\ connection.Conn c' = connection.Conn c
    /\ connection.Settings c' = connection.Settings c.
Proof.
  intros L. unfold connection.processSphinxData. rewrite L.
  apply (sphinx_loop key _ _ w c L eq_refl). lia.
Qed.

(** X29. When the bytes that a JSP connection holds begin, after bytes
    without a start of frame, with a start-of-frame byte followed by fewer
    than four bytes, [processJSPData] returns at its first turn: the bytes
    from the start of frame on stay in the JSP buffer, the buffer of the
    connection is empty, and nothing is written or handed to the
    daemon. *)
Theorem jsp_partial_frame_is_kept (key : string) (w : connection.World D)
        (conn : connection.Connection) (garbage hdr : list Z) (fuel : nat) :
  connection.connections (connection.w_pool w) !! key = Some conn ->
  jsp.Buffer (default jsp.NewJSPConnection (connection.JSPConn conn))
    ++ connection.Buffer conn = garbage ++ jsp.JSP_SOF :: hdr ->
  jsp.index_byte jsp.JSP_SOF garbage = None ->
  len hdr < 4 ->
  exists w' c' j',
    connection.processJSPData json_Marshal json_Unmarshal onTagRead onPassEvent now
                              (S fuel) key w = Some (w', Ok tt)
    /\ connection.connections (connection.w_pool w') !! key = Some c'
    /\ connection.JSPConn c' = Some j'
    /\ jsp.Buffer j' = jsp.JSP_SOF :: hdr
    /\ connection.Buffer c' = []
    /\ connection.Conn c' = connection.Conn conn
    /\ connection.w_daemon w' = connection.w_daemon w.
Proof.
  intros L B G H4.
  unfold connection.processJSPData. cbn [connection.processJSPData_loop].
  unfold connection.processJSPData_turn.
  rewrite lookup_assign, L. cbn [fmap option_fmap option_map].
  cbn [connection.JSPConn connection.set_Buffer connection.set_JSPConn default].
  match goal with |- context [id ?x] => change (id x) with x end.
  rewrite B. rewrite TryReadPacket_skip by assumption.
  unfold jsp.TryReadPacket at 1. cbn [jsp.Buffer jsp.set_Buffer].
  replace (len (jsp.JSP_SOF :: hdr) =? 0) with false
    by (symmetry; apply Z.eqb_neq; unfold len; cbn [length]; lia).
  cbn [jsp.index_byte]. rewrite Z.eqb_refl. cbv iota beta zeta.
  change (0 <? 0) with false. cbv iota. cbn [jsp.Buffer jsp.set_Buffer].
  change (1 + jsp.JSP_LENGTH_SIZE) with 5.
  replace (len (jsp.JSP_SOF :: hdr) <? 5) with true
    by (symmetry; apply Z.ltb_lt; unfold len in *; cbn [length]; lia).
  eexists _, _, _. split; [reflexivity|].
  rewrite !lookup_assign, L. cbn [fmap option_fmap option_map].
  split; [reflexivity|]. repeat split.
Qed.

End Lines.

(** The line [OK] and the beginning of [PI...] on a SPHINX terminal. *)
Lemma sphinx_keeps_the_unfinished_line_witness :
  exists c' (k : nat),
    connection.connections
      (connection.w_pool (connection.processSphinxData 7 key0 sphinx_world)) !! key0
    = Some c'
    /\ connection.Buffer c'
       = drop k (connection.Buffer
                   (connection.set_Buffer [79; 75; 13; 10; 80; 73]
                                          (conn_of (terminal TTYPE_SPHINX))))
    /\ connection.index_crlf (connection.Buffer c') = None
    /\ connection.Conn c'
       = connection.Conn (connection.set_Buffer [79; 75; 13; 10; 80; 73]
                                                (conn_of (terminal TTYPE_SPHINX)))
    /\ connection.Settings c'
       = connection.Settings (connection.set_Buffer [79; 75; 13; 10; 80; 73]
                                                    (conn_of (terminal TTYPE_SPHINX))).
Proof.
  apply (sphinx_keeps_the_unfinished_line 7 key0 sphinx_world
           (connection.set_Buffer [79; 75; 13; 10; 80; 73]
                                  (conn_of (terminal TTYPE_SPHINX)))).
  vm_compute. reflexivity.
Defined.

(** A stray byte and the first three bytes of a frame on a JSP terminal. *)
Lemma jsp_partial_frame_is_kept_witness :
  exists w' c' j',
    connection.processJSPData no_json_Marshal no_json_Unmarshal None None 7 1 key0
                              jsp_partial_world = Some (w', Ok tt)
    /\ connection.connections (connection.w_pool w') !! key0 = Some c'
    /\ connection.JSPConn c' = Some j'
    /\ jsp.Buffer j' = jsp.JSP_SOF :: [48; 48]
    /\ connection.Buffer c' = []
    /\ connection.Conn c'
       = connection.Conn (connection.set_Buffer [0; 3; 48; 48]
                                                (conn_of (terminal TTYPE_JSP)))
    /\ connection.w_daemon w' = connection.w_daemon jsp_partial_world.
Proof.
  apply (jsp_partial_frame_is_kept no_json_Marshal no_json_Unmarshal None None 7 key0
           jsp_partial_world
           (connection.set_Buffer [0; 3; 48; 48] (conn_of (terminal TTYPE_JSP)))
           [0] [48; 48] 0).
  - vm_compute. reflexivity.
  - reflexivity.
  - reflexivity.
  - vm_compute. reflexivity.
Defined.
